(** * crytrade: indicator engine, signal classifier and timeframe selector

    A shallow embedding of [main.py].  The program computes RSI, Stochastic
    RSI and ATR with pandas over candlestick data, maps the indicator
    values to text labels and picks the timeframe with the highest score.

    Numbers.  Python floats are modelled by [float] below: the three IEEE
    special values (not-a-number and the two infinities) are kept, because
    the program's behaviour on a zero divisor depends on them, and every
    finite float is an exact rational.  The rounding error of binary64
    arithmetic is not modelled, and zero has no sign: a positive value
    divided by zero is plus infinity.  (pandas negates a Series of zeros
    in [calculate_rsi]; with a negative zero the quotient is minus infinity
    and [100 - 100 / (1 + rs)] is 100 all the same.)

    So a finite value here is the exact counterpart of the binary64 value
    of the program, not that value: the two can differ in the last
    decimal that [round] keeps (a mean of exactly 5/8 is 0.62 here and can
    be 0.63 there), and values that are equal here can differ there, so
    that a 0/0 here can be a number there.  What is stated of the
    Stochastic RSI below is therefore only where the arithmetic is exact:
    not-a-number by lack of history and on a flat series, and [None] on a
    short input.

    pandas.  Only the operations the program calls are modelled, each by
    its documented meaning: [diff], [where], [shift], [rolling(...).mean],
    [rolling(...).min], [rolling(...).max], the row-wise [max(axis=1)],
    element-wise arithmetic and [iloc[-1]]. *)

From Stdlib Require Import String Ascii.
From Stdlib Require Import QArith Qabs Qround ZArith Bool Arith List Lia Lqa.
Import ListNotations.

Open Scope Q_scope.

(* ------------------------------------------------------------------ *)
(** ** Floats *)

Module Float.

Inductive float : Type :=
| NaN
| PInf
| NInf
| Fin (q : Q).

Definition isnan (x : float) : bool :=
  match x with NaN => true | _ => false end.

Definition notnan (x : float) : bool := negb (isnan x).

Definition neg (x : float) : float :=
  match x with
  | NaN => NaN
  | PInf => NInf
  | NInf => PInf
  | Fin q => Fin (- q)
  end.

Definition add (x y : float) : float :=
  match x, y with
  | NaN, _ | _, NaN => NaN
  | PInf, NInf | NInf, PInf => NaN
  | PInf, _ | _, PInf => PInf
  | NInf, _ | _, NInf => NInf
  | Fin a, Fin b => Fin (a + b)
  end.

Definition sub (x y : float) : float := add x (neg y).

Definition abs (x : float) : float :=
  match x with
  | NaN => NaN
  | PInf | NInf => PInf
  | Fin q => Fin (Qabs q)
  end.

(** Sign of a rational as a comparison with zero. *)
Definition sgn (q : Q) : comparison := 0 ?= q.

(** numpy division, which pandas uses: a zero divisor does not raise; it
    gives an infinity for a non-zero dividend and not-a-number for 0/0. *)
Definition div (x y : float) : float :=
  match x, y with
  | NaN, _ | _, NaN => NaN
  | (PInf | NInf), (PInf | NInf) => NaN
  | PInf, Fin b => match sgn b with Gt => NInf | _ => PInf end
  | NInf, Fin b => match sgn b with Gt => PInf | _ => NInf end
  | Fin _, (PInf | NInf) => Fin 0
  | Fin a, Fin b =>
      match sgn b with
      | Eq => match sgn a with Eq => NaN | Lt => PInf | Gt => NInf end
      | _ => Fin (a / b)
      end
  end.

(** Comparisons: every comparison with not-a-number is false. *)
Definition ltb (x y : float) : bool :=
  match x, y with
  | NaN, _ | _, NaN => false
  | _, NInf => false
  | NInf, _ => true
  | PInf, _ => false
  | Fin _, PInf => true
  | Fin a, Fin b => match a ?= b with Lt => true | _ => false end
  end.

Definition gtb (x y : float) : bool := ltb y x.

Definition eqb (x y : float) : bool :=
  match x, y with
  | PInf, PInf | NInf, NInf => true
  | Fin a, Fin b => Qeq_bool a b
  | _, _ => false
  end.

(** Larger and smaller of two values that are not not-a-number. *)
Definition max (x y : float) : float := if ltb x y then y else x.
Definition min (x y : float) : float := if ltb y x then y else x.

(** Round half to even at the unit. *)
Definition rint (q : Q) : Z :=
  let f := Qfloor q in
  match ((q - inject_Z f) ?= (1 # 2))%Q with
  | Lt => f
  | Gt => (f + 1)%Z
  | Eq => if Z.even f then f else (f + 1)%Z
  end.

(** [round(x, ndigits)]: the nearest multiple of [10^-ndigits], ties to
    even; the special values are returned unchanged. *)
Definition round (x : float) (ndigits : nat) : float :=
  match x with
  | Fin q =>
      let p := inject_Z (10 ^ Z.of_nat ndigits) in
      Fin (inject_Z (rint (q * p)) / p)
  | _ => x
  end.

(** Value equality and order on the finite part, as propositions. *)
Definition is_fin (x : float) (q : Q) : Prop :=
  match x with Fin a => a == q | _ => False end.

Definition between (lo hi : Q) (x : float) : Prop :=
  match x with Fin a => lo <= a <= hi | _ => False end.

End Float.

Import Float.

(* ------------------------------------------------------------------ *)
(** ** Exceptions *)

Inductive exn : Type :=
| ValueError
| IndexError
| TypeError.

Inductive outcome (A : Type) : Type :=
| Raises (e : exn)
| Returns (a : A).

Arguments Raises {A} e.
Arguments Returns {A} a.

Definition bind {A B : Type} (m : outcome A) (k : A -> outcome B) : outcome B :=
  match m with
  | Raises e => Raises e
  | Returns a => k a
  end.

Notation "x <- m ;; k" := (bind m (fun x => k))
  (at level 61, m at next level, right associativity).
Notation "' ( x , y ) <- m ;; k" := (bind m (fun p => let '(x, y) := p in k))
  (at level 61, x name, y name, m at next level, right associativity).

(** A list comprehension whose body may raise: evaluated left to right, the
    first exception ends it. *)
Fixpoint comprehension {A B : Type} (f : A -> outcome B) (l : list A)
  : outcome (list B) :=
  match l with
  | [] => Returns []
  | a :: l' =>
      b <- f a ;;
      bs <- comprehension f l' ;;
      Returns (b :: bs)
  end.

(* ------------------------------------------------------------------ *)
(** ** The pandas operations the program uses *)

Module Pandas.

(** A float64 Series with the default index [0 .. n-1]. *)
Definition Series : Type := list float.

(** [pd.Series(l)] for a list of finite Python floats. *)
Definition of_floats (l : list Q) : Series := map Fin l.

(** [pd.Series(l)] for a list of floats and [None]: [None] becomes
    not-a-number. *)
Definition of_optional (l : list (option float)) : Series :=
  map (fun o => match o with Some x => x | None => NaN end) l.

Definition empty (s : Series) : bool :=
  match s with [] => true | _ => false end.

(** [s.iloc[-1]]: raises on an empty Series. *)
Definition iloc_last (s : Series) : outcome float :=
  match s with
  | [] => Raises IndexError
  | x :: s' => Returns (last s' x)
  end.

(** Element-wise binary operation on two Series with the same index. *)
Fixpoint map2 (f : float -> float -> float) (a b : Series) : Series :=
  match a, b with
  | x :: a', y :: b' => f x y :: map2 f a' b'
  | _, _ => []
  end.

(** [s.shift()]: every value moves one position later; position 0 is
    not-a-number. *)
Definition shift (s : Series) : Series :=
  match s with
  | [] => []
  | _ :: _ => NaN :: removelast s
  end.

(** [s.diff()]. *)
Definition diff (s : Series) : Series := map2 sub s (shift s).

(** [s.where(cond, other)]: keeps the value where [cond] holds. *)
Fixpoint where_ (s : Series) (cond : list bool) (other : float) : Series :=
  match s, cond with
  | x :: s', c :: cond' => (if c then x else other) :: where_ s' cond' other
  | _, _ => []
  end.

Definition gt_scalar (s : Series) (x : float) : list bool :=
  map (fun v => gtb v x) s.

Definition lt_scalar (s : Series) (x : float) : list bool :=
  map (fun v => ltb v x) s.

(** A rolling window object.  Constructing one with [min_periods] above
    the window size raises; [min_periods=None] means the window size. *)
Record Rolling : Type := {
  obj : Series;
  window : nat;
  min_periods : nat
}.

Definition rolling (s : Series) (w : nat) (minp : option nat) : outcome Rolling :=
  match minp with
  | None => Returns {| obj := s; window := w; min_periods := w |}
  | Some m =>
      if (w <? m)%nat then Raises ValueError
      else Returns {| obj := s; window := w; min_periods := m |}
  end.

(** The values at the (at most [w]) positions ending at position [i]. *)
Definition window_at (w : nat) (s : Series) (i : nat) : list float :=
  skipn (S i - w) (firstn (S i) s).

(** A rolling statistic: at each position, over the observations of the
    window that are not not-a-number, when there are at least
    [min_periods] of them; not-a-number otherwise. *)
Definition aggregate (stat : list float -> float) (r : Rolling) : Series :=
  map (fun i =>
         let obs := filter notnan (window_at (window r) (obj r) i) in
         if (min_periods r <=? length obs)%nat then stat obs else NaN)
      (seq 0 (length (obj r))).

Definition sum (l : list float) : float := fold_right add (Fin 0) l.

(** Mean of the observations; of no observation, not-a-number. *)
Definition mean_of (l : list float) : float :=
  div (sum l) (Fin (inject_Z (Z.of_nat (length l)))).

Definition min_of (l : list float) : float :=
  match l with
  | [] => NaN
  | x :: l' => fold_left Float.min l' x
  end.

Definition max_of (l : list float) : float :=
  match l with
  | [] => NaN
  | x :: l' => fold_left Float.max l' x
  end.

Definition mean (r : Rolling) : Series := aggregate mean_of r.
Definition min (r : Rolling) : Series := aggregate min_of r.
Definition max (r : Rolling) : Series := aggregate max_of r.

(** [pd.concat([a, b, c], axis=1).max(axis=1)]: the row-wise maximum,
    skipping not-a-number. *)
Fixpoint max_axis1 (a b c : Series) : Series :=
  match a, b, c with
  | x :: a', y :: b', z :: c' =>
      max_of (filter notnan [x; y; z]) :: max_axis1 a' b' c'
  | _, _, _ => []
  end.

End Pandas.

(* ------------------------------------------------------------------ *)
(** ** Indicator engine *)

(** One candlestick as the fetcher builds it: [[open, high, low, close]]. *)
Record bar : Type := {
  open : Q;
  high : Q;
  low : Q;
  close : Q
}.

Definition calculate_rsi (prices : list Q) (period : nat) : outcome (option float) :=
  if (length prices <? period)%nat then Returns None
  else
    let delta := Pandas.diff (Pandas.of_floats prices) in
    let gain := Pandas.where_ delta (Pandas.gt_scalar delta (Fin 0)) (Fin 0) in
    let loss := map neg (Pandas.where_ delta (Pandas.lt_scalar delta (Fin 0)) (Fin 0)) in
    rg <- Pandas.rolling gain period (Some 1%nat) ;;
    let avg_gain := Pandas.mean rg in
    rl <- Pandas.rolling loss period (Some 1%nat) ;;
    let avg_loss := Pandas.mean rl in
    let rs := Pandas.map2 div avg_gain avg_loss in
    let rsi := map (fun x => sub (Fin 100) (div (Fin 100) (add (Fin 1) x))) rs in
    if Pandas.empty rsi then Returns None
    else v <- Pandas.iloc_last rsi ;; Returns (Some v).

Definition calculate_stochrsi (prices : list Q) (period smoothK smoothD : nat)
  : outcome (option float * option float) :=
  if (length prices <? period)%nat then Returns (None, None)
  else
    rsis <- comprehension (fun i => calculate_rsi (firstn (S i) prices) period)
                          (seq 0 (length prices)) ;;
    let rsi_series := Pandas.of_optional rsis in
    rmin <- Pandas.rolling rsi_series period None ;;
    let min_rsi := Pandas.min rmin in
    rmax <- Pandas.rolling rsi_series period None ;;
    let max_rsi := Pandas.max rmax in
    let stochrsi :=
      Pandas.map2 div (Pandas.map2 sub rsi_series min_rsi)
                      (Pandas.map2 sub max_rsi min_rsi) in
    rk <- Pandas.rolling stochrsi smoothK None ;;
    let stochrsi_k := Pandas.mean rk in
    rd <- Pandas.rolling stochrsi_k smoothD None ;;
    let stochrsi_d := Pandas.mean rd in
    k <- Pandas.iloc_last stochrsi_k ;;
    d <- Pandas.iloc_last stochrsi_d ;;
    Returns (Some (round k 2), Some (round d 2)).

(** The local [true_range] of [calculate_atr], from its first seven lines. *)
Definition true_range (prices : list bar) : Pandas.Series :=
  let high_prices := Pandas.of_floats (map high prices) in
  let low_prices := Pandas.of_floats (map low prices) in
  let close_prices := Pandas.of_floats (map close prices) in
  let high_low := Pandas.map2 sub high_prices low_prices in
  let high_close := map abs (Pandas.map2 sub high_prices (Pandas.shift close_prices)) in
  let low_close := map abs (Pandas.map2 sub low_prices (Pandas.shift close_prices)) in
  Pandas.max_axis1 high_low high_close low_close.

Definition calculate_atr (prices : list bar) (period : nat) : outcome (option float) :=
  if (length prices <? period)%nat then Returns None
  else
    r <- Pandas.rolling (true_range prices) period None ;;
    let atr := Pandas.mean r in
    if Pandas.empty atr then Returns None
    else v <- Pandas.iloc_last atr ;; Returns (Some (round v 5)).

(* ------------------------------------------------------------------ *)
(** ** Signal classifier *)

Open Scope string_scope.
Open Scope list_scope.

(** Python's [needle in hay] on strings: substring containment. *)
Fixpoint contains (needle hay : string) : bool :=
  if prefix needle hay then true
  else
    match hay with
    | EmptyString => false
    | String _ hay' => contains needle hay'
    end.

(** The dictionary [get_trade_signal] returns, with its four fixed keys. *)
Record SignalSet : Type := {
  RSI_Signal : string;
  StochRSI_Signal : string;
  ATR_Signal : string;
  Estimated_Time_to_Hold : string
}.

(** [x > y] where [y] may be [None]: Python raises on that comparison. *)
Definition gt_optional (x : float) (y : option float) : outcome bool :=
  match y with
  | Some y' => Returns (gtb x y')
  | None => Raises TypeError
  end.

(** The caller passes [rsi], [stochrsi_k] and [atr] only after checking
    that they are not [None]; [stochrsi_d] is passed unchecked. *)
Definition get_trade_signal (rsi stochrsi_k : float) (stochrsi_d : option float)
  (atr : float) : outcome SignalSet :=
  let rsi_signal :=
    if gtb rsi (Fin 70) then "Overbought - Strong Sell"
    else if ltb rsi (Fin 30) then "Oversold - Strong Buy"
    else "Neutral" in
  stochrsi_signal <-
    (if gtb stochrsi_k (Fin 0.8) then Returns "Strong Sell"
     else if ltb stochrsi_k (Fin 0.2) then Returns "Strong Buy"
     else
       c <- gt_optional stochrsi_k stochrsi_d ;;
       Returns (if c then "Buy" else "Sell")) ;;
  let volatility_signal :=
    if eqb atr (Fin 0) then "Sideways (Low volatility)"
    else if gtb atr (Fin 0.002) then "High Volatility"
    else "Stable Market" in
  let estimated_hold_time :=
    if contains "Buy" rsi_signal || contains "Buy" stochrsi_signal
    then "Hold for 1-3 days"
    else if contains "Sell" rsi_signal || contains "Sell" stochrsi_signal
    then "Exit within hours"
    else "Wait for a clear signal" in
  Returns {| RSI_Signal := rsi_signal;
             StochRSI_Signal := stochrsi_signal;
             ATR_Signal := volatility_signal;
             Estimated_Time_to_Hold := estimated_hold_time |}.

(* ------------------------------------------------------------------ *)
(** ** Timeframe selector *)

Definition timeframes : list string := ["15m"; "1h"; "4h"; "1d"].

(** The [results] dictionary, in insertion order. *)
Definition dict : Type := list (string * SignalSet).

Fixpoint setitem (d : dict) (k : string) (v : SignalSet) : dict :=
  match d with
  | [] => [(k, v)]
  | (k', v') :: d' =>
      if String.eqb k' k then (k', v) :: d' else (k', v') :: setitem d' k v
  end.

Fixpoint getitem (d : dict) (k : string) : option SignalSet :=
  match d with
  | [] => None
  | (k', v') :: d' => if String.eqb k' k then Some v' else getitem d' k
  end.

(** The four [if] statements that compute [signal_strength] from the
    two labels. *)
Definition signal_strength (signals : SignalSet) : Z :=
  let r := RSI_Signal signals in
  let s := StochRSI_Signal signals in
  let strength := 0%Z in
  let strength :=
    if contains "Strong Buy" r || contains "Strong Buy" s
    then (strength + 2)%Z else strength in
  let strength :=
    if contains "Buy" r || contains "Buy" s
    then (strength + 1)%Z else strength in
  let strength :=
    if contains "Strong Sell" r || contains "Strong Sell" s
    then (strength - 2)%Z else strength in
  let strength :=
    if contains "Sell" r || contains "Sell" s
    then (strength - 1)%Z else strength in
  strength.

(** The variables the loop of [analyze_best_timeframe] updates. *)
Record selection : Type := {
  best_timeframe : option string;
  best_signal_strength : Z;
  results : dict
}.

Definition initial : selection :=
  {| best_timeframe := None; best_signal_strength := (-1)%Z; results := [] |}.

(** The fetcher is outside the core: [None] when no data could be had.
    A fetcher stands for the calls of [get_historical_klines] that
    return; the call that ends with the exception of [requests.get] is in
    [analyze_best_timeframe_net] further down. *)
Definition fetcher : Type := string -> string -> option (list bar).

(** One iteration of the [for timeframe in timeframes] loop. *)
Definition iteration (get_historical_klines : fetcher) (crypto : string)
  (st : selection) (timeframe : string) : outcome selection :=
  match get_historical_klines crypto timeframe with
  | None | Some [] => Returns st
  | Some prices =>
      let closing_prices := map close prices in
      rsi <- calculate_rsi closing_prices 14 ;;
      '(stochrsi_k, stochrsi_d) <- calculate_stochrsi closing_prices 14 3 3 ;;
      atr <- calculate_atr prices 14 ;;
      match rsi, stochrsi_k, atr with
      | Some rsi', Some stochrsi_k', Some atr' =>
          signals <- get_trade_signal rsi' stochrsi_k' stochrsi_d atr' ;;
          let results' := setitem (results st) timeframe signals in
          let strength := signal_strength signals in
          if (best_signal_strength st <? strength)%Z
          then Returns {| best_timeframe := Some timeframe;
                          best_signal_strength := strength;
                          results := results' |}
          else Returns {| best_timeframe := best_timeframe st;
                          best_signal_strength := best_signal_strength st;
                          results := results' |}
      | _, _, _ => Returns st
      end
  end.

Fixpoint for_each {S A : Type} (body : S -> A -> outcome S) (l : list A) (st : S)
  : outcome S :=
  match l with
  | [] => Returns st
  | a :: l' => st' <- body st a ;; for_each body l' st'
  end.

Definition analyze_best_timeframe (get_historical_klines : fetcher) (crypto : string)
  : outcome (option string * dict) :=
  st <- for_each (iteration get_historical_klines crypto) timeframes initial ;;
  Returns (best_timeframe st, results st).

(* ------------------------------------------------------------------ *)
(** ** Local variables of the indicator functions

    The specification speaks of values the functions hold in local
    variables (the average loss, the rolling means before rounding).  They
    are given here as functions of the arguments, by the same expressions
    as in the functions above; [calculate_rsi_eq], [calculate_stochrsi_eq]
    and [calculate_atr_eq] below relate them to what the functions
    return. *)

(** [gain] and [loss] of [calculate_rsi]. *)
Definition rsi_gain (prices : list Q) : Pandas.Series :=
  let delta := Pandas.diff (Pandas.of_floats prices) in
  Pandas.where_ delta (Pandas.gt_scalar delta (Fin 0)) (Fin 0).

Definition rsi_loss (prices : list Q) : Pandas.Series :=
  let delta := Pandas.diff (Pandas.of_floats prices) in
  map neg (Pandas.where_ delta (Pandas.lt_scalar delta (Fin 0)) (Fin 0)).

(** [avg_gain] and [avg_loss] of [calculate_rsi]. *)
Definition rsi_avg_gain (prices : list Q) (period : nat) : Pandas.Series :=
  Pandas.mean {| Pandas.obj := rsi_gain prices; Pandas.window := period;
                 Pandas.min_periods := 1 |}.

Definition rsi_avg_loss (prices : list Q) (period : nat) : Pandas.Series :=
  Pandas.mean {| Pandas.obj := rsi_loss prices; Pandas.window := period;
                 Pandas.min_periods := 1 |}.

(** The last line of the arithmetic of [calculate_rsi] at one position. *)
Definition rsi_formula (avg_gain avg_loss : float) : float :=
  sub (Fin 100) (div (Fin 100) (add (Fin 1) (div avg_gain avg_loss))).

(** [rsi_series] of [calculate_stochrsi]. *)
Definition stochrsi_rsi_series (prices : list Q) (period : nat)
  : outcome Pandas.Series :=
  rsis <- comprehension (fun i => calculate_rsi (firstn (S i) prices) period)
                        (seq 0 (length prices)) ;;
  Returns (Pandas.of_optional rsis).

(** A rolling window with [min_periods=None]. *)
Definition full_window (s : Pandas.Series) (w : nat) : Pandas.Rolling :=
  {| Pandas.obj := s; Pandas.window := w; Pandas.min_periods := w |}.

(** [stochrsi] of [calculate_stochrsi], from its [rsi_series]. *)
Definition stochrsi_raw (rsi_series : Pandas.Series) (period : nat) : Pandas.Series :=
  let min_rsi := Pandas.min (full_window rsi_series period) in
  let max_rsi := Pandas.max (full_window rsi_series period) in
  Pandas.map2 div (Pandas.map2 sub rsi_series min_rsi)
                  (Pandas.map2 sub max_rsi min_rsi).

(** [stochrsi_k] and [stochrsi_d] of [calculate_stochrsi]: the two rolling
    means, before rounding. *)
Definition stochrsi_k_series (rsi_series : Pandas.Series) (period smoothK : nat)
  : Pandas.Series :=
  Pandas.mean (full_window (stochrsi_raw rsi_series period) smoothK).

Definition stochrsi_d_series (rsi_series : Pandas.Series) (period smoothK smoothD : nat)
  : Pandas.Series :=
  Pandas.mean (full_window (stochrsi_k_series rsi_series period smoothK) smoothD).

(** [atr] of [calculate_atr]: the rolling mean of the true range. *)
Definition atr_series (prices : list bar) (period : nat) : Pandas.Series :=
  Pandas.mean (full_window (true_range prices) period).

(* ------------------------------------------------------------------ *)
(** ** Rounded values *)

(** A value that is a whole number of [10^-ndigits]. *)
Definition has_decimals (ndigits : nat) (x : float) : Prop :=
  exists n : Z, is_fin x (inject_Z n / inject_Z (10 ^ Z.of_nat ndigits)).

(** [y] is a nearest multiple of [10^-ndigits] to [x]. *)
Definition nearest (ndigits : nat) (x y : float) : Prop :=
  match x, y with
  | Fin a, Fin b =>
      Qabs (b - a) <= (1 # 2) / inject_Z (10 ^ Z.of_nat ndigits)
  | _, _ => False
  end.

(* ------------------------------------------------------------------ *)
(** ** Inputs used in the examples below *)

Definition flat_bar (c : Q) : bar :=
  {| open := c; high := c; low := c; close := c |}.

(** Fourteen bars at the same price. *)
Definition flat_bars : list bar := repeat (flat_bar 1) 14.

(** Fifteen closes rising by one. *)
Definition rising_closes : list Q :=
  map (fun n => inject_Z (Z.of_nat n)) (seq 1 15).

(** Three bars: too few for any indicator. *)
Definition short_bars : list bar := repeat (flat_bar 1) 3.

Definition always (prices : list bar) : fetcher := fun _ _ => Some prices.

Definition example_signals : SignalSet :=
  {| RSI_Signal := "Oversold - Strong Buy";
     StochRSI_Signal := "Buy";
     ATR_Signal := "Stable Market";
     Estimated_Time_to_Hold := "Hold for 1-3 days" |}.

(** Thirty-six closes that rise with setbacks. *)
Definition zigzag_closes : list Q :=
  [10; 12; 11; 13; 12; 15; 14; 14; 16; 11; 13; 12; 15; 17; 16; 18; 17; 19;
   21; 20; 22; 19; 18; 20; 23; 22; 24; 25; 23; 26; 27; 25; 28; 30; 29; 31].

(** Candlesticks around the closes: one above and one below. *)
Definition candles : list bar :=
  map (fun c => {| open := c; high := c + 1; low := c - 1; close := c |})
      zigzag_closes.

(** Bars whose four prices are the given closes. *)
Definition bars_of (closes : list Q) : list bar := map flat_bar closes.

(** A fetcher with a score of -1 on "15m", of 1 on "1h" and on "4h", and
    too few bars on "1d". *)
Definition example_fetcher : fetcher :=
  fun _ timeframe =>
    if String.eqb timeframe "15m" then Some (bars_of (zigzag_closes ++ [30; 29; 30]))
    else if String.eqb timeframe "1h" then Some (bars_of (rev zigzag_closes))
    else if String.eqb timeframe "4h" then Some (bars_of (rev zigzag_closes ++ [11; 12]))
    else Some short_bars.

(** A fetcher with a score of -1 on every timeframe. *)
Definition sell_fetcher : fetcher :=
  fun _ _ => Some (bars_of (zigzag_closes ++ [30; 29; 30])).

(* ------------------------------------------------------------------ *)
(** ** Predicates on values *)

(** A finite value. *)
Definition finite (x : float) : Prop := exists q, x = Fin q.

(** A finite value with a lower bound, with an upper bound, positive. *)
Definition ge_fin (lo : Q) (x : float) : Prop :=
  match x with Fin q => lo <= q | _ => False end.

Definition le_fin (hi : Q) (x : float) : Prop :=
  match x with Fin q => q <= hi | _ => False end.

Definition is_pos (x : float) : Prop :=
  match x with Fin q => 0 < q | _ => False end.

(** Not-a-number, or a value with the property. *)
Definition nan_or (P : float -> Prop) (x : float) : Prop := x = NaN \/ P x.

(** The number of observations, as a rational. *)
Definition count (l : list float) : Q := inject_Z (Z.of_nat (length l)).

(* ------------------------------------------------------------------ *)
(** ** The true range by position *)

(** The first bar has no previous close: the two terms that use it are
    not-a-number and the row-wise maximum skips them. *)
Definition tr_first (b : bar) : float := Fin (high b + - low b).

Definition tr_next (prev : Q) (b : bar) : float :=
  Pandas.max_of [Fin (high b + - low b);
                 Fin (Qabs (high b + - prev));
                 Fin (Qabs (low b + - prev))].

Fixpoint tr_rest (prev : Q) (bars : list bar) : Pandas.Series :=
  match bars with
  | [] => []
  | b :: bars' => tr_next prev b :: tr_rest (close b) bars'
  end.

(** A candlestick has its low at or below its high. *)
Definition ordered (b : bar) : Prop := low b <= high b.

(** The first bar has its low at or below its high. *)
Definition first_bar_ordered (prices : list bar) : Prop :=
  match prices with
  | [] => True
  | b :: _ => low b <= high b
  end.

(* ------------------------------------------------------------------ *)
(** ** The score and the loop, restated *)

(** One of the four tests of the score: either label contains the word. *)
Definition either (needle : string) (signals : SignalSet) : bool :=
  contains needle (RSI_Signal signals) || contains needle (StochRSI_Signal signals).

Definition indicator (b : bool) : Z := if b then 1%Z else 0%Z.

(** What one iteration does to the loop variables once a SignalSet has
    been obtained. *)
Definition update (st : selection) (timeframe : string) (signals : SignalSet)
  : selection :=
  if (best_signal_strength st <? signal_strength signals)%Z
  then {| best_timeframe := Some timeframe;
          best_signal_strength := signal_strength signals;
          results := setitem (results st) timeframe signals |}
  else {| best_timeframe := best_timeframe st;
          best_signal_strength := best_signal_strength st;
          results := setitem (results st) timeframe signals |}.

(** The SignalSet the loop body records for a timeframe; [None] when the
    timeframe is skipped. *)
Definition classified (klines : fetcher) (crypto timeframe : string)
  : option SignalSet :=
  match iteration klines crypto initial timeframe with
  | Returns st => getitem (results st) timeframe
  | Raises _ => None
  end.

(** The score of a timeframe; [None] when the timeframe is skipped. *)
Definition score (klines : fetcher) (crypto timeframe : string) : option Z :=
  option_map signal_strength (classified klines crypto timeframe).

(** [tf] is the first of [tfs] with the highest score, and that score is
    above -1. *)
Definition first_maximum (f : string -> option Z) (tfs : list string)
  (tf : string) : Prop :=
  exists pre post s,
    tfs = pre ++ tf :: post
    /\ f tf = Some s
    /\ (-1 < s)%Z
    /\ (forall tf' s', In tf' pre -> f tf' = Some s' -> (s' < s)%Z)
    /\ (forall tf' s', In tf' post -> f tf' = Some s' -> (s' <= s)%Z).

(** The loop of the selector over the SignalSets [f] of the timeframes. *)
Definition step (f : string -> option SignalSet) (st : selection) (tf : string)
  : selection :=
  match f tf with
  | None => st
  | Some signals => update st tf signals
  end.

Definition strength_of (f : string -> option SignalSet) (tf : string) : option Z :=
  option_map signal_strength (f tf).

(** What holds of the loop variables after the timeframes [done]. *)
Definition invariant (f : string -> option SignalSet) (done : list string)
  (st : selection) : Prop :=
  match best_timeframe st with
  | None =>
      best_signal_strength st = (-1)%Z
      /\ forall tf s, In tf done -> strength_of f tf = Some s -> (s <= -1)%Z
  | Some tf =>
      exists pre post,
        done = pre ++ tf :: post
        /\ strength_of f tf = Some (best_signal_strength st)
        /\ (-1 < best_signal_strength st)%Z
        /\ (forall tf' s', In tf' pre -> strength_of f tf' = Some s' ->
                           (s' < best_signal_strength st)%Z)
        /\ (forall tf' s', In tf' post -> strength_of f tf' = Some s' ->
                           (s' <= best_signal_strength st)%Z)
  end.

(* ------------------------------------------------------------------ *)
(** ** The fetcher: [get_historical_klines]

    The network is outside the program.  It is given as [requests_get]:
    what [requests.get] does at each attempt of one call, for the symbol,
    interval and limit it is asked.  A JSON value is seen through what the
    function does with it: whether it is falsy, and the sequence of its
    entries when it can be iterated.  Indexing an entry and [float] are a
    parameter, [ohlc]: the bar [[float(entry[1]), ..., float(entry[4])]],
    or [None] when one of them raises. *)

Inductive payload (entry : Type) : Type :=
| Undecodable
| Scalar (truthy : bool)
| Entries (data : list entry).

Arguments Undecodable {entry}.
Arguments Scalar {entry} truthy.
Arguments Entries {entry} data.

Inductive reply (entry : Type) : Type :=
| Fails
| Response (status_code : Z) (body : payload entry).

Arguments Fails {entry}.
Arguments Response {entry} status_code body.

(** The three messages the function prints. *)
Inductive message : Type :=
| NoData (symbol interval : string)
| DecodeError (symbol : string)
| FetchError (symbol : string) (attempt retries : nat) (status_code : Z).

(** What the function does besides returning, in order. *)
Inductive event : Type :=
| Request (symbol interval : string) (limit : nat)
| Print (m : message)
| Sleep (seconds : nat).

(** How a call ends: with a value, or with the exception of
    [requests.get], which the function does not catch. *)
Inductive ending (A : Type) : Type :=
| Propagates
| Gives (a : A).

Arguments Propagates {A}.
Arguments Gives {A} a.

(** The list comprehension of line 19: every entry must convert. *)
Fixpoint convert {entry : Type} (ohlc : entry -> option bar) (data : list entry)
  : option (list bar) :=
  match data with
  | [] => Some []
  | e :: data' =>
      match ohlc e, convert ohlc data' with
      | Some b, Some bs => Some (b :: bs)
      | _, _ => None
      end
  end.

(** The [try] block, lines 13 to 22, on the body of a 200 response. *)
Definition decode {entry : Type} (ohlc : entry -> option bar)
  (symbol interval : string) (body : payload entry)
  : list event * option (list bar) :=
  match body with
  | Undecodable => ([Print (DecodeError symbol)], None)
  | Scalar false | Entries [] => ([Print (NoData symbol interval)], None)
  | Scalar true => ([Print (DecodeError symbol)], None)
  | Entries data =>
      match convert ohlc data with
      | Some prices => ([], Some prices)
      | None => ([Print (DecodeError symbol)], None)
      end
  end.

(** The [for attempt in range(retries)] loop over the attempts left. *)
Fixpoint attempts {entry : Type} (ohlc : entry -> option bar)
  (requests_get : string -> string -> nat -> nat -> reply entry)
  (symbol interval : string) (limit retries delay : nat) (todo : list nat)
  : list event * ending (option (list bar)) :=
  match todo with
  | [] => ([], Gives None)
  | attempt :: todo' =>
      match requests_get symbol interval limit attempt with
      | Fails => ([Request symbol interval limit], Propagates)
      | Response status_code body =>
          if (status_code =? 200)%Z
          then
            let (printed, prices) := decode ohlc symbol interval body in
            (Request symbol interval limit :: printed, Gives prices)
          else
            let (later, result) :=
              attempts ohlc requests_get symbol interval limit retries delay todo' in
            (Request symbol interval limit
               :: Print (FetchError symbol (S attempt) retries status_code)
               :: Sleep delay :: later,
             result)
      end
  end.

Definition get_historical_klines {entry : Type} (ohlc : entry -> option bar)
  (requests_get : string -> string -> nat -> nat -> reply entry)
  (symbol interval : string) (limit retries delay : nat)
  : list event * ending (option (list bar)) :=
  attempts ohlc requests_get symbol interval limit retries delay (seq 0 retries).

(** The reply at an attempt is a response with a status other than 200. *)
Definition refused {entry : Type}
  (requests_get : string -> string -> nat -> nat -> reply entry)
  (symbol interval : string) (limit attempt : nat) : Prop :=
  exists status_code body,
    requests_get symbol interval limit attempt = Response status_code body
    /\ status_code <> 200%Z.

(** The requests and the seconds slept in a trace. *)
Definition requests_made (trace : list event) : nat :=
  length (filter (fun e => match e with Request _ _ _ => true | _ => false end) trace).

Definition seconds_slept (trace : list event) : nat :=
  fold_right (fun e n => match e with Sleep s => (s + n)%nat | _ => n end) 0%nat trace.

(** A network on which [requests.get] never raises gives a fetcher, with
    the default arguments of [get_historical_klines]. *)
Definition fetcher_of {entry : Type} (ohlc : entry -> option bar)
  (requests_get : string -> string -> nat -> nat -> reply entry) : fetcher :=
  fun symbol interval =>
    match snd (get_historical_klines ohlc requests_get symbol interval 100 3 3) with
    | Gives prices => prices
    | Propagates => None
    end.

(** Example networks.  An entry is a list of numbers; a bar is made of
    its positions 1 to 4. *)
Definition example_ohlc (e : list Q) : option bar :=
  match e with
  | _ :: o :: h :: l :: c :: _ =>
      Some {| open := o; high := h; low := l; close := c |}
  | _ => None
  end.

(** Always status 500. *)
Definition down_network : string -> string -> nat -> nat -> reply (list Q) :=
  fun _ _ _ _ => Response 500 Undecodable.

(** Status 429 at the first attempt, then one good entry; a third
    request would raise. *)
Definition busy_network : string -> string -> nat -> nat -> reply (list Q) :=
  fun _ _ _ attempt =>
    match attempt with
    | O => Response 429 Undecodable
    | S O => Response 200 (Entries [[0; 1; 3; 1; 2; 7]])
    | _ => Fails
    end.

(** Status 503 at the first attempt, then thirty-six good entries. *)
Definition slow_network : string -> string -> nat -> nat -> reply (list Q) :=
  fun _ _ _ attempt =>
    match attempt with
    | O => Response 503 Undecodable
    | _ => Response 200 (Entries (map (fun c => [0; c; c; c; c]) zigzag_closes))
    end.

(** Status 500 at the first attempt, then [requests.get] raises. *)
Definition broken_network : string -> string -> nat -> nat -> reply (list Q) :=
  fun _ _ _ attempt =>
    match attempt with
    | O => Response 500 Undecodable
    | _ => Fails
    end.

(* ------------------------------------------------------------------ *)
(** ** The selector over a network

    [analyze_best_timeframe] above takes the fetcher as a function that
    returns: it is the analysis of the values [get_historical_klines]
    returns.  Here [get_historical_klines] is in its place at line 119,
    with its default arguments: the call for a timeframe either ends with
    the exception of [requests.get], which nothing catches and which ends
    the analysis, or gives the prices the body of the loop goes on
    with. *)

Fixpoint analyze_timeframes {entry : Type} (ohlc : entry -> option bar)
  (requests_get : string -> string -> nat -> nat -> reply entry)
  (crypto : string) (todo : list string) (st : selection)
  : ending (outcome selection) :=
  match todo with
  | [] => Gives (Returns st)
  | timeframe :: todo' =>
      match snd (get_historical_klines ohlc requests_get crypto timeframe 100 3 3) with
      | Propagates => Propagates
      | Gives prices =>
          match iteration (fun _ _ => prices) crypto st timeframe with
          | Raises e => Gives (Raises e)
          | Returns st' => analyze_timeframes ohlc requests_get crypto todo' st'
          end
      end
  end.

Definition analyze_best_timeframe_net {entry : Type} (ohlc : entry -> option bar)
  (requests_get : string -> string -> nat -> nat -> reply entry)
  (crypto : string) : ending (outcome (option string * dict)) :=
  match analyze_timeframes ohlc requests_get crypto timeframes initial with
  | Propagates => Propagates
  | Gives (Raises e) => Gives (Raises e)
  | Gives (Returns st) => Gives (Returns (best_timeframe st, results st))
  end.

(** What the call of [get_historical_klines] for a timeframe ends with. *)
Definition fetched {entry : Type} (ohlc : entry -> option bar)
  (requests_get : string -> string -> nat -> nat -> reply entry)
  (crypto timeframe : string) : ending (option (list bar)) :=
  snd (get_historical_klines ohlc requests_get crypto timeframe 100 3 3).

(* ------------------------------------------------------------------ *)
(** ** The report: [check_crypto_rsi]

    [str.upper] is a parameter.  The result is the lines the function
    itself prints (the messages of [get_historical_klines] are in its own
    trace), or how it is cut short. *)

Inductive run (A : Type) : Type :=
| Interrupted (printed : A)
| KeyError
| Uncaught (e : exn)
| Completes (a : A).

Arguments Interrupted {A} printed.
Arguments KeyError {A}.
Arguments Uncaught {A} e.
Arguments Completes {A} a.

(** Truth value of [best_timeframe] in [if best_timeframe:]. *)
Definition truthy (best : option string) : bool :=
  match best with
  | None | Some EmptyString => false
  | Some _ => true
  end.

(** [signals.items()], in the order the dictionary is written. *)
Definition items (signals : SignalSet) : list (string * string) :=
  [("RSI Signal", RSI_Signal signals);
   ("StochRSI Signal", StochRSI_Signal signals);
   ("ATR Signal", ATR_Signal signals);
   ("Estimated Time to Hold", Estimated_Time_to_Hold signals)].

Definition newline : string := String (ascii_of_nat 10) EmptyString.

(** [Interrupted]: the exception of [requests.get] leaves the function
    after the heading is printed. *)
Definition check_crypto_rsi {entry : Type} (upper : string -> string)
  (ohlc : entry -> option bar)
  (requests_get : string -> string -> nat -> nat -> reply entry)
  (crypto_pair : string) : run (list string) :=
  let first :=
    String.append "Analyzing "
      (String.append (upper crypto_pair) "USDT across multiple timeframes...") in
  match analyze_best_timeframe_net ohlc requests_get
          (String.append (upper crypto_pair) "USDT") with
  | Propagates => Interrupted [first]
  | Gives (Raises e) => Uncaught e
  | Gives (Returns (best_timeframe, analysis_results)) =>
      match (if truthy best_timeframe then best_timeframe else None) with
      | Some tf =>
          match getitem analysis_results tf with
          | None => KeyError
          | Some signals =>
              Completes
                (first
                   :: String.append newline (String.append "Best Timeframe: " tf)
                   :: map (fun kv => String.append (fst kv)
                                       (String.append ": " (snd kv)))
                          (items signals))
          end
      | None => Completes [first; "No strong signal detected."]
      end
  end.

(* ------------------------------------------------------------------ *)
(** ** Shapes of a price series *)

(** No close is below the one before it; no close is above the one
    before it. *)
Definition never_falls (prices : list Q) : Prop :=
  forall i, (S i < length prices)%nat -> nth i prices 0 <= nth (S i) prices 0.

Definition never_rises (prices : list Q) : Prop :=
  forall i, (S i < length prices)%nat -> nth (S i) prices 0 <= nth i prices 0.

(** The last close is above, or below, the one before it. *)
Definition ends_up (prices : list Q) : Prop :=
  (2 <= length prices)%nat
  /\ nth (length prices - 2) prices 0 < nth (length prices - 1) prices 0.

Definition ends_down (prices : list Q) : Prop :=
  (2 <= length prices)%nat
  /\ nth (length prices - 1) prices 0 < nth (length prices - 2) prices 0.

(** Fifteen closes falling by one. *)
Definition falling_closes : list Q := rev rising_closes.

(** Every bar has its high, low and close at the price [c]. *)
Definition flat_at (c : Q) (bars : list bar) : Prop :=
  Forall (fun b => high b == c /\ low b == c /\ close b == c) bars.

(** [requests.get] never raises on this network. *)
Definition never_fails {entry : Type}
  (requests_get : string -> string -> nat -> nat -> reply entry) : Prop :=
  forall symbol interval limit attempt,
    requests_get symbol interval limit attempt <> Fails.

(** Every value before position [a] is not-a-number. *)
Definition nan_before (a : nat) (s : Pandas.Series) : Prop :=
  forall j, (j < a)%nat -> nth j s NaN = NaN.

(** A value that is zero. *)
Definition is_zero (x : float) : Prop := is_fin x 0.

(** The SignalSet of a flat market. *)
Definition flat_signals : SignalSet :=
  {| RSI_Signal := "Neutral";
     StochRSI_Signal := "Sell";
     ATR_Signal := "Sideways (Low volatility)";
     Estimated_Time_to_Hold := "Exit within hours" |}.

(** The labels [get_trade_signal] can give. *)
Definition rsi_labels : list string :=
  ["Overbought - Strong Sell"; "Oversold - Strong Buy"; "Neutral"].

Definition stochrsi_labels : list string :=
  ["Strong Sell"; "Strong Buy"; "Buy"; "Sell"].

Definition atr_labels : list string :=
  ["Sideways (Low volatility)"; "High Volatility"; "Stable Market"].

(* ------------------------------------------------------------------ *)
(** * Properties *)

(** ** The score *)

(** The four tests add up: each contributes once, however many of the two
    labels contain the word. *)
Lemma signal_strength_sum (signals : SignalSet) :
  signal_strength signals =
  (2 * indicator (either "Strong Buy" signals)
   + indicator (either "Buy" signals)
   - 2 * indicator (either "Strong Sell" signals)
   - indicator (either "Sell" signals))%Z.
Proof.
  unfold signal_strength, either, indicator.
  destruct (contains "Strong Buy" _ || contains "Strong Buy" _);
    destruct (contains "Buy" _ || contains "Buy" _);
    destruct (contains "Strong Sell" _ || contains "Strong Sell" _);
    destruct (contains "Sell" _ || contains "Sell" _); reflexivity.
Qed.

(** C1, as stated, fails: a SignalSet with rsiSignal "Oversold - Strong
    Buy" and stochrsiSignal "Buy" scores 3, not 4. *)
Lemma score_strong_buy_and_buy_not_4 :
  exists signals : SignalSet,
    RSI_Signal signals = "Oversold - Strong Buy"
    /\ StochRSI_Signal signals = "Buy"
    /\ signal_strength signals = 3%Z
    /\ signal_strength signals <> 4%Z.
Proof.
  exists example_signals. repeat split. vm_compute. discriminate.
Qed.

(** C1 (amended): the score is the sum of +2, +1, -2 and -1, each counted
    once when either label contains "Strong Buy", "Buy", "Strong Sell" or
    "Sell"; for rsiSignal "Oversold - Strong Buy" and stochrsiSignal "Buy"
    it is 3: the "Buy" test is one test over both labels and adds 1 once. *)
Theorem score_strong_buy_and_buy (volatility hold : string) :
  let signals := {| RSI_Signal := "Oversold - Strong Buy";
                    StochRSI_Signal := "Buy";
                    ATR_Signal := volatility;
                    Estimated_Time_to_Hold := hold |} in
  signal_strength signals = 3%Z
  /\ signal_strength signals =
     (2 * indicator (either "Strong Buy" signals)
      + indicator (either "Buy" signals)
      - 2 * indicator (either "Strong Sell" signals)
      - indicator (either "Sell" signals))%Z.
Proof.
  intros signals. split.
  - reflexivity.
  - apply signal_strength_sum.
Qed.

(** ** Short inputs *)

(** C4: on an input shorter than the period, [calculate_rsi] returns
    [None], [calculate_stochrsi] returns [(None, None)] and
    [calculate_atr] returns [None]; each returns, none raises. *)
Theorem short_input_is_absent (prices : list Q) (bars : list bar)
  (period smoothK smoothD : nat) :
  (length prices < period)%nat ->
  (length bars < period)%nat ->
  calculate_rsi prices period = Returns None
  /\ calculate_stochrsi prices period smoothK smoothD = Returns (None, None)
  /\ calculate_atr bars period = Returns None.
Proof.
  intros Hp Hb.
  apply Nat.ltb_lt in Hp. apply Nat.ltb_lt in Hb.
  unfold calculate_rsi, calculate_stochrsi, calculate_atr.
  rewrite Hp, Hb. repeat split.
Qed.

Lemma short_input_is_absent_witness :
  calculate_rsi (map close short_bars) 14 = Returns None
  /\ calculate_stochrsi (map close short_bars) 14 3 3 = Returns (None, None)
  /\ calculate_atr short_bars 14 = Returns None.
Proof.
  apply (short_input_is_absent (map close short_bars) short_bars 14 3 3);
    simpl; lia.
Defined.

(** ** The classifier at its thresholds *)

Lemma ltb_Fin_false (a b : Q) : b <= a -> ltb (Fin a) (Fin b) = false.
Proof.
  intros H. unfold ltb. destruct (a ?= b)%Q eqn:E; try reflexivity.
  apply (proj2 (Qlt_alt a b)) in E. lra.
Qed.

(** C9: every threshold of [get_trade_signal] is strict.  An RSI of 70 or
    of 30 is "Neutral"; a %K of 0.8 or of 0.2 is decided by the comparison
    of %K with %D, so it is "Buy" or "Sell"; an ATR of 0.002 is "Stable
    Market" and an ATR of 0 is "Sideways (Low volatility)". *)
Theorem boundaries_are_not_extreme (rsi70 rsi30 k08 k02 atr0002 atr0 : Q)
  (rsi k d atr : float) :
  rsi70 == 70 -> rsi30 == 30 -> k08 == 0.8 -> k02 == 0.2 ->
  atr0002 == 0.002 -> atr0 == 0 ->
  (exists s, get_trade_signal (Fin rsi70) k (Some d) atr = Returns s
             /\ RSI_Signal s = "Neutral")
  /\ (exists s, get_trade_signal (Fin rsi30) k (Some d) atr = Returns s
                /\ RSI_Signal s = "Neutral")
  /\ (exists s, get_trade_signal rsi (Fin k08) (Some d) atr = Returns s
                /\ StochRSI_Signal s = (if gtb (Fin k08) d then "Buy" else "Sell")
                /\ StochRSI_Signal s <> "Strong Sell")
  /\ (exists s, get_trade_signal rsi (Fin k02) (Some d) atr = Returns s
                /\ StochRSI_Signal s = (if gtb (Fin k02) d then "Buy" else "Sell")
                /\ StochRSI_Signal s <> "Strong Buy")
  /\ (exists s, get_trade_signal rsi k (Some d) (Fin atr0002) = Returns s
                /\ ATR_Signal s = "Stable Market")
  /\ (exists s, get_trade_signal rsi k (Some d) (Fin atr0) = Returns s
                /\ ATR_Signal s = "Sideways (Low volatility)").
Proof.
  intros H70 H30 H08 H02 H0002 H0.
  assert (Hrsi : forall q, q == 70 \/ q == 30 ->
            exists s, get_trade_signal (Fin q) k (Some d) atr = Returns s
                      /\ RSI_Signal s = "Neutral").
  { intros q H. unfold get_trade_signal, gtb.
    assert (Hg : ltb (Fin 70) (Fin q) = false)
      by (apply ltb_Fin_false; destruct H; lra).
    assert (Hl : ltb (Fin q) (Fin 30) = false)
      by (apply ltb_Fin_false; destruct H; lra).
    rewrite Hg, Hl.
    destruct (ltb (Fin 0.8) k); [| destruct (ltb k (Fin 0.2))];
      simpl; eexists; split; reflexivity. }
  assert (Hk : forall q, q == 0.8 \/ q == 0.2 ->
            exists s, get_trade_signal rsi (Fin q) (Some d) atr = Returns s
                      /\ StochRSI_Signal s = (if gtb (Fin q) d then "Buy" else "Sell")
                      /\ StochRSI_Signal s <> "Strong Sell"
                      /\ StochRSI_Signal s <> "Strong Buy").
  { intros q H. unfold get_trade_signal.
    assert (Hg : gtb (Fin q) (Fin 0.8) = false)
      by (apply ltb_Fin_false; destruct H; lra).
    assert (Hl : ltb (Fin q) (Fin 0.2) = false)
      by (apply ltb_Fin_false; destruct H; lra).
    rewrite Hg, Hl. unfold gt_optional, bind.
    eexists; split; [reflexivity |]. cbn [StochRSI_Signal].
    destruct (gtb (Fin q) d); repeat split; discriminate. }
  split; [apply Hrsi; now left |].
  split; [apply Hrsi; now right |].
  split; [destruct (Hk k08) as (s & E & E1 & E2 & _); [now left | eauto] |].
  split; [destruct (Hk k02) as (s & E & E1 & _ & E2); [now right | eauto] |].
  split.
  - unfold get_trade_signal.
    assert (He : eqb (Fin atr0002) (Fin 0) = false).
    { simpl. destruct (Qeq_bool atr0002 0) eqn:E; [| reflexivity].
      apply Qeq_bool_iff in E. lra. }
    assert (Hg : gtb (Fin atr0002) (Fin 0.002) = false)
      by (apply ltb_Fin_false; lra).
    rewrite He, Hg.
    destruct (gtb k (Fin 0.8)); [| destruct (ltb k (Fin 0.2))];
      simpl; eexists; split; reflexivity.
  - unfold get_trade_signal.
    assert (He : eqb (Fin atr0) (Fin 0) = true)
      by (simpl; apply Qeq_bool_iff; exact H0).
    rewrite He.
    destruct (gtb k (Fin 0.8)); [| destruct (ltb k (Fin 0.2))];
      simpl; eexists; split; reflexivity.
Qed.

Lemma boundaries_are_not_extreme_witness :
  (exists s, get_trade_signal (Fin (140 # 2)) (Fin 0.5) (Some (Fin 0.4)) (Fin 0.001)
             = Returns s /\ RSI_Signal s = "Neutral")
  /\ (exists s, get_trade_signal (Fin 0.8) (Fin 0.8) (Some (Fin 0.81)) (Fin 0)
                = Returns s /\ StochRSI_Signal s = "Sell").
Proof.
  destruct (boundaries_are_not_extreme (140 # 2) 30 0.8 0.2 0.002 0
              (Fin 0.8) (Fin 0.5) (Fin 0.4) (Fin 0.001))
    as (H1 & _); try reflexivity.
  destruct (boundaries_are_not_extreme 70 30 0.8 0.2 0.002 0
              (Fin 0.8) (Fin 0.5) (Fin 0.81) (Fin 0))
    as (_ & _ & (s & E & E1 & _) & _); try reflexivity.
  split; [exact H1 |].
  exists s. split; [exact E | exact E1].
Defined.

(** ** The classifier on not-a-number *)

(** Every comparison with not-a-number is false. *)
Lemma ltb_NaN_l (x : float) : ltb NaN x = false.
Proof. reflexivity. Qed.

Lemma ltb_NaN_r (x : float) : ltb x NaN = false.
Proof. destruct x; reflexivity. Qed.

(** C10: [get_trade_signal] returns on not-a-number inputs, through the
    last branch of each test: the RSI label of a not-a-number RSI is
    "Neutral" and the StochRSI label of a not-a-number %K is "Sell".
    Such values do reach it: the caller tests only for [None], and on
    fourteen equal prices the RSI and both StochRSI values are
    not-a-number, not [None], so the timeframe is classified and
    recorded. *)
Theorem nan_falls_through (rsi k d atr : float) :
  (exists s, get_trade_signal NaN k (Some d) atr = Returns s
             /\ RSI_Signal s = "Neutral")
  /\ (exists s, get_trade_signal rsi NaN (Some d) atr = Returns s
                /\ StochRSI_Signal s = "Sell")
  /\ calculate_rsi (map close flat_bars) 14 = Returns (Some NaN)
  /\ calculate_stochrsi (map close flat_bars) 14 3 3 = Returns (Some NaN, Some NaN)
  /\ (exists (a : Q) (s : SignalSet),
        calculate_atr flat_bars 14 = Returns (Some (Fin a))
        /\ a == 0
        /\ get_trade_signal NaN NaN (Some NaN) (Fin a) = Returns s
        /\ iteration (always flat_bars) "BTCUSDT" initial "15m"
                   = Returns {| best_timeframe := None;
                                best_signal_strength := (-1)%Z;
                                results := [("15m", s)] |}
                /\ RSI_Signal s = "Neutral"
                /\ StochRSI_Signal s = "Sell").
Proof.
  split; [| split].
  - unfold get_trade_signal, gtb. rewrite ltb_NaN_r, ltb_NaN_l.
    destruct (ltb (Fin 0.8) k); [| destruct (ltb k (Fin 0.2))];
      simpl; eexists; split; reflexivity.
  - unfold get_trade_signal, gt_optional, gtb.
    rewrite !ltb_NaN_r, !ltb_NaN_l. simpl. eexists; split; reflexivity.
  - split; [vm_compute; reflexivity |].
    split; [vm_compute; reflexivity |].
    exists (0 # 100000), {| RSI_Signal := "Neutral"; StochRSI_Signal := "Sell";
                            ATR_Signal := "Sideways (Low volatility)";
                            Estimated_Time_to_Hold := "Exit within hours" |}.
    repeat split; vm_compute; reflexivity.
Qed.

(* ------------------------------------------------------------------ *)
(** ** Series: lengths and positions *)

Section SeriesLemmas.

Import Pandas.

Lemma map2_length (f : float -> float -> float) (a b : Series) :
  length (map2 f a b) = Nat.min (length a) (length b).
Proof.
  revert b. induction a as [| x a IH]; intros [| y b]; simpl; auto.
Qed.

Lemma removelast_length {A : Type} (l : list A) :
  length (removelast l) = pred (length l).
Proof.
  induction l as [| x l IH]; [reflexivity |].
  destruct l as [| y l]; [reflexivity |].
  change (S (length (removelast (y :: l))) = S (length l)).
  rewrite IH. reflexivity.
Qed.

Lemma shift_length (s : Series) : length (shift s) = length s.
Proof.
  destruct s as [| x s]; [reflexivity |].
  unfold shift. cbn [length]. rewrite removelast_length. reflexivity.
Qed.

Lemma diff_length (s : Series) : length (diff s) = length s.
Proof. unfold diff. rewrite map2_length, shift_length. apply Nat.min_id. Qed.

Lemma where_map (s : Series) (c : float -> bool) (other : float) :
  where_ s (map c s) other = map (fun x => if c x then x else other) s.
Proof. induction s as [| x s IH]; simpl; [| rewrite IH]; reflexivity. Qed.

Lemma aggregate_length (stat : list float -> float) (r : Rolling) :
  length (aggregate stat r) = length (obj r).
Proof. unfold aggregate. rewrite length_map, length_seq. reflexivity. Qed.

Lemma last_cons_default {A : Type} (l : list A) (x d : A) :
  last (x :: l) d = last l x.
Proof.
  revert x d. induction l as [| y l IH]; intros x d; [reflexivity |].
  change (last (y :: l) d = last (y :: l) x). rewrite !IH. reflexivity.
Qed.

Lemma iloc_last_nonempty (s : Series) :
  s <> [] -> iloc_last s = Returns (last s NaN).
Proof.
  destruct s as [| x s]; [congruence |]. intros _. unfold iloc_last.
  rewrite last_cons_default. reflexivity.
Qed.

Lemma iloc_last_In (s : Series) (v : float) :
  iloc_last s = Returns v -> In v s.
Proof.
  destruct s as [| x s]; [discriminate |]. intros H.
  rewrite iloc_last_nonempty in H by discriminate.
  injection H as <-. clear. revert x.
  induction s as [| y s IH]; intros x; [left; reflexivity |].
  right. apply (IH y).
Qed.

Lemma length_nonempty {A : Type} (l : list A) : (0 < length l)%nat -> l <> [].
Proof. destruct l; simpl; [lia | discriminate]. Qed.

Lemma last_map {A B : Type} (f : A -> B) (l : list A) (d : A) (e : B) :
  l <> [] -> last (map f l) e = f (last l d).
Proof.
  induction l as [| x l IH]; [congruence |]. intros _.
  destruct l as [| y l]; [reflexivity |].
  change (last (map f (y :: l)) e = f (last (y :: l) d)).
  apply IH. discriminate.
Qed.

Lemma last_map2 (f : float -> float -> float) (a b : Series) (d : float) :
  length a = length b -> a <> [] ->
  last (map2 f a b) d = f (last a d) (last b d).
Proof.
  revert b. induction a as [| x a IH]; [congruence |].
  intros [| y b] Hlen _; [discriminate |].
  destruct a as [| x' a]; destruct b as [| y' b]; try discriminate;
    [reflexivity |].
  change (last (map2 f (x' :: a) (y' :: b)) d
          = f (last (x' :: a) d) (last (y' :: b) d)).
  apply IH; [simpl in *; lia | discriminate].
Qed.

(** A window holds at most [w] values, all of them values of the Series,
    and, when [w] is positive, the value at its own position. *)
Lemma window_at_length (w : nat) (s : Series) (i : nat) :
  (length (window_at w s i) <= w)%nat.
Proof.
  unfold window_at. rewrite length_skipn, length_firstn. lia.
Qed.

Lemma window_at_incl (w : nat) (s : Series) (i : nat) (x : float) :
  In x (window_at w s i) -> In x s.
Proof.
  unfold window_at. intros H.
  assert (H1 : In x (firstn (S i) s)).
  { rewrite <- (firstn_skipn (S i - w) (firstn (S i) s)).
    apply in_or_app. right. exact H. }
  rewrite <- (firstn_skipn (S i) s). apply in_or_app. left. exact H1.
Qed.

Lemma window_at_own (w : nat) (s : Series) (i : nat) :
  (0 < w)%nat -> (i < length s)%nat -> In (nth i s NaN) (window_at w s i).
Proof.
  intros Hw Hi. unfold window_at.
  assert (Hf : nth i s NaN = nth (i - (S i - w)) (skipn (S i - w) (firstn (S i) s)) NaN).
  { rewrite nth_skipn. replace (S i - w + (i - (S i - w)))%nat with i by lia.
    rewrite nth_firstn. replace (i <? S i)%nat with true; [reflexivity |].
    symmetry. apply Nat.ltb_lt. lia. }
  rewrite Hf. apply nth_In.
  rewrite length_skipn, length_firstn. lia.
Qed.

End SeriesLemmas.

(* ------------------------------------------------------------------ *)
(** ** Values: finite, bounded, or not-a-number *)

Lemma notnan_nan_or (P : float -> Prop) (x : float) :
  nan_or P x -> notnan x = true -> P x.
Proof. intros [-> | H] Hn; [discriminate | exact H]. Qed.

Lemma Forall_filter_notnan (P : float -> Prop) (l : list float) :
  Forall (nan_or P) l -> Forall P (filter notnan l).
Proof.
  intros H. apply Forall_forall. intros x Hx.
  apply filter_In in Hx. destruct Hx as [Hx Hn].
  rewrite Forall_forall in H. apply (notnan_nan_or P x (H x Hx) Hn).
Qed.

Lemma count_cons (x : float) (l : list float) : count (x :: l) == count l + 1.
Proof.
  unfold count. cbn [length]. rewrite Nat2Z.inj_succ, <- Z.add_1_r.
  rewrite inject_Z_plus. reflexivity.
Qed.

Lemma count_pos (l : list float) : l <> [] -> 0 < count l.
Proof.
  destruct l as [| x l]; [congruence |]. intros _. unfold count.
  change 0 with (inject_Z 0). rewrite <- Zlt_Qlt. cbn [length]. lia.
Qed.

(** The sum of finite values is finite and lies between the bounds of the
    values times their number. *)
Lemma sum_fin (l : list float) :
  Forall (fun x => exists q, x = Fin q) l ->
  exists s, Pandas.sum l = Fin s
            /\ (forall lo, Forall (ge_fin lo) l -> lo * count l <= s)
            /\ (forall hi, Forall (le_fin hi) l -> s <= hi * count l).
Proof.
  induction l as [| x l IH]; intros H.
  - exists 0. split; [reflexivity |].
    split; intros b _; change (count []) with 0; lra.
  - inversion H as [| ? ? [q ->] Hl]; subst.
    destruct (IH Hl) as (s & Es & Hlo & Hhi).
    exists (q + s). split; [simpl; rewrite Es; reflexivity |].
    split; intros b Hb; inversion Hb as [| ? ? Hq Hb']; subst; simpl in Hq;
      rewrite count_cons.
    + specialize (Hlo b Hb'). lra.
    + specialize (Hhi b Hb'). lra.
Qed.

Lemma sgn_pos (q : Q) : 0 < q -> sgn q = Lt.
Proof. intros H. unfold sgn. apply Qlt_alt. exact H. Qed.

Lemma sgn_zero (q : Q) : q == 0 -> sgn q = Eq.
Proof. intros H. unfold sgn. apply Qeq_alt. symmetry. exact H. Qed.

Lemma div_Fin_pos (a b : Q) : 0 < b -> div (Fin a) (Fin b) = Fin (a / b).
Proof. intros H. unfold div. rewrite (sgn_pos b H). reflexivity. Qed.

(** The mean of finite values, at least one, is finite and lies between
    their bounds. *)
Lemma mean_of_fin (l : list float) :
  l <> [] ->
  Forall (fun x => exists q, x = Fin q) l ->
  exists m, Pandas.mean_of l = Fin m
            /\ (forall lo, Forall (ge_fin lo) l -> lo <= m)
            /\ (forall hi, Forall (le_fin hi) l -> m <= hi).
Proof.
  intros Hne Hf. destruct (sum_fin l Hf) as (s & Es & Hlo & Hhi).
  pose proof (count_pos l Hne) as Hc.
  exists (s / count l). unfold Pandas.mean_of. rewrite Es.
  split; [apply div_Fin_pos; exact Hc |].
  split; intros b Hb.
  - apply Qle_shift_div_l; [exact Hc | apply Hlo; exact Hb].
  - apply Qle_shift_div_r; [exact Hc | apply Hhi; exact Hb].
Qed.

Lemma Forall_ge_fin_fin (lo : Q) (l : list float) :
  Forall (ge_fin lo) l -> Forall (fun x => exists q, x = Fin q) l.
Proof.
  apply Forall_impl. intros [| | | q] H; simpl in H; try contradiction.
  exists q. reflexivity.
Qed.

Lemma mean_of_ge (lo : Q) (l : list float) :
  Forall (ge_fin lo) l -> nan_or (ge_fin lo) (Pandas.mean_of l).
Proof.
  intros H. destruct l as [| x l]; [left; reflexivity |]. right.
  destruct (mean_of_fin (x :: l)) as (m & Em & Hlo & _);
    [discriminate | apply (Forall_ge_fin_fin lo); exact H |].
  rewrite Em. simpl. apply Hlo. exact H.
Qed.

(** A rolling statistic keeps a property of the values: every position
    holds not-a-number or the statistic of values of the Series that are
    not not-a-number. *)
Lemma aggregate_Forall (P Q : float -> Prop) (stat : list float -> float)
  (r : Pandas.Rolling) :
  Forall (nan_or Q) (Pandas.obj r) ->
  (forall obs, Forall Q obs -> nan_or P (stat obs)) ->
  Forall (nan_or P) (Pandas.aggregate stat r).
Proof.
  intros Hobj Hstat. unfold Pandas.aggregate.
  apply Forall_forall. intros x Hx. apply in_map_iff in Hx.
  destruct Hx as (i & <- & _). cbv zeta.
  destruct (Pandas.min_periods r <=? _)%nat; [| left; reflexivity].
  apply Hstat. apply Forall_filter_notnan.
  apply Forall_forall. intros y Hy. apply window_at_incl in Hy.
  rewrite Forall_forall in Hobj. apply Hobj. exact Hy.
Qed.

(* ------------------------------------------------------------------ *)
(** ** RSI *)

Lemma map2_Forall (PA PB PC : float -> Prop) (f : float -> float -> float)
  (a b : Pandas.Series) :
  Forall PA a -> Forall PB b ->
  (forall x y, PA x -> PB y -> PC (f x y)) ->
  Forall PC (Pandas.map2 f a b).
Proof.
  intros Ha. revert b. induction Ha as [| x a Hx Ha IH]; intros b Hb Hf.
  - constructor.
  - destruct Hb as [| y b Hy Hb]; [constructor |].
    simpl. constructor; [apply Hf; assumption | apply IH; assumption].
Qed.

Lemma In_removelast {A : Type} (l : list A) (x : A) :
  In x (removelast l) -> In x l.
Proof.
  induction l as [| y l IH]; [tauto |].
  destruct l as [| z l]; [simpl; tauto |].
  change (In x (y :: removelast (z :: l)) -> In x (y :: z :: l)).
  intros [-> | H]; [left; reflexivity | right; apply IH; exact H].
Qed.

Lemma shift_Forall (P : float -> Prop) (s : Pandas.Series) :
  Forall P s -> Forall (nan_or P) (Pandas.shift s).
Proof.
  intros H. destruct s as [| x s]; [constructor |].
  unfold Pandas.shift. constructor; [left; reflexivity |].
  apply Forall_forall. intros y Hy. right.
  rewrite Forall_forall in H. apply H. apply In_removelast. exact Hy.
Qed.

Lemma of_floats_finite (l : list Q) : Forall finite (Pandas.of_floats l).
Proof.
  unfold Pandas.of_floats. apply Forall_forall. intros x Hx.
  apply in_map_iff in Hx. destruct Hx as (q & <- & _). exists q. reflexivity.
Qed.

(** The differences of finite prices are finite, but for the first. *)
Lemma diff_finite (l : list Q) :
  Forall (nan_or finite) (Pandas.diff (Pandas.of_floats l)).
Proof.
  unfold Pandas.diff.
  apply (map2_Forall finite (nan_or finite)).
  - apply of_floats_finite.
  - apply shift_Forall. apply of_floats_finite.
  - intros x y [a ->] [-> | [b ->]]; [left; reflexivity |].
    right. eexists. reflexivity.
Qed.

(** Gains and losses are finite and not negative. *)
Lemma rsi_gain_nonneg (prices : list Q) : Forall (ge_fin 0) (rsi_gain prices).
Proof.
  unfold rsi_gain, Pandas.gt_scalar. cbv zeta. rewrite where_map.
  apply Forall_forall. intros x Hx. apply in_map_iff in Hx.
  destruct Hx as (d & <- & Hd).
  pose proof (diff_finite prices) as H. rewrite Forall_forall in H.
  destruct (H d Hd) as [-> | [q ->]]; [simpl; lra |].
  unfold gtb, ltb. destruct (0 ?= q)%Q eqn:E; simpl; try lra.
  apply (proj2 (Qlt_alt 0 q)) in E. lra.
Qed.

Lemma rsi_loss_nonneg (prices : list Q) : Forall (ge_fin 0) (rsi_loss prices).
Proof.
  unfold rsi_loss, Pandas.lt_scalar. cbv zeta. rewrite where_map.
  apply Forall_forall. intros x Hx. apply in_map_iff in Hx.
  destruct Hx as (y & <- & Hy). apply in_map_iff in Hy.
  destruct Hy as (d & <- & Hd).
  pose proof (diff_finite prices) as H. rewrite Forall_forall in H.
  destruct (H d Hd) as [-> | [q ->]]; [simpl; lra |].
  unfold ltb. destruct (q ?= 0)%Q eqn:E; simpl; try lra.
  apply (proj2 (Qlt_alt q 0)) in E. lra.
Qed.

Lemma rsi_gain_length (prices : list Q) : length (rsi_gain prices) = length prices.
Proof.
  unfold rsi_gain, Pandas.gt_scalar. cbv zeta.
  rewrite where_map, length_map, diff_length.
  unfold Pandas.of_floats. apply length_map.
Qed.

Lemma rsi_loss_length (prices : list Q) : length (rsi_loss prices) = length prices.
Proof.
  unfold rsi_loss, Pandas.lt_scalar. cbv zeta.
  rewrite length_map, where_map, length_map, diff_length.
  unfold Pandas.of_floats. apply length_map.
Qed.

(** The averages are not negative where they are numbers. *)
Lemma rsi_avg_gain_nonneg (prices : list Q) (period : nat) :
  Forall (nan_or (ge_fin 0)) (rsi_avg_gain prices period).
Proof.
  unfold rsi_avg_gain, Pandas.mean.
  apply (aggregate_Forall (ge_fin 0) (ge_fin 0)); [| apply mean_of_ge].
  cbn [Pandas.obj]. eapply Forall_impl; [| apply rsi_gain_nonneg].
  intros a Ha. right. exact Ha.
Qed.

Lemma rsi_avg_loss_nonneg (prices : list Q) (period : nat) :
  Forall (nan_or (ge_fin 0)) (rsi_avg_loss prices period).
Proof.
  unfold rsi_avg_loss, Pandas.mean.
  apply (aggregate_Forall (ge_fin 0) (ge_fin 0)); [| apply mean_of_ge].
  cbn [Pandas.obj]. eapply Forall_impl; [| apply rsi_loss_nonneg].
  intros a Ha. right. exact Ha.
Qed.

(** What [calculate_rsi] returns, in terms of its two averages at the last
    position. *)
Lemma calculate_rsi_eq (prices : list Q) (period : nat) :
  (1 <= period)%nat -> (period <= length prices)%nat ->
  calculate_rsi prices period =
  Returns (Some (rsi_formula (last (rsi_avg_gain prices period) NaN)
                             (last (rsi_avg_loss prices period) NaN))).
Proof.
  intros H1 Hlen. unfold calculate_rsi.
  replace (length prices <? period)%nat with false
    by (symmetry; apply Nat.ltb_ge; exact Hlen).
  unfold Pandas.rolling.
  replace (period <? 1)%nat with false by (symmetry; apply Nat.ltb_ge; exact H1).
  cbn [bind].
  fold (rsi_gain prices). fold (rsi_loss prices).
  fold (rsi_avg_gain prices period). fold (rsi_avg_loss prices period).
  assert (Lg : length (rsi_avg_gain prices period) = length prices)
    by (unfold rsi_avg_gain, Pandas.mean; rewrite aggregate_length;
        apply rsi_gain_length).
  assert (Ll : length (rsi_avg_loss prices period) = length prices)
    by (unfold rsi_avg_loss, Pandas.mean; rewrite aggregate_length;
        apply rsi_loss_length).
  set (rs := Pandas.map2 div _ _).
  assert (Lrs : length rs = length prices)
    by (unfold rs; rewrite map2_length, Lg, Ll; apply Nat.min_id).
  assert (Hrs : rs <> []) by (apply length_nonempty; lia).
  destruct (map _ rs) as [| v l] eqn:E.
  { apply map_eq_nil in E. contradiction. }
  cbn [Pandas.empty]. rewrite <- E.
  rewrite iloc_last_nonempty by (rewrite E; discriminate).
  cbn [bind]. do 2 f_equal.
  rewrite (last_map _ rs NaN NaN Hrs). unfold rsi_formula. do 3 f_equal.
  unfold rs. apply last_map2; [lia | apply length_nonempty; lia].
Qed.

(** [calculate_rsi] raises only on a period of 0. *)
Lemma calculate_rsi_returns (prices : list Q) (period : nat) :
  (1 <= period)%nat -> exists o, calculate_rsi prices period = Returns o.
Proof.
  intros H1. destruct (Nat.le_gt_cases period (length prices)) as [H | H].
  - eexists. apply calculate_rsi_eq; assumption.
  - exists None. unfold calculate_rsi.
    apply Nat.ltb_lt in H. rewrite H. reflexivity.
Qed.

(** The RSI formula on two averages that are not negative. *)
Lemma rsi_formula_range (g l : float) :
  nan_or (ge_fin 0) g -> nan_or (ge_fin 0) l ->
  nan_or (between 0 100) (rsi_formula g l).
Proof.
  intros [-> | Hg] [-> | Hl]; try (left; reflexivity).
  - destruct g; left; reflexivity.
  - destruct g as [| | | a]; simpl in Hg; try contradiction.
    destruct l as [| | | b]; simpl in Hl; try contradiction.
    unfold rsi_formula.
    destruct (Qlt_le_dec 0 b) as [Hb | Hb].
    + rewrite (div_Fin_pos a b Hb).
      assert (Hr : 0 <= a / b) by (apply Qle_shift_div_l; lra).
      cbn [add]. rewrite div_Fin_pos by lra.
      right. cbn [sub neg add between].
      assert (0 <= 100 / (1 + a / b)) by (apply Qle_shift_div_l; lra).
      assert (100 / (1 + a / b) <= 100) by (apply Qle_shift_div_r; lra).
      lra.
    + assert (Hb0 : b == 0) by lra. unfold div at 2.
      rewrite (sgn_zero b Hb0).
      destruct (Qlt_le_dec 0 a) as [Ha | Ha].
      * rewrite (sgn_pos a Ha). right. simpl. lra.
      * rewrite (sgn_zero a) by lra. left. reflexivity.
Qed.

Lemma last_In_Forall (P : float -> Prop) (s : Pandas.Series) :
  s <> [] -> Forall P s -> P (last s NaN).
Proof.
  intros Hne H. rewrite Forall_forall in H. apply H.
  apply iloc_last_In. apply iloc_last_nonempty. exact Hne.
Qed.

(** [calculate_rsi] returns [None], not-a-number or a value in [0, 100]. *)
Lemma calculate_rsi_range (prices : list Q) (period : nat) (v : float) :
  calculate_rsi prices period = Returns (Some v) ->
  nan_or (between 0 100) v.
Proof.
  intros H.
  destruct period as [| p].
  { unfold calculate_rsi in H. simpl in H. discriminate H. }
  destruct (Nat.le_gt_cases (S p) (length prices)) as [Hlen | Hlen].
  - rewrite calculate_rsi_eq in H by lia. injection H as <-.
    apply rsi_formula_range; apply last_In_Forall.
    + apply length_nonempty. unfold rsi_avg_gain, Pandas.mean.
      rewrite aggregate_length. cbn [Pandas.obj]. rewrite rsi_gain_length. lia.
    + apply rsi_avg_gain_nonneg.
    + apply length_nonempty. unfold rsi_avg_loss, Pandas.mean.
      rewrite aggregate_length. cbn [Pandas.obj]. rewrite rsi_loss_length. lia.
    + apply rsi_avg_loss_nonneg.
  - unfold calculate_rsi in H. apply Nat.ltb_lt in Hlen. rewrite Hlen in H.
    discriminate H.
Qed.

(** C3, as stated, fails on a flat series: the final average loss is 0,
    the final average gain is 0 too, and [calculate_rsi] returns
    not-a-number (0/0), not 100. *)
Lemma rsi_flat_is_nan :
  (14 <= length (map close flat_bars))%nat
  /\ is_fin (last (rsi_avg_loss (map close flat_bars) 14) NaN) 0
  /\ is_fin (last (rsi_avg_gain (map close flat_bars) 14) NaN) 0
  /\ calculate_rsi (map close flat_bars) 14 = Returns (Some NaN).
Proof.
  split; [simpl; lia |].
  split; [vm_compute; reflexivity |].
  split; vm_compute; reflexivity.
Qed.

(** C3 (amended): for closes of length at least the period, when the final
    average loss is exactly 0 and the final average gain is positive,
    [calculate_rsi] returns exactly 100; when the final average gain is 0
    as well (the flat series), it returns not-a-number. *)
Theorem rsi_zero_loss (prices : list Q) (period : nat) :
  (1 <= period)%nat -> (period <= length prices)%nat ->
  is_fin (last (rsi_avg_loss prices period) NaN) 0 ->
  (is_pos (last (rsi_avg_gain prices period) NaN) ->
   exists v, calculate_rsi prices period = Returns (Some v) /\ is_fin v 100)
  /\ (is_fin (last (rsi_avg_gain prices period) NaN) 0 ->
      calculate_rsi prices period = Returns (Some NaN)).
Proof.
  intros H1 Hlen Hl. rewrite (calculate_rsi_eq prices period H1 Hlen).
  destruct (last (rsi_avg_loss prices period) NaN) as [| | | l];
    simpl in Hl; try contradiction.
  destruct (last (rsi_avg_gain prices period) NaN) as [| | | g];
    split; intros Hg; simpl in Hg; try contradiction.
  - eexists. split; [reflexivity |].
    unfold rsi_formula, div at 2.
    rewrite (sgn_zero l Hl), (sgn_pos g Hg). simpl. lra.
  - unfold rsi_formula, div at 2.
    rewrite (sgn_zero l Hl), (sgn_zero g Hg). reflexivity.
Qed.

Lemma rsi_zero_loss_witness :
  (exists v, calculate_rsi rising_closes 14 = Returns (Some v) /\ is_fin v 100)
  /\ calculate_rsi (map close flat_bars) 14 = Returns (Some NaN).
Proof.
  split.
  - apply (rsi_zero_loss rising_closes 14);
      first [simpl; lia | vm_compute; reflexivity].
  - apply (rsi_zero_loss (map close flat_bars) 14);
      first [simpl; lia | vm_compute; reflexivity].
Defined.

(** C6: whenever [calculate_rsi] returns a number (neither [None] nor
    not-a-number), it lies in [0, 100]. *)
Theorem rsi_bounded (prices : list Q) (period : nat) (v : float) :
  calculate_rsi prices period = Returns (Some v) ->
  v <> NaN ->
  between 0 100 v.
Proof.
  intros H Hn. destruct (calculate_rsi_range prices period v H) as [-> | Hb].
  - congruence.
  - exact Hb.
Qed.

Lemma rsi_bounded_witness :
  calculate_rsi [1; 2; 1; 3] 2 = Returns (Some (Fin (400 # 6)))
  /\ between 0 100 (Fin (400 # 6)).
Proof.
  split; [vm_compute; reflexivity |].
  apply (rsi_bounded [1; 2; 1; 3] 2 (Fin (400 # 6))).
  - vm_compute. reflexivity.
  - discriminate.
Defined.

(* ------------------------------------------------------------------ *)
(** ** Rounding *)

Lemma rint_floor (q : Q) : rint q = Qfloor q \/ rint q = (Qfloor q + 1)%Z.
Proof.
  unfold rint. cbv zeta.
  destruct (_ ?= _)%Q; [destruct (Z.even _) | |]; auto.
Qed.

Lemma rint_ge (q : Q) (n : Z) : inject_Z n <= q -> (n <= rint q)%Z.
Proof.
  intros H. pose proof (Qfloor_resp_le _ _ H) as Hf.
  rewrite Qfloor_Z in Hf. destruct (rint_floor q) as [-> | ->]; lia.
Qed.

Lemma rint_le (q : Q) (n : Z) : q <= inject_Z n -> (rint q <= n)%Z.
Proof.
  intros H. pose proof (Qfloor_resp_le _ _ H) as Hf.
  rewrite Qfloor_Z in Hf.
  destruct (Z.eq_dec (Qfloor q) n) as [E | E].
  - unfold rint. cbv zeta. rewrite E.
    replace ((q - inject_Z n) ?= 1 # 2)%Q with Lt; [lia |].
    symmetry. apply (proj1 (Qlt_alt (q - inject_Z n) (1 # 2))). lra.
  - destruct (rint_floor q) as [-> | ->]; lia.
Qed.

Lemma rint_near (q : Q) : - (1 # 2) <= inject_Z (rint q) - q <= 1 # 2.
Proof.
  pose proof (Qfloor_le q) as Hlo. pose proof (Qlt_floor q) as Hhi.
  rewrite inject_Z_plus in Hhi. change (inject_Z 1) with 1 in Hhi.
  unfold rint. cbv zeta.
  destruct ((q - inject_Z (Qfloor q)) ?= 1 # 2)%Q eqn:E.
  - apply Qeq_alt in E.
    destruct (Z.even (Qfloor q)); [| rewrite inject_Z_plus;
                                     change (inject_Z 1) with 1]; lra.
  - apply (proj2 (Qlt_alt _ _)) in E. lra.
  - apply (proj2 (Qgt_alt _ _)) in E. rewrite inject_Z_plus.
    change (inject_Z 1) with 1. lra.
Qed.

Lemma pow10_pos (n : nat) : 0 < inject_Z (10 ^ Z.of_nat n).
Proof.
  change 0 with (inject_Z 0). rewrite <- Zlt_Qlt.
  apply Z.pow_pos_nonneg; lia.
Qed.

(** [round] gives a whole number of units of the last digit, a nearest
    one, and keeps whole bounds. *)
Lemma round_decimals (q : Q) (n : nat) : has_decimals n (round (Fin q) n).
Proof. eexists. simpl. reflexivity. Qed.

Lemma round_nearest (q : Q) (n : nat) : nearest n (Fin q) (round (Fin q) n).
Proof.
  unfold nearest, round. cbv zeta.
  set (p := inject_Z (10 ^ Z.of_nat n)).
  pose proof (pow10_pos n) as Hp. fold p in Hp.
  pose proof (rint_near (q * p)) as Hn.
  set (r := inject_Z (rint (q * p))) in *.
  assert (E : r / p - q == (r - q * p) / p) by (field; lra).
  rewrite E. apply Qabs_Qle_condition. split.
  - apply Qle_shift_div_l; [exact Hp |].
    assert (E1 : - ((1 # 2) / p) * p == - (1 # 2)) by (field; lra).
    rewrite E1. lra.
  - apply Qle_shift_div_r; [exact Hp |].
    assert (E1 : (1 # 2) / p * p == 1 # 2) by (field; lra).
    rewrite E1. lra.
Qed.

Lemma round_ge_0 (q : Q) (n : nat) : 0 <= q -> ge_fin 0 (round (Fin q) n).
Proof.
  intros H. unfold round. cbv zeta. simpl.
  pose proof (pow10_pos n) as Hp.
  apply Qle_shift_div_l; [exact Hp |].
  rewrite Qmult_0_l. change 0 with (inject_Z 0). rewrite <- Zle_Qle.
  apply rint_ge. change (inject_Z 0) with 0.
  apply Qmult_le_0_compat; lra.
Qed.

(** ** Larger and smaller of finite values *)

Lemma max_Fin (a b : Q) :
  exists m, Float.max (Fin a) (Fin b) = Fin m /\ a <= m /\ b <= m.
Proof.
  unfold Float.max, ltb. destruct (a ?= b)%Q eqn:E.
  - apply Qeq_alt in E. exists a. repeat split; lra.
  - apply (proj2 (Qlt_alt _ _)) in E. exists b. repeat split; lra.
  - apply (proj2 (Qgt_alt _ _)) in E. exists a. repeat split; lra.
Qed.

(* ------------------------------------------------------------------ *)
(** ** ATR *)

Lemma true_range_rest (prev : Q) (bars : list bar) :
  let prevs := removelast (Pandas.of_floats (prev :: map close bars)) in
  Pandas.max_axis1
    (Pandas.map2 sub (Pandas.of_floats (map high bars))
                     (Pandas.of_floats (map low bars)))
    (map abs (Pandas.map2 sub (Pandas.of_floats (map high bars)) prevs))
    (map abs (Pandas.map2 sub (Pandas.of_floats (map low bars)) prevs))
  = tr_rest prev bars.
Proof.
  revert prev. induction bars as [| b bars IH]; intros prev; [reflexivity |].
  cbv zeta in *.
  change (removelast (Pandas.of_floats (prev :: map close (b :: bars))))
    with (Fin prev :: removelast (Pandas.of_floats (close b :: map close bars))).
  cbn [map Pandas.of_floats Pandas.map2 Pandas.max_axis1 tr_rest].
  f_equal. apply IH.
Qed.

Lemma true_range_cons (b : bar) (bars : list bar) :
  true_range (b :: bars) = tr_first b :: tr_rest (close b) bars.
Proof.
  unfold true_range. cbv zeta.
  change (Pandas.shift (Pandas.of_floats (map close (b :: bars))))
    with (NaN :: removelast (Pandas.of_floats (close b :: map close bars))).
  cbn [map Pandas.of_floats Pandas.map2 Pandas.max_axis1].
  f_equal. apply (true_range_rest (close b) bars).
Qed.

Lemma tr_next_nonneg (prev : Q) (b : bar) : ge_fin 0 (tr_next prev b).
Proof.
  unfold tr_next, Pandas.max_of. cbn [fold_left].
  destruct (max_Fin (high b + - low b) (Qabs (high b + - prev)))
    as (m & -> & _ & H2).
  destruct (max_Fin m (Qabs (low b + - prev))) as (m' & -> & H3 & _).
  simpl. pose proof (Qabs_nonneg (high b + - prev)). lra.
Qed.

Lemma tr_rest_nonneg (prev : Q) (bars : list bar) :
  Forall (ge_fin 0) (tr_rest prev bars).
Proof.
  revert prev. induction bars as [| b bars IH]; intros prev; simpl;
    constructor; [apply tr_next_nonneg | apply IH].
Qed.

Lemma true_range_length (prices : list bar) :
  length (true_range prices) = length prices.
Proof.
  destruct prices as [| b bars]; [reflexivity |].
  rewrite true_range_cons. cbn [length]. f_equal.
  revert b. induction bars as [| b' bars IH]; intros b; [reflexivity |].
  cbn [tr_rest length]. f_equal. apply IH.
Qed.

(** A window that starts after position 0 holds values of the tail only. *)
Lemma window_at_tail (w : nat) (s : Pandas.Series) (i : nat) (x : float) :
  (w <= i)%nat -> In x (Pandas.window_at w s i) -> In x (tl s).
Proof.
  intros Hw. unfold Pandas.window_at.
  destruct s as [| a s]; [rewrite firstn_nil, skipn_nil; tauto |].
  replace (S i - w)%nat with (S (i - w)) by lia.
  cbn [firstn skipn tl]. intros H.
  assert (H1 : In x (firstn i s)).
  { rewrite <- (firstn_skipn (i - w) (firstn i s)).
    apply in_or_app. right. exact H. }
  rewrite <- (firstn_skipn i s). apply in_or_app. left. exact H1.
Qed.

Lemma last_seq (n : nat) (d : nat) : last (seq 0 (S n)) d = n.
Proof. rewrite seq_S. apply last_last. Qed.

(** The last position of a rolling statistic. *)
Lemma aggregate_last (stat : list float -> float) (r : Pandas.Rolling) :
  Pandas.obj r <> [] ->
  last (Pandas.aggregate stat r) NaN =
  let obs := filter notnan
               (Pandas.window_at (Pandas.window r) (Pandas.obj r)
                                 (length (Pandas.obj r) - 1)) in
  if (Pandas.min_periods r <=? length obs)%nat then stat obs else NaN.
Proof.
  intros Hne. unfold Pandas.aggregate.
  destruct (length (Pandas.obj r)) as [| n] eqn:En.
  { destruct (Pandas.obj r); [congruence | discriminate]. }
  rewrite (last_map _ (seq 0 (S n)) 0%nat NaN) by discriminate.
  rewrite last_seq. replace (S n - 1)%nat with n by lia. reflexivity.
Qed.

(** The final rolling mean of the true range is not negative when the
    window leaves out the first bar or the first bar is ordered. *)
Lemma atr_series_last_nonneg (prices : list bar) (period : nat) :
  prices <> [] ->
  (period < length prices)%nat \/ first_bar_ordered prices ->
  nan_or (ge_fin 0) (last (atr_series prices period) NaN).
Proof.
  intros Hne Hcase. unfold atr_series, Pandas.mean.
  rewrite aggregate_last
    by (cbn [Pandas.obj full_window]; apply length_nonempty;
        rewrite true_range_length; destruct prices; [congruence | simpl; lia]).
  cbv zeta. cbn [Pandas.obj Pandas.window Pandas.min_periods full_window].
  destruct (period <=? _)%nat; [| left; reflexivity].
  apply mean_of_ge. apply Forall_forall. intros x Hx.
  apply filter_In in Hx. destruct Hx as [Hx _].
  destruct prices as [| b bars]; [congruence |].
  rewrite true_range_length in Hx. rewrite true_range_cons in Hx.
  pose proof (tr_rest_nonneg (close b) bars) as Hrest.
  rewrite Forall_forall in Hrest.
  destruct Hcase as [Hlt | Hord].
  - apply Hrest. apply (window_at_tail period _ _ x) in Hx; [exact Hx |].
    simpl in Hlt |- *. lia.
  - apply window_at_incl in Hx. destruct Hx as [<- | Hx].
    + simpl in Hord |- *. lra.
    + apply Hrest. exact Hx.
Qed.

Lemma calculate_atr_eq (prices : list bar) (period : nat) (v : float) :
  calculate_atr prices period = Returns (Some v) ->
  prices <> [] /\ v = round (last (atr_series prices period) NaN) 5.
Proof.
  unfold calculate_atr. destruct (length prices <? period)%nat; [discriminate |].
  unfold Pandas.rolling. cbn [bind].
  fold (full_window (true_range prices) period).
  fold (atr_series prices period).
  destruct (atr_series prices period) as [| a s] eqn:E; [discriminate |].
  cbn [Pandas.empty]. rewrite iloc_last_nonempty by discriminate.
  cbn [bind]. intros H. injection H as <-. split; [| reflexivity].
  intros ->. discriminate E.
Qed.

(** Whenever [calculate_atr] returns a number, that number is the final
    rolling mean of the true range rounded to 5 decimal places (a whole
    number of units of 0.00001, nearest to the mean); it is not negative
    when the window leaves out the first bar or the first bar has its low
    at or below its high. *)
Lemma atr_rounded_mean (prices : list bar) (period : nat) (v : float) :
  calculate_atr prices period = Returns (Some v) ->
  v <> NaN ->
  v = round (last (atr_series prices period) NaN) 5
  /\ has_decimals 5 v
  /\ nearest 5 (last (atr_series prices period) NaN) v
  /\ ((period < length prices)%nat \/ first_bar_ordered prices -> ge_fin 0 v).
Proof.
  intros H Hn. apply calculate_atr_eq in H. destruct H as [Hne ->].
  split; [reflexivity |].
  assert (Hfin : forall m, last (atr_series prices period) NaN = m ->
            nan_or finite m).
  { intros m <-. unfold atr_series, Pandas.mean.
    rewrite aggregate_last
      by (cbn [Pandas.obj full_window]; apply length_nonempty;
          rewrite true_range_length; destruct prices; [congruence | simpl; lia]).
    cbv zeta. destruct (_ <=? _)%nat; [| left; reflexivity].
    set (obs := filter notnan _).
    assert (Hobs : Forall finite obs).
    { apply Forall_forall. intros x Hx. apply filter_In in Hx.
      destruct Hx as [Hx _]. apply window_at_incl in Hx.
      cbn [Pandas.obj full_window] in Hx.
      destruct prices as [| b bars]; [congruence |].
      rewrite true_range_cons in Hx. destruct Hx as [<- | Hx].
      - eexists. reflexivity.
      - pose proof (tr_rest_nonneg (close b) bars) as Hr.
        rewrite Forall_forall in Hr. specialize (Hr x Hx).
        destruct x; simpl in Hr; try contradiction. eexists. reflexivity. }
    destruct obs as [| x obs]; [left; reflexivity |]. right.
    destruct (mean_of_fin (x :: obs)) as (m & -> & _); [discriminate | exact Hobs |].
    eexists. reflexivity. }
  destruct (Hfin _ eq_refl) as [E | [m E]].
  { rewrite E in Hn. simpl in Hn. congruence. }
  rewrite E in *.
  split; [apply round_decimals |].
  split; [apply round_nearest |].
  intros Hcase.
  destruct (atr_series_last_nonneg prices period Hne Hcase) as [E' | Hge].
  - rewrite E in E'. discriminate E'.
  - rewrite E in Hge. simpl in Hge. apply round_ge_0. exact Hge.
Qed.

(** C8: for every sequence of candlesticks (low at or below high) for
    which [calculate_atr] returns a number, that number is not negative
    and is the final rolling mean of the true range rounded to 5 decimal
    places: a whole number of units of 0.00001, nearest to the mean. *)
Theorem atr_nonnegative_and_rounded (prices : list bar) (period : nat)
  (v : float) :
  Forall ordered prices ->
  calculate_atr prices period = Returns (Some v) ->
  v <> NaN ->
  ge_fin 0 v
  /\ v = round (last (atr_series prices period) NaN) 5
  /\ has_decimals 5 v
  /\ nearest 5 (last (atr_series prices period) NaN) v.
Proof.
  intros Hord H Hn.
  destruct (atr_rounded_mean prices period v H Hn) as (Ev & Hdec & Hnear & Hge).
  split; [| split; [exact Ev | split; [exact Hdec | exact Hnear]]].
  apply Hge. right. destruct Hord as [| b rest Hb _]; [exact I | exact Hb].
Qed.

Lemma atr_nonnegative_and_rounded_witness :
  calculate_atr candles 14 = Returns (Some (Fin (285714 # 100000)))
  /\ ge_fin 0 (Fin (285714 # 100000))
  /\ has_decimals 5 (Fin (285714 # 100000)).
Proof.
  assert (E : calculate_atr candles 14 = Returns (Some (Fin (285714 # 100000))))
    by (vm_compute; reflexivity).
  split; [exact E |].
  destruct (atr_nonnegative_and_rounded candles 14 (Fin (285714 # 100000)))
    as (Hge & _ & Hdec & _).
  - apply Forall_forall. intros b Hb. unfold candles in Hb.
    apply in_map_iff in Hb. destruct Hb as (c & <- & _).
    unfold ordered. simpl. lra.
  - exact E.
  - discriminate.
  - split; [exact Hge | exact Hdec].
Defined.

(* ------------------------------------------------------------------ *)
(** ** Stochastic RSI *)

Lemma map2_nth (f : float -> float -> float) (a b : Pandas.Series) (i : nat) :
  (i < length a)%nat -> (i < length b)%nat ->
  nth i (Pandas.map2 f a b) NaN = f (nth i a NaN) (nth i b NaN).
Proof.
  revert b i. induction a as [| x a IH]; intros [| y b] [| i] Ha Hb;
    simpl in *; try lia; [reflexivity | apply IH; lia].
Qed.

Lemma aggregate_nth (stat : list float -> float) (r : Pandas.Rolling) (i : nat) :
  (i < length (Pandas.obj r))%nat ->
  nth i (Pandas.aggregate stat r) NaN =
  let obs := filter notnan (Pandas.window_at (Pandas.window r) (Pandas.obj r) i) in
  if (Pandas.min_periods r <=? length obs)%nat then stat obs else NaN.
Proof.
  intros Hi. unfold Pandas.aggregate.
  set (body := fun i : nat => _).
  rewrite (nth_indep (map body (seq 0 (length (Pandas.obj r)))) NaN (body 0%nat))
    by (rewrite length_map, length_seq; exact Hi).
  rewrite (map_nth body), seq_nth by exact Hi. reflexivity.
Qed.

Lemma sub_NaN_r (x : float) : sub x NaN = NaN.
Proof. destruct x; reflexivity. Qed.

Lemma window_at_0 (s : Pandas.Series) (i : nat) :
  (i < length s)%nat -> Pandas.window_at 0 s i = [].
Proof.
  intros Hi. unfold Pandas.window_at. rewrite Nat.sub_0_r.
  apply length_zero_iff_nil. rewrite length_skipn, length_firstn. lia.
Qed.

(** What [calculate_stochrsi] returns, in terms of its two rolling means
    at the last position. *)
Lemma calculate_stochrsi_eq (prices : list Q) (period smoothK smoothD : nat)
  (k d : float) :
  calculate_stochrsi prices period smoothK smoothD = Returns (Some k, Some d) ->
  exists s,
    stochrsi_rsi_series prices period = Returns s
    /\ k = round (last (stochrsi_k_series s period smoothK) NaN) 2
    /\ d = round (last (stochrsi_d_series s period smoothK smoothD) NaN) 2.
Proof.
  unfold calculate_stochrsi, stochrsi_rsi_series.
  destruct (length prices <? period)%nat; [discriminate |].
  destruct (comprehension _ _) as [e | rsis]; [discriminate |].
  cbn [bind]. unfold Pandas.rolling. cbn [bind].
  set (s := Pandas.of_optional rsis).
  fold (full_window s period). fold (stochrsi_raw s period).
  fold (full_window (stochrsi_raw s period) smoothK).
  fold (stochrsi_k_series s period smoothK).
  fold (full_window (stochrsi_k_series s period smoothK) smoothD).
  fold (stochrsi_d_series s period smoothK smoothD).
  destruct (stochrsi_k_series s period smoothK) as [| x ks] eqn:Ek;
    [discriminate |].
  rewrite <- Ek.
  rewrite (iloc_last_nonempty (stochrsi_k_series s period smoothK))
    by (rewrite Ek; discriminate).
  cbn [bind].
  destruct (stochrsi_d_series s period smoothK smoothD) as [| y ds] eqn:Ed;
    [discriminate |].
  rewrite <- Ed.
  rewrite (iloc_last_nonempty (stochrsi_d_series s period smoothK smoothD))
    by (rewrite Ed; discriminate).
  cbn [bind]. intros H. injection H as <- <-.
  exists s. repeat split.
Qed.

(* ------------------------------------------------------------------ *)
(** ** The indicator functions return *)

Lemma comprehension_returns {A B : Type} (f : A -> outcome B) (l : list A) :
  (forall a, exists b, f a = Returns b) ->
  exists bs, comprehension f l = Returns bs /\ length bs = length l.
Proof.
  intros Hf. induction l as [| a l (bs & E & L)].
  - exists []. split; reflexivity.
  - destruct (Hf a) as (b & Eb). exists (b :: bs). simpl.
    rewrite Eb, E. cbn [bind]. split; [reflexivity | simpl; congruence].
Qed.

Lemma stochrsi_raw_length (s : Pandas.Series) (w : nat) :
  length (stochrsi_raw s w) = length s.
Proof.
  unfold stochrsi_raw, Pandas.min, Pandas.max. cbv zeta.
  rewrite !map2_length, !aggregate_length. cbn [Pandas.obj full_window]. lia.
Qed.

Lemma stochrsi_k_series_length (s : Pandas.Series) (period smoothK : nat) :
  length (stochrsi_k_series s period smoothK) = length s.
Proof.
  unfold stochrsi_k_series, Pandas.mean. rewrite aggregate_length.
  apply stochrsi_raw_length.
Qed.

Lemma stochrsi_d_series_length (s : Pandas.Series) (period smoothK smoothD : nat) :
  length (stochrsi_d_series s period smoothK smoothD) = length s.
Proof.
  unfold stochrsi_d_series, Pandas.mean. rewrite aggregate_length.
  apply stochrsi_k_series_length.
Qed.

(** [calculate_stochrsi] with a positive period returns two numbers on an
    input of at least [period] prices and [(None, None)] on a shorter one;
    it does not raise. *)
Lemma calculate_stochrsi_returns (prices : list Q) (period smoothK smoothD : nat) :
  (1 <= period)%nat ->
  if (length prices <? period)%nat
  then calculate_stochrsi prices period smoothK smoothD = Returns (None, None)
  else exists k d,
         calculate_stochrsi prices period smoothK smoothD
         = Returns (Some k, Some d).
Proof.
  intros H1. unfold calculate_stochrsi.
  destruct (length prices <? period)%nat eqn:El; [reflexivity |].
  apply Nat.ltb_ge in El.
  destruct (comprehension_returns
              (fun i => calculate_rsi (firstn (S i) prices) period)
              (seq 0 (length prices))) as (rsis & -> & Lr).
  { intros i. apply calculate_rsi_returns. exact H1. }
  rewrite length_seq in Lr.
  cbn [bind]. unfold Pandas.rolling. cbn [bind].
  set (s := Pandas.of_optional rsis).
  assert (Ls : length s = length prices)
    by (unfold s, Pandas.of_optional; rewrite length_map; exact Lr).
  fold (full_window s period). fold (stochrsi_raw s period).
  fold (full_window (stochrsi_raw s period) smoothK).
  fold (stochrsi_k_series s period smoothK).
  fold (full_window (stochrsi_k_series s period smoothK) smoothD).
  fold (stochrsi_d_series s period smoothK smoothD).
  rewrite (iloc_last_nonempty (stochrsi_k_series s period smoothK))
    by (apply length_nonempty; rewrite stochrsi_k_series_length; lia).
  rewrite (iloc_last_nonempty (stochrsi_d_series s period smoothK smoothD))
    by (apply length_nonempty; rewrite stochrsi_d_series_length; lia).
  cbn [bind]. eexists. eexists. reflexivity.
Qed.

(** [calculate_rsi] with a positive period returns a value exactly on an
    input of at least [period] prices. *)
Lemma calculate_rsi_returns_iff (prices : list Q) (period : nat) :
  (1 <= period)%nat ->
  if (length prices <? period)%nat
  then calculate_rsi prices period = Returns None
  else exists v, calculate_rsi prices period = Returns (Some v).
Proof.
  intros H1. destruct (length prices <? period)%nat eqn:El.
  - unfold calculate_rsi. rewrite El. reflexivity.
  - apply Nat.ltb_ge in El. eexists. apply calculate_rsi_eq; assumption.
Qed.

(** [calculate_atr] with a positive period returns a value exactly on an
    input of at least [period] bars. *)
Lemma calculate_atr_returns_iff (prices : list bar) (period : nat) :
  (1 <= period)%nat ->
  if (length prices <? period)%nat
  then calculate_atr prices period = Returns None
  else exists v, calculate_atr prices period = Returns (Some v).
Proof.
  intros H1. unfold calculate_atr.
  destruct (length prices <? period)%nat eqn:El; [reflexivity |].
  apply Nat.ltb_ge in El. unfold Pandas.rolling. cbn [bind].
  fold (full_window (true_range prices) period).
  fold (atr_series prices period).
  assert (L : length (atr_series prices period) = length prices).
  { unfold atr_series, Pandas.mean. rewrite aggregate_length.
    apply true_range_length. }
  destruct (atr_series prices period) as [| a s] eqn:E;
    [simpl in L; lia |].
  cbn [Pandas.empty]. rewrite iloc_last_nonempty by discriminate.
  cbn [bind]. eexists. reflexivity.
Qed.

(** [get_trade_signal] returns when %D is a float. *)
Lemma get_trade_signal_returns (rsi k d atr : float) :
  exists s, get_trade_signal rsi k (Some d) atr = Returns s.
Proof.
  unfold get_trade_signal, gt_optional.
  destruct (gtb k (Fin 0.8)); [| destruct (ltb k (Fin 0.2))];
    cbn [bind]; eexists; reflexivity.
Qed.

Lemma getitem_setitem (d : dict) (k k' : string) (v : SignalSet) :
  getitem (setitem d k v) k' = if String.eqb k k' then Some v else getitem d k'.
Proof.
  induction d as [| [k0 v0] d IH]; simpl.
  - reflexivity.
  - destruct (String.eqb k0 k) eqn:E0; simpl.
    + apply String.eqb_eq in E0. subst k0.
      destruct (String.eqb k k'); reflexivity.
    + destruct (String.eqb k0 k') eqn:E1.
      * apply String.eqb_eq in E1. subst k0.
        rewrite String.eqb_sym, E0. reflexivity.
      * exact IH.
Qed.

(* ------------------------------------------------------------------ *)
(** ** The loop of the selector *)

Lemma update_results (st : selection) (tf : string) (signals : SignalSet) :
  results (update st tf signals) = setitem (results st) tf signals.
Proof. unfold update. destruct (_ <? _)%Z; reflexivity. Qed.

(** One iteration never raises: it leaves the variables as they are when
    the timeframe is skipped and updates them otherwise. *)
Lemma iteration_eq (klines : fetcher) (crypto : string) (st : selection)
  (tf : string) :
  iteration klines crypto st tf =
  Returns match classified klines crypto tf with
          | None => st
          | Some signals => update st tf signals
          end.
Proof.
  unfold classified, iteration.
  destruct (klines crypto tf) as [[| b prices] |]; try reflexivity.
  set (ps := b :: prices).
  pose proof (calculate_rsi_returns_iff (map close ps) 14) as Hr.
  pose proof (calculate_stochrsi_returns (map close ps) 14 3 3) as Hs.
  pose proof (calculate_atr_returns_iff ps 14) as Ha.
  rewrite length_map in Hr, Hs.
  destruct (length ps <? 14)%nat.
  - rewrite Hr, Hs, Ha by lia. reflexivity.
  - destruct Hr as (r & ->); [lia |].
    destruct Hs as (k & d & ->); [lia |].
    destruct Ha as (a & ->); [lia |].
    cbn [bind].
    destruct (get_trade_signal_returns r k d a) as (s & ->).
    cbn [bind]. unfold update.
    destruct (best_signal_strength initial <? signal_strength s)%Z;
      cbn [results initial setitem getitem]; rewrite String.eqb_refl;
      destruct (best_signal_strength st <? signal_strength s)%Z; reflexivity.
Qed.

Section FirstMaximum.

Variable f : string -> option SignalSet.

Lemma invariant_step (done : list string) (st : selection) (tf : string) :
  invariant f done st -> invariant f (done ++ [tf]) (step f st tf).
Proof.
  unfold invariant, step, strength_of.
  destruct (f tf) as [signals |] eqn:Ef.
  - unfold update.
    destruct (best_signal_strength st <? signal_strength signals)%Z eqn:Elt;
      cbn [best_timeframe best_signal_strength].
    + apply Z.ltb_lt in Elt. intros H.
      exists done, []. split; [reflexivity |].
      rewrite Ef. split; [reflexivity |].
      destruct (best_timeframe st) as [b |].
      * destruct H as (pre & post & -> & Eb & Hb & Hpre & Hpost).
        split; [lia |]. split; [| intros ? ? []].
        intros tf' s' Hin Es'. apply in_app_or in Hin.
        destruct Hin as [Hin | [<- | Hin]].
        -- specialize (Hpre tf' s' Hin Es'). lia.
        -- rewrite Eb in Es'. injection Es' as <-. lia.
        -- specialize (Hpost tf' s' Hin Es'). lia.
      * destruct H as (Ebs & Hall). split; [lia |].
        split; [| intros ? ? []].
        intros tf' s' Hin Es'. specialize (Hall tf' s' Hin Es'). lia.
    + apply Z.ltb_ge in Elt. intros H.
      destruct (best_timeframe st) as [b |].
      * destruct H as (pre & post & -> & Eb & Hb & Hpre & Hpost).
        exists pre, (post ++ [tf]).
        split; [rewrite <- app_assoc; reflexivity |].
        split; [exact Eb |]. split; [exact Hb |]. split; [exact Hpre |].
        intros tf' s' Hin Es'. apply in_app_or in Hin.
        destruct Hin as [Hin | [<- | []]]; [apply (Hpost tf' s' Hin Es') |].
        rewrite Ef in Es'. injection Es' as <-. exact Elt.
      * destruct H as (Ebs & Hall). split; [exact Ebs |].
        intros tf' s' Hin Es'. apply in_app_or in Hin.
        destruct Hin as [Hin | [<- | []]]; [apply (Hall tf' s' Hin Es') |].
        rewrite Ef in Es'. injection Es' as <-. lia.
  - intros H. destruct (best_timeframe st) as [b |].
    + destruct H as (pre & post & -> & Eb & Hb & Hpre & Hpost).
      exists pre, (post ++ [tf]).
      split; [rewrite <- app_assoc; reflexivity |].
      split; [exact Eb |]. split; [exact Hb |]. split; [exact Hpre |].
      intros tf' s' Hin Es'. apply in_app_or in Hin.
      destruct Hin as [Hin | [<- | []]]; [apply (Hpost tf' s' Hin Es') |].
      rewrite Ef in Es'. discriminate Es'.
    + destruct H as (Ebs & Hall). split; [exact Ebs |].
      intros tf' s' Hin Es'. apply in_app_or in Hin.
      destruct Hin as [Hin | [<- | []]]; [apply (Hall tf' s' Hin Es') |].
      rewrite Ef in Es'. discriminate Es'.
Qed.

Lemma invariant_fold (rest done : list string) (st : selection) :
  invariant f done st -> invariant f (done ++ rest) (fold_left (step f) rest st).
Proof.
  revert done st. induction rest as [| tf rest IH]; intros done st H.
  - rewrite app_nil_r. exact H.
  - cbn [fold_left].
    replace (done ++ tf :: rest) with ((done ++ [tf]) ++ rest)
      by (rewrite <- app_assoc; reflexivity).
    apply IH. apply invariant_step. exact H.
Qed.

Lemma invariant_initial : invariant f [] initial.
Proof. split; [reflexivity | intros ? ? []]. Qed.

End FirstMaximum.

Lemma for_each_iteration (klines : fetcher) (crypto : string)
  (tfs : list string) (st : selection) :
  for_each (iteration klines crypto) tfs st =
  Returns (fold_left (step (classified klines crypto)) tfs st).
Proof.
  revert st. induction tfs as [| tf tfs IH]; intros st; [reflexivity |].
  cbn [for_each fold_left]. rewrite iteration_eq. cbn [bind]. apply IH.
Qed.

(** ** Skipping a timeframe *)

(** C2, as stated, fails for not-a-number: on fourteen equal prices the
    RSI and the StochRSI %K are not-a-number, yet the timeframe is
    classified and recorded. *)
Lemma nan_is_not_skipped :
  exists (st : selection) (signals : SignalSet),
    calculate_rsi (map close flat_bars) 14 = Returns (Some NaN)
    /\ calculate_stochrsi (map close flat_bars) 14 3 3
       = Returns (Some NaN, Some NaN)
    /\ iteration (always flat_bars) "BTCUSDT" initial "15m" = Returns st
    /\ getitem (results st) "15m" = Some signals
    /\ st <> initial.
Proof.
  eexists. eexists.
  split; [vm_compute; reflexivity |].
  split; [vm_compute; reflexivity |].
  split; [vm_compute; reflexivity |].
  split; [vm_compute; reflexivity |].
  discriminate.
Qed.

(** C2 (amended): a timeframe with data is skipped when the RSI, the
    StochRSI %K or the ATR is [None]: the iteration leaves the results and
    the running best as they were and classifies nothing.  When none of
    the three is [None] the timeframe is classified and recorded, also
    when a value is not-a-number. *)
Theorem none_is_skipped (klines : fetcher) (crypto timeframe : string)
  (st : selection) (prices : list bar)
  (rsi stochrsi_k stochrsi_d atr : option float) :
  klines crypto timeframe = Some prices ->
  calculate_rsi (map close prices) 14 = Returns rsi ->
  calculate_stochrsi (map close prices) 14 3 3 = Returns (stochrsi_k, stochrsi_d) ->
  calculate_atr prices 14 = Returns atr ->
  (rsi = None \/ stochrsi_k = None \/ atr = None ->
   iteration klines crypto st timeframe = Returns st)
  /\ (rsi <> None /\ stochrsi_k <> None /\ atr <> None ->
      exists r k a signals,
        rsi = Some r /\ stochrsi_k = Some k /\ atr = Some a
        /\ get_trade_signal r k stochrsi_d a = Returns signals
        /\ iteration klines crypto st timeframe
           = Returns (update st timeframe signals)
        /\ getitem (results (update st timeframe signals)) timeframe
           = Some signals).
Proof.
  intros Hk Hr Hs Ha. split.
  - intros Hnone. unfold iteration. rewrite Hk.
    destruct prices as [| b prices]; [reflexivity |].
    rewrite Hr, Hs, Ha. cbn [bind].
    destruct rsi; [| reflexivity]. destruct stochrsi_k; [| reflexivity].
    destruct atr; [| reflexivity].
    destruct Hnone as [H | [H | H]]; discriminate H.
  - intros (Hr' & Hk' & Ha').
    destruct rsi as [r |]; [| congruence].
    destruct stochrsi_k as [k |]; [| congruence].
    destruct atr as [a |]; [| congruence].
    pose proof (calculate_stochrsi_returns (map close prices) 14 3 3) as Hd.
    destruct (length (map close prices) <? 14)%nat.
    { rewrite Hs in Hd. specialize (Hd ltac:(lia)). discriminate Hd. }
    destruct Hd as (k0 & d0 & Hd); [lia |].
    rewrite Hs in Hd. injection Hd as -> ->.
    destruct (get_trade_signal_returns r k0 d0 a) as (signals & Eg).
    exists r, k0, a, signals.
    split; [reflexivity |]. split; [reflexivity |]. split; [reflexivity |].
    split; [exact Eg |]. split.
    + unfold iteration. rewrite Hk.
      destruct prices as [| b prices].
      { unfold calculate_rsi in Hr. simpl in Hr. discriminate Hr. }
      rewrite Hr, Hs, Ha. cbn [bind]. rewrite Eg. cbn [bind].
      unfold update. destruct (_ <? _)%Z; reflexivity.
    + rewrite update_results, getitem_setitem, String.eqb_refl. reflexivity.
Qed.

Lemma none_is_skipped_witness :
  iteration (always short_bars) "BTCUSDT" initial "15m" = Returns initial.
Proof.
  apply (none_is_skipped (always short_bars) "BTCUSDT" "15m" initial short_bars
           None None None None); try reflexivity.
  left. reflexivity.
Defined.

(** ** The best timeframe *)

(** C5: the running best starts at no timeframe with strength -1; an
    iteration replaces it exactly when the timeframe's score is strictly
    greater than the running strength.  Hence the timeframe returned is
    the first of ["15m", "1h", "4h", "1d"] with the highest score, a
    timeframe with a score of 0 or more makes some timeframe the best,
    and when every score is -1 or less none is returned. *)
Theorem best_is_first_strict_maximum (klines : fetcher) (crypto : string) :
  timeframes = ["15m"; "1h"; "4h"; "1d"]
  /\ best_timeframe initial = None
  /\ best_signal_strength initial = (-1)%Z
  /\ (forall st tf,
        exists st',
          iteration klines crypto st tf = Returns st'
          /\ match score klines crypto tf with
             | None => st' = st
             | Some s =>
                 best_timeframe st' =
                   (if (best_signal_strength st <? s)%Z
                    then Some tf else best_timeframe st)
                 /\ best_signal_strength st' =
                      (if (best_signal_strength st <? s)%Z
                       then s else best_signal_strength st)
             end)
  /\ exists best results,
       analyze_best_timeframe klines crypto = Returns (best, results)
       /\ (forall tf, best = Some tf ->
                      first_maximum (score klines crypto) timeframes tf)
       /\ (forall tf s, In tf timeframes -> score klines crypto tf = Some s ->
                        (0 <= s)%Z -> best <> None)
       /\ ((forall tf s, In tf timeframes -> score klines crypto tf = Some s ->
                         (s <= -1)%Z) -> best = None).
Proof.
  split; [reflexivity |]. split; [reflexivity |]. split; [reflexivity |].
  split.
  - intros st tf. eexists. split; [apply iteration_eq |].
    unfold score. destruct (classified klines crypto tf) as [signals |];
      [| reflexivity].
    cbn [option_map]. unfold update.
    destruct (best_signal_strength st <? signal_strength signals)%Z;
      split; reflexivity.
  - unfold analyze_best_timeframe. rewrite for_each_iteration. cbn [bind].
    eexists. eexists. split; [reflexivity |].
    pose proof (invariant_fold (classified klines crypto) timeframes []
                  initial (invariant_initial _)) as Hinv.
    cbn [app] in Hinv. unfold invariant in Hinv.
    set (final := fold_left (step (classified klines crypto)) timeframes initial)
      in *.
    change (strength_of (classified klines crypto)) with (score klines crypto)
      in Hinv.
    destruct (best_timeframe final) as [b |].
    + destruct Hinv as (pre & post & E & Eb & Hb & Hpre & Hpost).
      split; [| split; [intros; discriminate |]].
      * intros tf Htf. injection Htf as <-.
        exists pre, post, (best_signal_strength final). repeat split; assumption.
      * intros Hall. exfalso.
        assert (Hin : In b timeframes) by (rewrite E; apply in_elt).
        specialize (Hall b _ Hin Eb). lia.
    + destruct Hinv as (_ & Hall).
      split; [intros; discriminate |]. split; [| reflexivity].
      intros tf s Hin Es Hs _. specialize (Hall tf s Hin Es). lia.
Qed.

Lemma best_is_first_strict_maximum_witness :
  score example_fetcher "BTCUSDT" "15m" = Some (-1)%Z
  /\ score example_fetcher "BTCUSDT" "1h" = Some 1%Z
  /\ score example_fetcher "BTCUSDT" "4h" = Some 1%Z
  /\ score example_fetcher "BTCUSDT" "1d" = None
  /\ first_maximum (score example_fetcher "BTCUSDT") timeframes "1h"
  /\ (exists results, analyze_best_timeframe sell_fetcher "BTCUSDT"
                      = Returns (None, results)).
Proof.
  split; [vm_compute; reflexivity |].
  split; [vm_compute; reflexivity |].
  split; [vm_compute; reflexivity |].
  split; [vm_compute; reflexivity |].
  split.
  - destruct (best_is_first_strict_maximum example_fetcher "BTCUSDT")
      as (_ & _ & _ & _ & best & results & E & Hfirst & _).
    apply Hfirst.
    assert (Eb : option_map fst
                   (match analyze_best_timeframe example_fetcher "BTCUSDT" with
                    | Returns p => Some p
                    | Raises _ => None
                    end) = Some (Some "1h"))
      by (vm_compute; reflexivity).
    rewrite E in Eb. simpl in Eb. injection Eb as ->. reflexivity.
  - destruct (best_is_first_strict_maximum sell_fetcher "BTCUSDT")
      as (_ & _ & _ & _ & best & results & E & _ & _ & Hnone).
    exists results. rewrite E. f_equal. f_equal. apply Hnone.
    intros tf s Hin Es. simpl in Hin.
    destruct Hin as [<- | [<- | [<- | [<- | []]]]];
      vm_compute in Es; injection Es as <-; lia.
Defined.

(* ------------------------------------------------------------------ *)
(** * Further properties *)

(** ** The labels and the score of the classifier *)

(** X1: [get_trade_signal] never gives "Wait for a clear signal": the
    StochRSI label always contains "Buy" or "Sell", so the hold time is
    "Hold for 1-3 days" when either label contains "Buy" and "Exit within
    hours" otherwise; each label is one of the fixed ones. *)
Theorem hold_time_is_never_wait (rsi stochrsi_k stochrsi_d atr : float) :
  exists s,
    get_trade_signal rsi stochrsi_k (Some stochrsi_d) atr = Returns s
    /\ In (RSI_Signal s) rsi_labels
    /\ In (StochRSI_Signal s) stochrsi_labels
    /\ In (ATR_Signal s) atr_labels
    /\ Estimated_Time_to_Hold s =
       (if either "Buy" s then "Hold for 1-3 days" else "Exit within hours")
    /\ Estimated_Time_to_Hold s <> "Wait for a clear signal".
Proof.
  unfold get_trade_signal, gt_optional.
  destruct (gtb rsi (Fin 70)); [| destruct (ltb rsi (Fin 30))];
    (destruct (gtb stochrsi_k (Fin 0.8));
     [| destruct (ltb stochrsi_k (Fin 0.2));
        [| destruct (gtb stochrsi_k stochrsi_d)]]);
    (destruct (eqb atr (Fin 0)); [| destruct (gtb atr (Fin 0.002))]);
    cbn [bind]; eexists; (split; [reflexivity |]);
    cbn [RSI_Signal StochRSI_Signal ATR_Signal Estimated_Time_to_Hold];
    unfold rsi_labels, stochrsi_labels, atr_labels;
    repeat split; simpl; auto 6; discriminate.
Qed.

(** X2: the score of a SignalSet that [get_trade_signal] gives lies
    between -3 and 3; it is 0 only when one label is a strong buy and the
    other a strong sell; and whenever it is 0 or more the hold time is
    "Hold for 1-3 days". *)
Theorem score_of_classified (rsi stochrsi_k stochrsi_d atr : float) :
  exists s,
    get_trade_signal rsi stochrsi_k (Some stochrsi_d) atr = Returns s
    /\ (-3 <= signal_strength s <= 3)%Z
    /\ (signal_strength s = 0%Z ->
        either "Strong Buy" s = true /\ either "Strong Sell" s = true)
    /\ ((0 <= signal_strength s)%Z ->
        Estimated_Time_to_Hold s = "Hold for 1-3 days").
Proof.
  unfold get_trade_signal, gt_optional.
  destruct (gtb rsi (Fin 70)); [| destruct (ltb rsi (Fin 30))];
    (destruct (gtb stochrsi_k (Fin 0.8));
     [| destruct (ltb stochrsi_k (Fin 0.2));
        [| destruct (gtb stochrsi_k stochrsi_d)]]);
    (destruct (eqb atr (Fin 0)); [| destruct (gtb atr (Fin 0.002))]);
    cbn [bind]; eexists; (split; [reflexivity |]);
    (split; [vm_compute; split; discriminate |]);
    (split; [vm_compute; intros H; first [discriminate H | split; reflexivity]
            | vm_compute; intros H; first [reflexivity | exfalso; apply H; reflexivity]]).
Qed.

(* ------------------------------------------------------------------ *)
(** ** The fetcher *)

Section Fetcher.

Context {entry : Type}.
Variable ohlc : entry -> option bar.
Variable requests_get : string -> string -> nat -> nat -> reply entry.
Variables symbol interval : string.
Variables limit retries delay : nat.

Local Abbreviation run_attempts :=
  (attempts ohlc requests_get symbol interval limit retries delay).
Local Abbreviation refused_at := (refused requests_get symbol interval limit).
Local Abbreviation refusal a :=
  [Request symbol interval limit;
   Print (FetchError symbol (S a) retries
            match requests_get symbol interval limit a with
            | Response status_code _ => status_code
            | Fails => 0%Z
            end);
   Sleep delay].

Lemma decode_no_request (body : payload entry) :
  requests_made (fst (decode ohlc symbol interval body)) = 0%nat
  /\ seconds_slept (fst (decode ohlc symbol interval body)) = 0%nat.
Proof.
  unfold decode. destruct body as [| [|] | [| e data]]; try (split; reflexivity).
  destruct (convert ohlc (e :: data)); split; reflexivity.
Qed.

(** Attempts that are refused each leave a request, a message and a
    sleep, and the loop goes on. *)
Lemma attempts_refused (pre rest : list nat) :
  Forall refused_at pre ->
  fst (run_attempts (pre ++ rest))
  = concat (map (fun a => refusal a) pre) ++ fst (run_attempts rest)
  /\ snd (run_attempts (pre ++ rest)) = snd (run_attempts rest).
Proof.
  induction 1 as [| a pre (status & body & E & Hs) _ IH]; [split; reflexivity |].
  cbn [app attempts map concat]. rewrite E.
  replace (status =? 200)%Z with false by (symmetry; apply Z.eqb_neq; exact Hs).
  destruct (run_attempts (pre ++ rest)) as [later result].
  cbn [fst snd] in *. destruct IH as [-> ->]. split; reflexivity.
Qed.

Lemma refused_trace_counts (pre : list nat) (tail : list event) :
  requests_made (concat (map (fun a => refusal a) pre) ++ tail)
  = (length pre + requests_made tail)%nat
  /\ seconds_slept (concat (map (fun a => refusal a) pre) ++ tail)
     = (length pre * delay + seconds_slept tail)%nat.
Proof.
  induction pre as [| a pre [IH1 IH2]]; [split; reflexivity |].
  cbn [map concat app]. unfold requests_made, seconds_slept in *.
  cbn [filter length fold_right]. rewrite IH1, IH2. split; simpl; lia.
Qed.

Lemma refused_before (k : nat) :
  (forall a, (a < k)%nat -> refused_at a) -> Forall refused_at (seq 0 k).
Proof.
  intros H. apply Forall_forall. intros a Ha. apply in_seq in Ha.
  apply H. lia.
Qed.

Lemma seq_split_at (k n : nat) :
  (k < n)%nat -> seq 0 n = seq 0 k ++ k :: seq (S k) (n - S k).
Proof.
  intros H. replace n with (k + S (n - S k))%nat at 1 by lia.
  rewrite seq_app. reflexivity.
Qed.

(** X3: when every one of the [retries] attempts is answered with a
    status other than 200, [get_historical_klines] returns [None] after
    exactly [retries] requests and [retries] sleeps of [delay] seconds:
    it sleeps after the last failed attempt too. *)
Theorem retries_exhausted :
  (forall a, (a < retries)%nat -> refused_at a) ->
  let result := get_historical_klines ohlc requests_get symbol interval
                  limit retries delay in
  snd result = Gives None
  /\ requests_made (fst result) = retries
  /\ seconds_slept (fst result) = (retries * delay)%nat.
Proof.
  intros H result. unfold result, get_historical_klines.
  destruct (attempts_refused (seq 0 retries) [] (refused_before retries H))
    as [Et Er].
  rewrite app_nil_r in Et, Er. rewrite Et, Er.
  destruct (refused_trace_counts (seq 0 retries) (fst (run_attempts [])))
    as [E1 E2].
  rewrite E1, E2, length_seq. cbn. repeat split; lia.
Qed.

(** X4: the first attempt answered with status 200 ends the call: after
    [k] refused attempts, [k + 1] requests have been made and [k] sleeps
    taken, no later request is made, and the value returned is what the
    body of that response decodes to. *)
Theorem first_success_decides (k : nat) (body : payload entry) :
  (k < retries)%nat ->
  (forall a, (a < k)%nat -> refused_at a) ->
  requests_get symbol interval limit k = Response 200 body ->
  let result := get_historical_klines ohlc requests_get symbol interval
                  limit retries delay in
  snd result = Gives (snd (decode ohlc symbol interval body))
  /\ requests_made (fst result) = S k
  /\ seconds_slept (fst result) = (k * delay)%nat.
Proof.
  intros Hk H E result. unfold result, get_historical_klines.
  rewrite (seq_split_at k retries Hk).
  destruct (attempts_refused (seq 0 k) (k :: seq (S k) (retries - S k))
              (refused_before k H)) as [Et Er].
  rewrite Et, Er.
  destruct (refused_trace_counts (seq 0 k)
              (fst (run_attempts (k :: seq (S k) (retries - S k)))))
    as [E1 E2].
  rewrite E1, E2, length_seq. cbn [attempts]. rewrite E. cbn [Z.eqb Pos.eqb].
  destruct (decode_no_request body) as [D1 D2].
  destruct (decode ohlc symbol interval body) as [printed prices].
  cbn [fst snd] in *. unfold requests_made, seconds_slept in *.
  cbn [filter length fold_right]. rewrite D1, D2. repeat split; lia.
Qed.

(** X5: an exception of [requests.get] is not caught and not retried:
    after [k] refused attempts it ends the call at request [k + 1]. *)
Theorem request_exception_propagates (k : nat) :
  (k < retries)%nat ->
  (forall a, (a < k)%nat -> refused_at a) ->
  requests_get symbol interval limit k = Fails ->
  let result := get_historical_klines ohlc requests_get symbol interval
                  limit retries delay in
  snd result = Propagates
  /\ requests_made (fst result) = S k
  /\ seconds_slept (fst result) = (k * delay)%nat.
Proof.
  intros Hk H E result. unfold result, get_historical_klines.
  rewrite (seq_split_at k retries Hk).
  destruct (attempts_refused (seq 0 k) (k :: seq (S k) (retries - S k))
              (refused_before k H)) as [Et Er].
  rewrite Et, Er.
  destruct (refused_trace_counts (seq 0 k)
              (fst (run_attempts (k :: seq (S k) (retries - S k)))))
    as [E1 E2].
  rewrite E1, E2, length_seq. cbn [attempts]. rewrite E.
  cbn. repeat split; lia.
Qed.

Lemma convert_Forall2 (data : list entry) (prices : list bar) :
  convert ohlc data = Some prices <->
  Forall2 (fun e b => ohlc e = Some b) data prices.
Proof.
  revert prices. induction data as [| e data IH]; intros prices; simpl.
  - split.
    + intros H. injection H as <-. constructor.
    + intros H. inversion H. reflexivity.
  - split.
    + destruct (ohlc e) as [b |] eqn:Eb; [| discriminate].
      destruct (convert ohlc data) as [bs |]; [| discriminate].
      intros H. injection H as <-. constructor; [exact Eb |].
      apply IH. reflexivity.
    + intros H. inversion H as [| ? b ? bs Eb Hrest]; subst.
      rewrite Eb. apply IH in Hrest. rewrite Hrest. reflexivity.
Qed.

Lemma decode_Some (body : payload entry) (prices : list bar) :
  snd (decode ohlc symbol interval body) = Some prices ->
  exists data, body = Entries data /\ data <> []
               /\ convert ohlc data = Some prices.
Proof.
  unfold decode. destruct body as [| [|] | [| e data]]; try discriminate.
  destruct (convert ohlc (e :: data)) as [bs |] eqn:E; [| discriminate].
  cbn [snd]. intros H. injection H as <-.
  exists (e :: data). repeat split; [discriminate | exact E].
Qed.

Lemma attempts_Some (todo : list nat) (prices : list bar) :
  snd (run_attempts todo) = Gives (Some prices) ->
  exists attempt data,
    In attempt todo
    /\ requests_get symbol interval limit attempt = Response 200 (Entries data)
    /\ data <> []
    /\ convert ohlc data = Some prices.
Proof.
  induction todo as [| a todo IH]; [discriminate |].
  cbn [attempts].
  destruct (requests_get symbol interval limit a) as [| status body] eqn:E;
    [discriminate |].
  destruct (status =? 200)%Z eqn:Es.
  - apply Z.eqb_eq in Es. subst status.
    pose proof (decode_Some body prices) as Hd.
    destruct (decode ohlc symbol interval body) as [printed r].
    cbn [snd] in *. intros H. injection H as ->.
    destruct (Hd eq_refl) as (data & -> & Hne & Hc).
    exists a, data. repeat split; [left; reflexivity | exact E | exact Hne | exact Hc].
  - destruct (run_attempts todo) as [later result]. cbn [snd] in *.
    intros H. destruct (IH H) as (a' & data & Hin & Ha' & Hne & Hc).
    exists a', data. repeat split; [right; exact Hin | exact Ha' | exact Hne | exact Hc].
Qed.

(** X6: [get_historical_klines] never returns an empty list.  A list it
    returns comes from a 200 response whose data is a non-empty sequence
    of entries that all convert, one bar for each entry in the same
    order; one entry that fails to convert makes the whole result
    [None]. *)
Theorem prices_are_all_or_nothing (prices : list bar) :
  snd (get_historical_klines ohlc requests_get symbol interval limit retries delay)
  = Gives (Some prices) ->
  prices <> []
  /\ exists attempt data,
       (attempt < retries)%nat
       /\ requests_get symbol interval limit attempt = Response 200 (Entries data)
       /\ length prices = length data
       /\ Forall2 (fun e b => ohlc e = Some b) data prices.
Proof.
  unfold get_historical_klines. intros H.
  destruct (attempts_Some _ _ H) as (a & data & Hin & Ha & Hne & Hc).
  apply convert_Forall2 in Hc.
  assert (Hlen : length prices = length data)
    by (symmetry; apply (Forall2_length Hc)).
  split.
  - intros ->. destruct data; [congruence | discriminate Hlen].
  - exists a, data. apply in_seq in Hin. repeat split; [lia | exact Ha | exact Hlen | exact Hc].
Qed.

Lemma attempts_bounds (todo : list nat) :
  (requests_made (fst (run_attempts todo)) <= length todo)%nat
  /\ (seconds_slept (fst (run_attempts todo))
      <= requests_made (fst (run_attempts todo)) * delay)%nat.
Proof.
  induction todo as [| a todo [IH1 IH2]]; [split; cbn; lia |].
  cbn [attempts].
  destruct (requests_get symbol interval limit a) as [| status body];
    [split; cbn; lia |].
  destruct (status =? 200)%Z.
  - destruct (decode_no_request body) as [D1 D2].
    destruct (decode ohlc symbol interval body) as [printed r].
    cbn [fst snd] in *. unfold requests_made, seconds_slept in *.
    cbn [filter length fold_right]. rewrite D1, D2. split; lia.
  - destruct (run_attempts todo) as [later result]. cbn [fst snd] in *.
    unfold requests_made, seconds_slept in *.
    cbn [filter length fold_right]. split; simpl; lia.
Qed.

(** X7: whatever the network answers, one call makes at most [retries]
    requests and sleeps at most [delay] seconds for each request made;
    with [retries = 0] it makes no request and returns [None]. *)
Theorem requests_are_bounded :
  let result := get_historical_klines ohlc requests_get symbol interval
                  limit retries delay in
  (requests_made (fst result) <= retries)%nat
  /\ (seconds_slept (fst result) <= requests_made (fst result) * delay)%nat
  /\ (seconds_slept (fst result) <= retries * delay)%nat
  /\ (retries = 0%nat -> result = ([], Gives None)).
Proof.
  intros result. unfold result, get_historical_klines.
  destruct (attempts_bounds (seq 0 retries)) as [H1 H2].
  rewrite length_seq in H1.
  split; [exact H1 |]. split; [exact H2 |]. split.
  - eapply Nat.le_trans; [exact H2 |]. apply Nat.mul_le_mono_r. exact H1.
  - intros ->. reflexivity.
Qed.

End Fetcher.

Lemma retries_exhausted_witness :
  get_historical_klines example_ohlc down_network "BTCUSDT" "1h" 100 3 3
  = ([Request "BTCUSDT" "1h" 100; Print (FetchError "BTCUSDT" 1 3 500); Sleep 3;
      Request "BTCUSDT" "1h" 100; Print (FetchError "BTCUSDT" 2 3 500); Sleep 3;
      Request "BTCUSDT" "1h" 100; Print (FetchError "BTCUSDT" 3 3 500); Sleep 3],
     Gives None)
  /\ seconds_slept
       (fst (get_historical_klines example_ohlc down_network "BTCUSDT" "1h" 100 3 3))
     = 9%nat.
Proof.
  split; [reflexivity |].
  apply (retries_exhausted example_ohlc down_network "BTCUSDT" "1h" 100 3 3).
  intros a _. exists 500%Z, Undecodable. split; [reflexivity | discriminate].
Defined.

Lemma first_success_decides_witness :
  snd (get_historical_klines example_ohlc busy_network "BTCUSDT" "1h" 100 3 3)
  = Gives (Some [{| open := 1; high := 3; low := 1; close := 2 |}])
  /\ requests_made
       (fst (get_historical_klines example_ohlc busy_network "BTCUSDT" "1h" 100 3 3))
     = 2%nat.
Proof.
  destruct (first_success_decides example_ohlc busy_network "BTCUSDT" "1h" 100 3 3
              1 (Entries [[0; 1; 3; 1; 2; 7]])) as (H1 & H2 & _).
  - lia.
  - intros a Ha. assert (a = 0%nat) as -> by lia.
    exists 429%Z, Undecodable. split; [reflexivity | discriminate].
  - reflexivity.
  - split; [exact H1 | exact H2].
Defined.

Lemma request_exception_propagates_witness :
  snd (get_historical_klines example_ohlc broken_network "BTCUSDT" "1h" 100 3 3)
  = Propagates
  /\ requests_made
       (fst (get_historical_klines example_ohlc broken_network "BTCUSDT" "1h" 100 3 3))
     = 2%nat.
Proof.
  destruct (request_exception_propagates example_ohlc broken_network
              "BTCUSDT" "1h" 100 3 3 1) as (H1 & H2 & _).
  - lia.
  - intros a Ha. assert (a = 0%nat) as -> by lia.
    exists 500%Z, Undecodable. split; [reflexivity | discriminate].
  - reflexivity.
  - split; [exact H1 | exact H2].
Defined.

Lemma prices_are_all_or_nothing_witness :
  [{| open := 1; high := 3; low := 1; close := 2 |}] <> []
  /\ exists attempt data,
       (attempt < 3)%nat
       /\ busy_network "BTCUSDT" "1h" 100%nat attempt = Response 200 (Entries data)
       /\ length [{| open := 1; high := 3; low := 1; close := 2 |}] = length data
       /\ Forall2 (fun e b => example_ohlc e = Some b) data
                  [{| open := 1; high := 3; low := 1; close := 2 |}].
Proof.
  apply (prices_are_all_or_nothing example_ohlc busy_network "BTCUSDT" "1h" 100 3 3).
  reflexivity.
Defined.

(* ------------------------------------------------------------------ *)
(** ** What the selector records *)

(** The SignalSet recorded for a timeframe, from what the fetcher gives. *)
Lemma classified_cases (klines : fetcher) (crypto tf : string) :
  match klines crypto tf with
  | None => classified klines crypto tf = None
  | Some prices =>
      if (length prices <? 14)%nat then classified klines crypto tf = None
      else exists r k d a s,
             calculate_rsi (map close prices) 14 = Returns (Some r)
             /\ calculate_stochrsi (map close prices) 14 3 3
                = Returns (Some k, Some d)
             /\ calculate_atr prices 14 = Returns (Some a)
             /\ get_trade_signal r k (Some d) a = Returns s
             /\ classified klines crypto tf = Some s
  end.
Proof.
  unfold classified, iteration.
  destruct (klines crypto tf) as [prices |]; [| reflexivity].
  pose proof (calculate_rsi_returns_iff (map close prices) 14) as Hr.
  pose proof (calculate_stochrsi_returns (map close prices) 14 3 3) as Hs.
  pose proof (calculate_atr_returns_iff prices 14) as Ha.
  rewrite length_map in Hr, Hs.
  destruct (length prices <? 14)%nat eqn:El.
  - destruct prices as [| b prices]; [reflexivity |].
    rewrite Hr, Hs, Ha by lia. reflexivity.
  - destruct prices as [| b prices]; [discriminate El |].
    destruct Hr as (r & Er); [lia |].
    destruct Hs as (k & d & Es); [lia |].
    destruct Ha as (a & Ea); [lia |].
    destruct (get_trade_signal_returns r k d a) as (s & Eg).
    exists r, k, d, a, s. rewrite Er, Es, Ea. cbn [bind]. rewrite Eg.
    cbn [bind]. repeat split.
    destruct (_ <? _)%Z; cbn [results initial setitem getitem];
      rewrite String.eqb_refl; reflexivity.
Qed.

(** The entries of [results] after the loop: the last SignalSet of each
    timeframe that was classified. *)
Lemma results_fold (f : string -> option SignalSet) (tfs : list string)
  (st : selection) (tf : string) :
  getitem (results (fold_left (step f) tfs st)) tf =
  if existsb (String.eqb tf) tfs
  then match f tf with
       | Some s => Some s
       | None => getitem (results st) tf
       end
  else getitem (results st) tf.
Proof.
  revert st. induction tfs as [| a tfs IH]; intros st; [reflexivity |].
  cbn [fold_left existsb]. rewrite IH.
  assert (Hstep : getitem (results (step f st a)) tf =
                  if String.eqb tf a
                  then match f tf with
                       | Some s => Some s
                       | None => getitem (results st) tf
                       end
                  else getitem (results st) tf).
  { unfold step. destruct (String.eqb tf a) eqn:E.
    - apply String.eqb_eq in E. subst a.
      destruct (f tf) as [s |]; [| reflexivity].
      rewrite update_results, getitem_setitem, String.eqb_refl. reflexivity.
    - destruct (f a) as [s |]; [| reflexivity].
      rewrite update_results, getitem_setitem, String.eqb_sym, E. reflexivity. }
  rewrite Hstep.
  destruct (String.eqb tf a), (existsb (String.eqb tf) tfs), (f tf);
    reflexivity.
Qed.

Lemma existsb_eqb_In (tf : string) (tfs : list string) :
  existsb (String.eqb tf) tfs = true <-> In tf tfs.
Proof.
  rewrite existsb_exists. split.
  - intros (x & Hx & E). apply String.eqb_eq in E. subst x. exact Hx.
  - intros H. exists tf. split; [exact H | apply String.eqb_refl].
Qed.

(** A score of 0 or more comes with the hold time "Hold for 1-3 days". *)
Lemma nonneg_score_holds (rsi k d atr : float) (s : SignalSet) :
  get_trade_signal rsi k (Some d) atr = Returns s ->
  (0 <= signal_strength s)%Z ->
  Estimated_Time_to_Hold s = "Hold for 1-3 days".
Proof.
  unfold get_trade_signal, gt_optional.
  destruct (gtb rsi (Fin 70)); [| destruct (ltb rsi (Fin 30))];
    (destruct (gtb k (Fin 0.8));
     [| destruct (ltb k (Fin 0.2)); [| destruct (gtb k d)]]);
    (destruct (eqb atr (Fin 0)); [| destruct (gtb atr (Fin 0.002))]);
    cbn [bind]; intros H; injection H as <-;
    vm_compute; intros H; first [reflexivity | exfalso; apply H; reflexivity].
Qed.

(** For a fetcher that returns, [results] has an entry for a timeframe
    exactly when it is one of the four timeframes and the fetcher gave at
    least 14 bars for it; the entry is what [get_trade_signal] gives for
    the three indicators of these bars. *)
Lemma results_of_fetcher (klines : fetcher) (crypto : string) :
  exists best results,
    analyze_best_timeframe klines crypto = Returns (best, results)
    /\ forall tf,
         ((exists s, getitem results tf = Some s) <->
          (In tf timeframes
           /\ exists prices, klines crypto tf = Some prices
                             /\ (14 <= length prices)%nat))
         /\ (forall s, getitem results tf = Some s ->
               exists prices r k d a,
                 klines crypto tf = Some prices
                 /\ calculate_rsi (map close prices) 14 = Returns (Some r)
                 /\ calculate_stochrsi (map close prices) 14 3 3
                    = Returns (Some k, Some d)
                 /\ calculate_atr prices 14 = Returns (Some a)
                 /\ get_trade_signal r k (Some d) a = Returns s).
Proof.
  unfold analyze_best_timeframe. rewrite for_each_iteration. cbn [bind].
  eexists. eexists. split; [reflexivity |]. intros tf.
  rewrite results_fold. cbn [results initial getitem].
  pose proof (classified_cases klines crypto tf) as Hc.
  pose proof (existsb_eqb_In tf timeframes) as Hin.
  destruct (existsb (String.eqb tf) timeframes).
  - assert (In tf timeframes) as HIn by (apply Hin; reflexivity).
    destruct (klines crypto tf) as [prices |].
    + destruct (length prices <? 14)%nat eqn:El.
      * rewrite Hc. split.
        -- split; [intros (s & H); discriminate H |].
           intros (_ & p & Ep & Hp). injection Ep as <-.
           apply Nat.ltb_lt in El. lia.
        -- intros s H. discriminate H.
      * destruct Hc as (r & k & d & a & s & Er & Es & Ea & Eg & ->).
        apply Nat.ltb_ge in El. split.
        -- split; [| intros _; exists s; reflexivity].
           intros _. split; [exact HIn |]. exists prices. split; [reflexivity | exact El].
        -- intros s' H. injection H as <-. exists prices, r, k, d, a.
           repeat split; assumption.
    + rewrite Hc. split.
      * split; [intros (s & H); discriminate H |].
        intros (_ & p & Ep & _). discriminate Ep.
      * intros s H. discriminate H.
  - split.
    + split; [intros (s & H); discriminate H |].
      intros (HIn & _). apply Hin in HIn. discriminate HIn.
    + intros s H. discriminate H.
Qed.

(** The best timeframe after the loop, when there is one, was classified
    with a score of 0 or more. *)
Lemma best_was_classified (klines : fetcher) (crypto tf : string) :
  best_timeframe (fold_left (step (classified klines crypto)) timeframes initial)
  = Some tf ->
  In tf timeframes
  /\ exists s, classified klines crypto tf = Some s
               /\ (0 <= signal_strength s)%Z.
Proof.
  intros Hb.
  pose proof (invariant_fold (classified klines crypto) timeframes []
                initial (invariant_initial _)) as Hinv.
  cbn [app] in Hinv. unfold invariant in Hinv. rewrite Hb in Hinv.
  set (final := fold_left _ _ _) in *. clearbody final.
  destruct Hinv as (pre & post & E & Es & Hpos & _).
  split; [rewrite E; apply in_elt |].
  unfold strength_of in Es.
  destruct (classified klines crypto tf) as [s |]; [| discriminate Es].
  cbn [option_map] in Es. injection Es as Es.
  exists s. split; [reflexivity | lia].
Qed.

(** X9: the best timeframe, when there is one, is a key of [results]; its
    entry has a score of 0 or more and the hold time "Hold for 1-3 days".
    So the lookup of the best timeframe in the report cannot fail, and
    the report never advises to exit. *)
Theorem best_is_recorded_and_holds (klines : fetcher) (crypto : string) :
  exists best results,
    analyze_best_timeframe klines crypto = Returns (best, results)
    /\ forall tf, best = Some tf ->
         In tf timeframes
         /\ exists s, getitem results tf = Some s
                      /\ (0 <= signal_strength s)%Z
                      /\ Estimated_Time_to_Hold s = "Hold for 1-3 days".
Proof.
  unfold analyze_best_timeframe. rewrite for_each_iteration. cbn [bind].
  eexists. eexists. split; [reflexivity |]. intros tf Hb.
  destruct (best_was_classified klines crypto tf Hb) as (HIn & s & Es & Hs).
  split; [exact HIn |]. exists s.
  rewrite results_fold.
  replace (existsb (String.eqb tf) timeframes) with true
    by (symmetry; apply existsb_eqb_In; exact HIn).
  rewrite Es. split; [reflexivity |]. split; [exact Hs |].
  pose proof (classified_cases klines crypto tf) as Hc.
  destruct (klines crypto tf) as [prices |]; [| congruence].
  destruct (length prices <? 14)%nat; [congruence |].
  destruct Hc as (r & k & d & a & s' & _ & _ & _ & Eg & Es').
  rewrite Es in Es'. injection Es' as <-.
  apply (nonneg_score_holds r k d a s Eg Hs).
Qed.

(* ------------------------------------------------------------------ *)
(** ** The report *)

Lemma timeframes_truthy (tf : string) :
  In tf timeframes -> truthy (Some tf) = true.
Proof.
  intros H. simpl in H.
  destruct H as [<- | [<- | [<- | [<- | []]]]]; reflexivity.
Qed.

(* ------------------------------------------------------------------ *)
(** ** Series by position *)

Lemma map_nth_lt {A B : Type} (f : A -> B) (l : list A) (i : nat) (d : A) (e : B) :
  (i < length l)%nat -> nth i (map f l) e = f (nth i l d).
Proof.
  intros H. rewrite (nth_indep (map f l) e (f d)) by (rewrite length_map; exact H).
  apply map_nth.
Qed.

Lemma nth_removelast {A : Type} (l : list A) (i : nat) (d : A) :
  (S i < length l)%nat -> nth i (removelast l) d = nth i l d.
Proof.
  revert i. induction l as [| x l IH]; intros i H; [simpl in H; lia |].
  destruct l as [| y l]; [simpl in H; lia |].
  change (nth i (x :: removelast (y :: l)) d = nth i (x :: y :: l) d).
  destruct i as [| i]; [reflexivity |].
  cbn [nth]. apply IH. simpl in H |- *. lia.
Qed.

Lemma last_nth {A : Type} (l : list A) (d : A) :
  last l d = nth (length l - 1) l d.
Proof.
  induction l as [| x l IH]; [reflexivity |].
  destruct l as [| y l]; [reflexivity |].
  change (last (y :: l) d = nth (length (y :: l)) (x :: y :: l) d).
  rewrite IH. cbn [length].
  replace (S (length l) - 1)%nat with (length l) by lia. reflexivity.
Qed.

Lemma of_floats_nth (l : list Q) (i : nat) :
  (i < length l)%nat -> nth i (Pandas.of_floats l) NaN = Fin (nth i l 0).
Proof. intros H. unfold Pandas.of_floats. apply map_nth_lt. exact H. Qed.

Lemma of_floats_length (l : list Q) : length (Pandas.of_floats l) = length l.
Proof. unfold Pandas.of_floats. apply length_map. Qed.

Lemma shift_nth_S (s : Pandas.Series) (j : nat) :
  (S j < length s)%nat -> nth (S j) (Pandas.shift s) NaN = nth j s NaN.
Proof.
  intros H. destruct s as [| x s]; [simpl in H; lia |].
  unfold Pandas.shift.
  change (nth j (removelast (x :: s)) NaN = nth j (x :: s) NaN).
  apply nth_removelast. exact H.
Qed.

(** The difference at a position: not-a-number at position 0, then the
    close minus the close before it. *)
Lemma diff_nth (l : list Q) (i : nat) :
  (i < length l)%nat ->
  nth i (Pandas.diff (Pandas.of_floats l)) NaN =
  match i with
  | O => NaN
  | S j => Fin (nth (S j) l 0 + - nth j l 0)
  end.
Proof.
  intros H. unfold Pandas.diff.
  rewrite map2_nth by (rewrite ?shift_length, of_floats_length; exact H).
  rewrite of_floats_nth by exact H.
  destruct i as [| j].
  - destruct l as [| x l]; [simpl in H; lia | reflexivity].
  - rewrite shift_nth_S by (rewrite of_floats_length; exact H).
    rewrite of_floats_nth by lia. reflexivity.
Qed.

Lemma rsi_gain_nth (l : list Q) (i : nat) :
  (i < length l)%nat ->
  nth i (rsi_gain l) NaN =
  let d := nth i (Pandas.diff (Pandas.of_floats l)) NaN in
  if gtb d (Fin 0) then d else Fin 0.
Proof.
  intros H. unfold rsi_gain, Pandas.gt_scalar. cbv zeta. rewrite where_map.
  apply (map_nth_lt (fun x => if gtb x (Fin 0) then x else Fin 0)).
  rewrite diff_length, of_floats_length. exact H.
Qed.

Lemma rsi_loss_nth (l : list Q) (i : nat) :
  (i < length l)%nat ->
  nth i (rsi_loss l) NaN =
  let d := nth i (Pandas.diff (Pandas.of_floats l)) NaN in
  neg (if ltb d (Fin 0) then d else Fin 0).
Proof.
  intros H. unfold rsi_loss, Pandas.lt_scalar. cbv zeta. rewrite where_map.
  rewrite (map_nth_lt neg _ i NaN NaN)
    by (rewrite length_map, diff_length, of_floats_length; exact H).
  f_equal. apply (map_nth_lt (fun x => if ltb x (Fin 0) then x else Fin 0)).
  rewrite diff_length, of_floats_length. exact H.
Qed.

Lemma ltb_Fin_lt (a b : Q) : a < b -> ltb (Fin a) (Fin b) = true.
Proof. intros H. unfold ltb. rewrite (proj1 (Qlt_alt a b) H). reflexivity. Qed.

(** Closes that never fall have no loss; closes that never rise have no
    gain. *)
Lemma never_falls_no_loss (l : list Q) :
  never_falls l -> Forall is_zero (rsi_loss l).
Proof.
  intros Hnf. apply Forall_nth. intros i d Hi. rewrite rsi_loss_length in Hi.
  rewrite (nth_indep _ d NaN) by (rewrite rsi_loss_length; exact Hi).
  rewrite rsi_loss_nth, diff_nth by exact Hi. cbv zeta.
  destruct i as [| j]; [reflexivity |].
  specialize (Hnf j Hi).
  rewrite ltb_Fin_false by lra. reflexivity.
Qed.

Lemma never_rises_no_gain (l : list Q) :
  never_rises l -> Forall is_zero (rsi_gain l).
Proof.
  intros Hnr. apply Forall_nth. intros i d Hi. rewrite rsi_gain_length in Hi.
  rewrite (nth_indep _ d NaN) by (rewrite rsi_gain_length; exact Hi).
  rewrite rsi_gain_nth, diff_nth by exact Hi. cbv zeta.
  destruct i as [| j]; [reflexivity |].
  specialize (Hnr j Hi). unfold gtb.
  rewrite ltb_Fin_false by lra. reflexivity.
Qed.

(** A last step up is a gain at the last position; a last step down is a
    loss there. *)
Lemma ends_up_last_gain (l : list Q) :
  ends_up l -> is_pos (last (rsi_gain l) NaN).
Proof.
  intros [Hlen Hup]. rewrite last_nth, rsi_gain_length.
  rewrite rsi_gain_nth, diff_nth by lia. cbv zeta.
  destruct (length l - 1)%nat as [| j] eqn:E; [lia |].
  replace (length l - 2)%nat with j in Hup by lia.
  unfold gtb. rewrite ltb_Fin_lt by lra. simpl. lra.
Qed.

Lemma ends_down_last_loss (l : list Q) :
  ends_down l -> is_pos (last (rsi_loss l) NaN).
Proof.
  intros [Hlen Hdown]. rewrite last_nth, rsi_loss_length.
  rewrite rsi_loss_nth, diff_nth by lia. cbv zeta.
  destruct (length l - 1)%nat as [| j] eqn:E; [lia |].
  replace (length l - 2)%nat with j in Hdown by lia.
  rewrite ltb_Fin_lt by lra. simpl. lra.
Qed.

(* ------------------------------------------------------------------ *)
(** ** Rolling means at the last position *)

Lemma window_at_length_eq (w : nat) (s : Pandas.Series) (i : nat) :
  (i < length s)%nat -> length (Pandas.window_at w s i) = Nat.min (S i) w.
Proof.
  intros H. unfold Pandas.window_at. rewrite length_skipn, length_firstn. lia.
Qed.

Lemma filter_notnan_finite (l : list float) :
  Forall finite l -> filter notnan l = l.
Proof.
  induction 1 as [| x l [q ->] _ IH]; [reflexivity |].
  simpl. rewrite IH. reflexivity.
Qed.

(** The observations of the last window of a Series of finite values. *)
Lemma observations_last (s : Pandas.Series) (w : nat) :
  Forall finite s -> s <> [] -> (1 <= w)%nat ->
  let obs := filter notnan (Pandas.window_at w s (length s - 1)) in
  length obs = Nat.min (length s) w
  /\ In (last s NaN) obs
  /\ (forall x, In x obs -> In x s).
Proof.
  intros Hfin Hne Hw obs.
  assert (Hlen : (0 < length s)%nat) by (destruct s; [congruence | simpl; lia]).
  assert (Hwin : Forall finite (Pandas.window_at w s (length s - 1))).
  { apply Forall_forall. intros x Hx. apply window_at_incl in Hx.
    rewrite Forall_forall in Hfin. apply Hfin. exact Hx. }
  unfold obs. rewrite (filter_notnan_finite _ Hwin).
  split; [rewrite window_at_length_eq by lia; lia |].
  split; [rewrite last_nth; apply window_at_own; lia |].
  intros x. apply window_at_incl.
Qed.

Lemma is_zero_finite (l : list float) : Forall is_zero l -> Forall finite l.
Proof.
  apply Forall_impl. intros [| | | q] H; simpl in H; try contradiction.
  exists q. reflexivity.
Qed.

Lemma sum_ge_member (l : list float) (g : Q) :
  Forall (ge_fin 0) l -> In (Fin g) l ->
  exists t, Pandas.sum l = Fin t /\ g <= t.
Proof.
  induction 1 as [| x l Hx Hl IH]; intros Hin; [destruct Hin |].
  destruct x as [| | | q]; simpl in Hx; try contradiction.
  destruct (sum_fin l (Forall_ge_fin_fin 0 l Hl)) as (t & Et & Hlo & _).
  specialize (Hlo 0 Hl). simpl. rewrite Et.
  destruct Hin as [E | Hin].
  - injection E as <-. exists (q + t). split; [reflexivity | lra].
  - destruct (IH Hin) as (t' & Et' & Hg). rewrite Et in Et'.
    injection Et' as <-. exists (q + t). split; [reflexivity | lra].
Qed.

(** The last rolling mean of zeros is zero. *)
Lemma mean_last_zero (s : Pandas.Series) (w minp : nat) :
  Forall is_zero s -> s <> [] -> (1 <= w)%nat ->
  (minp <= Nat.min (length s) w)%nat ->
  is_zero (last (Pandas.mean {| Pandas.obj := s; Pandas.window := w;
                                Pandas.min_periods := minp |}) NaN).
Proof.
  intros Hz Hne Hw Hminp. unfold Pandas.mean.
  rewrite aggregate_last by exact Hne.
  cbn [Pandas.obj Pandas.window Pandas.min_periods].
  destruct (observations_last s w (is_zero_finite s Hz) Hne Hw)
    as (Hlen & Hin & Hsub).
  cbv zeta in *. set (obs := filter notnan _) in *.
  replace (minp <=? length obs)%nat with true
    by (symmetry; apply Nat.leb_le; lia).
  assert (Hobs : Forall is_zero obs).
  { apply Forall_forall. intros x Hx. rewrite Forall_forall in Hz.
    apply Hz, Hsub, Hx. }
  destruct (mean_of_fin obs) as (m & -> & Hlo & Hhi).
  - intros E. rewrite E in Hin. destruct Hin.
  - apply is_zero_finite. exact Hobs.
  - assert (Hm0 : 0 <= m).
    { apply Hlo. revert Hobs. apply Forall_impl.
      intros [| | | q] Hq; simpl in Hq |- *; try contradiction. lra. }
    assert (Hm1 : m <= 0).
    { apply Hhi. revert Hobs. apply Forall_impl.
      intros [| | | q] Hq; simpl in Hq |- *; try contradiction. lra. }
    simpl. lra.
Qed.

(** The last rolling mean of values that are not negative is positive
    when the last value is. *)
Lemma mean_last_pos (s : Pandas.Series) (w minp : nat) :
  Forall (ge_fin 0) s -> is_pos (last s NaN) -> s <> [] -> (1 <= w)%nat ->
  (minp <= Nat.min (length s) w)%nat ->
  is_pos (last (Pandas.mean {| Pandas.obj := s; Pandas.window := w;
                               Pandas.min_periods := minp |}) NaN).
Proof.
  intros Hge Hpos Hne Hw Hminp. unfold Pandas.mean.
  rewrite aggregate_last by exact Hne.
  cbn [Pandas.obj Pandas.window Pandas.min_periods].
  destruct (observations_last s w (Forall_ge_fin_fin 0 s Hge) Hne Hw)
    as (Hlen & Hin & Hsub).
  cbv zeta in *. set (obs := filter notnan _) in *.
  replace (minp <=? length obs)%nat with true
    by (symmetry; apply Nat.leb_le; lia).
  assert (Hobs : Forall (ge_fin 0) obs).
  { apply Forall_forall. intros x Hx. rewrite Forall_forall in Hge.
    apply Hge, Hsub, Hx. }
  destruct (last s NaN) as [| | | g]; simpl in Hpos; try contradiction.
  destruct (sum_ge_member obs g Hobs Hin) as (t & Et & Hg).
  assert (Hc : 0 < count obs)
    by (apply count_pos; intros E; rewrite E in Hin; destruct Hin).
  unfold Pandas.mean_of. rewrite Et. fold (count obs).
  rewrite div_Fin_pos by exact Hc. simpl.
  apply Qlt_shift_div_l; [exact Hc | lra].
Qed.

(** The RSI formula at its two ends and on 0/0. *)
Lemma rsi_formula_100 (g l : float) :
  is_pos g -> is_zero l -> is_fin (rsi_formula g l) 100.
Proof.
  destruct g as [| | | a]; simpl; try contradiction.
  destruct l as [| | | b]; simpl; try contradiction.
  intros Ha Hb. unfold rsi_formula, div at 2.
  rewrite (sgn_zero b Hb), (sgn_pos a Ha). simpl. lra.
Qed.

Lemma rsi_formula_0 (g l : float) :
  is_zero g -> is_pos l -> is_fin (rsi_formula g l) 0.
Proof.
  destruct g as [| | | a]; simpl; try contradiction.
  destruct l as [| | | b]; simpl; try contradiction.
  intros Ha Hb. unfold rsi_formula.
  rewrite (div_Fin_pos a b Hb).
  assert (E : a / b == 0) by (rewrite Ha; field; lra).
  cbn [add]. rewrite div_Fin_pos by lra. simpl.
  rewrite E. field.
Qed.

Lemma rsi_formula_nan (g l : float) :
  is_zero g -> is_zero l -> rsi_formula g l = NaN.
Proof.
  destruct g as [| | | a]; simpl; try contradiction.
  destruct l as [| | | b]; simpl; try contradiction.
  intros Ha Hb. unfold rsi_formula, div at 2.
  rewrite (sgn_zero b Hb), (sgn_zero a Ha). reflexivity.
Qed.

Lemma rsi_series_nonempty (prices : list Q) (period : nat) :
  (1 <= period)%nat -> (period <= length prices)%nat ->
  rsi_gain prices <> [] /\ rsi_loss prices <> []
  /\ (1 <= Nat.min (length (rsi_gain prices)) period)%nat
  /\ (1 <= Nat.min (length (rsi_loss prices)) period)%nat.
Proof.
  intros H1 H2. rewrite rsi_gain_length, rsi_loss_length.
  repeat split; try lia; apply length_nonempty;
    rewrite ?rsi_gain_length, ?rsi_loss_length; lia.
Qed.

(** RSI of closes that never fall and end with a rise, of closes that
    never rise and end with a fall, and of closes that do neither. *)
Lemma rsi_of_rising (prices : list Q) (period : nat) :
  (1 <= period)%nat -> (period <= length prices)%nat ->
  never_falls prices -> ends_up prices ->
  exists v, calculate_rsi prices period = Returns (Some (Fin v)) /\ v == 100.
Proof.
  intros H1 H2 Hnf Hup. rewrite calculate_rsi_eq by assumption.
  destruct (rsi_series_nonempty prices period H1 H2) as (Ng & Nl & Mg & Ml).
  pose proof (rsi_formula_100 _ _
    (mean_last_pos (rsi_gain prices) period 1 (rsi_gain_nonneg prices)
       (ends_up_last_gain prices Hup) Ng H1 Mg)
    (mean_last_zero (rsi_loss prices) period 1
       (never_falls_no_loss prices Hnf) Nl H1 Ml)) as H.
  fold (rsi_avg_gain prices period) in H. fold (rsi_avg_loss prices period) in H.
  destruct (rsi_formula _ _) as [| | | v]; simpl in H; try contradiction.
  exists v. split; [reflexivity | exact H].
Qed.

Lemma rsi_of_falling (prices : list Q) (period : nat) :
  (1 <= period)%nat -> (period <= length prices)%nat ->
  never_rises prices -> ends_down prices ->
  exists v, calculate_rsi prices period = Returns (Some (Fin v)) /\ v == 0.
Proof.
  intros H1 H2 Hnr Hdown. rewrite calculate_rsi_eq by assumption.
  destruct (rsi_series_nonempty prices period H1 H2) as (Ng & Nl & Mg & Ml).
  pose proof (rsi_formula_0 _ _
    (mean_last_zero (rsi_gain prices) period 1
       (never_rises_no_gain prices Hnr) Ng H1 Mg)
    (mean_last_pos (rsi_loss prices) period 1 (rsi_loss_nonneg prices)
       (ends_down_last_loss prices Hdown) Nl H1 Ml)) as H.
  fold (rsi_avg_gain prices period) in H. fold (rsi_avg_loss prices period) in H.
  destruct (rsi_formula _ _) as [| | | v]; simpl in H; try contradiction.
  exists v. split; [reflexivity | exact H].
Qed.

Lemma rsi_of_flat (prices : list Q) (period : nat) :
  (1 <= period)%nat -> (period <= length prices)%nat ->
  never_falls prices -> never_rises prices ->
  calculate_rsi prices period = Returns (Some NaN).
Proof.
  intros H1 H2 Hnf Hnr. rewrite calculate_rsi_eq by assumption.
  destruct (rsi_series_nonempty prices period H1 H2) as (Ng & Nl & Mg & Ml).
  do 2 f_equal. apply rsi_formula_nan.
  - apply (mean_last_zero (rsi_gain prices) period 1
             (never_rises_no_gain prices Hnr) Ng H1 Mg).
  - apply (mean_last_zero (rsi_loss prices) period 1
             (never_falls_no_loss prices Hnf) Nl H1 Ml).
Qed.

Lemma rsi_label_high (v : Q) (k d atr : float) :
  70 < v ->
  exists s, get_trade_signal (Fin v) k (Some d) atr = Returns s
            /\ RSI_Signal s = "Overbought - Strong Sell".
Proof.
  intros Hv. unfold get_trade_signal, gt_optional.
  change (gtb (Fin v) (Fin 70)) with (ltb (Fin 70) (Fin v)).
  rewrite (ltb_Fin_lt 70 v Hv).
  destruct (gtb k (Fin 0.8)); [| destruct (ltb k (Fin 0.2))];
    cbn [bind]; eexists; split; reflexivity.
Qed.

Lemma rsi_label_low (v : Q) (k d atr : float) :
  v < 30 ->
  exists s, get_trade_signal (Fin v) k (Some d) atr = Returns s
            /\ RSI_Signal s = "Oversold - Strong Buy".
Proof.
  intros Hv. unfold get_trade_signal, gt_optional.
  change (gtb (Fin v) (Fin 70)) with (ltb (Fin 70) (Fin v)).
  rewrite (ltb_Fin_false 70 v) by lra. rewrite (ltb_Fin_lt v 30 Hv).
  destruct (gtb k (Fin 0.8)); [| destruct (ltb k (Fin 0.2))];
    cbn [bind]; eexists; split; reflexivity.
Qed.

(** X11: for closes that never fall and whose last close is above the
    one before it (so for every strictly rising series), of length at
    least the period, the RSI is exactly 100 and the RSI label is
    "Overbought - Strong Sell". *)
Theorem rising_closes_are_overbought (prices : list Q) (period : nat)
  (k d atr : float) :
  (1 <= period)%nat -> (period <= length prices)%nat ->
  never_falls prices -> ends_up prices ->
  exists v s,
    calculate_rsi prices period = Returns (Some (Fin v))
    /\ v == 100
    /\ get_trade_signal (Fin v) k (Some d) atr = Returns s
    /\ RSI_Signal s = "Overbought - Strong Sell".
Proof.
  intros H1 H2 Hnf Hup.
  destruct (rsi_of_rising prices period H1 H2 Hnf Hup) as (v & E & Hv).
  destruct (rsi_label_high v k d atr) as (s & Es & Hs); [lra |].
  exists v, s. repeat split; assumption.
Qed.

(** X12: for closes that never rise and whose last close is below the
    one before it, of length at least the period, the RSI is exactly 0
    and the RSI label is "Oversold - Strong Buy". *)
Theorem falling_closes_are_oversold (prices : list Q) (period : nat)
  (k d atr : float) :
  (1 <= period)%nat -> (period <= length prices)%nat ->
  never_rises prices -> ends_down prices ->
  exists v s,
    calculate_rsi prices period = Returns (Some (Fin v))
    /\ v == 0
    /\ get_trade_signal (Fin v) k (Some d) atr = Returns s
    /\ RSI_Signal s = "Oversold - Strong Buy".
Proof.
  intros H1 H2 Hnr Hdown.
  destruct (rsi_of_falling prices period H1 H2 Hnr Hdown) as (v & E & Hv).
  destruct (rsi_label_low v k d atr) as (s & Es & Hs); [lra |].
  exists v, s. repeat split; assumption.
Qed.

Lemma rising_closes_shape : never_falls rising_closes /\ ends_up rising_closes.
Proof.
  split.
  - intros i Hi.
    do 14 (destruct i as [| i]; [unfold Qle; simpl; lia |]).
    simpl in Hi. lia.
  - split; [simpl; lia | unfold Qlt; simpl; lia].
Qed.

Lemma falling_closes_shape : never_rises falling_closes /\ ends_down falling_closes.
Proof.
  split.
  - intros i Hi.
    do 14 (destruct i as [| i]; [unfold Qle; simpl; lia |]).
    simpl in Hi. lia.
  - split; [simpl; lia | unfold Qlt; simpl; lia].
Qed.

Lemma rising_closes_are_overbought_witness :
  exists v s,
    calculate_rsi rising_closes 14 = Returns (Some (Fin v))
    /\ v == 100
    /\ get_trade_signal (Fin v) (Fin 0.5) (Some (Fin 0.5)) (Fin 1) = Returns s
    /\ RSI_Signal s = "Overbought - Strong Sell".
Proof.
  apply (rising_closes_are_overbought rising_closes 14).
  - lia.
  - simpl. lia.
  - apply rising_closes_shape.
  - apply rising_closes_shape.
Defined.

Lemma falling_closes_are_oversold_witness :
  exists v s,
    calculate_rsi falling_closes 14 = Returns (Some (Fin v))
    /\ v == 0
    /\ get_trade_signal (Fin v) (Fin 0.5) (Some (Fin 0.5)) (Fin 1) = Returns s
    /\ RSI_Signal s = "Oversold - Strong Buy".
Proof.
  apply (falling_closes_are_oversold falling_closes 14).
  - lia.
  - simpl. lia.
  - apply falling_closes_shape.
  - apply falling_closes_shape.
Defined.

(* ------------------------------------------------------------------ *)
(** ** Not-a-number at the start of a rolling statistic *)

Lemma filter_length_lt {A : Type} (p : A -> bool) (l : list A) (x : A) :
  In x l -> p x = false -> (length (filter p l) < length l)%nat.
Proof.
  induction l as [| y l IH]; intros Hin Hp; [destruct Hin |].
  simpl. destruct Hin as [-> | Hin].
  - rewrite Hp. pose proof (filter_length_le p l). lia.
  - specialize (IH Hin Hp). destruct (p y); simpl; lia.
Qed.

(** A rolling statistic over a full window of [w] values is
    not-a-number wherever the window reaches back to a not-a-number, or
    before the start of the Series. *)
Lemma aggregate_nan_before (stat : list float -> float) (s : Pandas.Series)
  (w a : nat) :
  stat [] = NaN ->
  nan_before a s ->
  nan_before (a + w - 1) (Pandas.aggregate stat (full_window s w)).
Proof.
  intros Hstat Ha j Hj.
  destruct (Nat.lt_ge_cases j (length s)) as [Hlt | Hge].
  2:{ apply nth_overflow. rewrite aggregate_length. exact Hge. }
  rewrite aggregate_nth by exact Hlt. cbv zeta.
  cbn [Pandas.obj Pandas.window Pandas.min_periods full_window].
  set (win := Pandas.window_at w s j).
  destruct w as [| w'].
  { unfold win. rewrite window_at_0 by exact Hlt. simpl. exact Hstat. }
  assert (Hshort : (length (filter notnan win) < S w')%nat).
  { pose proof (filter_length_le notnan win) as Hle.
    pose proof (window_at_length_eq (S w') s j Hlt) as Hwl. fold win in Hwl.
    destruct (Nat.lt_ge_cases (S j) (S w')) as [Hs | Hs]; [lia |].
    assert (Hfirst : In (nth (S j - S w') s NaN) win).
    { unfold win, Pandas.window_at.
      replace (nth (S j - S w') s NaN)
        with (nth 0 (skipn (S j - S w') (firstn (S j) s)) NaN).
      - apply nth_In. rewrite length_skipn, length_firstn. lia.
      - rewrite nth_skipn, Nat.add_0_r, nth_firstn.
        replace (S j - S w' <? S j)%nat with true; [reflexivity |].
        symmetry. apply Nat.ltb_lt. lia. }
    rewrite (Ha (S j - S w')%nat) in Hfirst by lia.
    pose proof (filter_length_lt notnan win NaN Hfirst eq_refl). lia. }
  replace (S w' <=? length (filter notnan win))%nat with false
    by (symmetry; apply Nat.leb_gt; exact Hshort).
  reflexivity.
Qed.

(** The raw Stochastic RSI is not-a-number where the rolling minimum
    is. *)
Lemma stochrsi_raw_nan_before (s : Pandas.Series) (w a : nat) :
  nan_before a (Pandas.min (full_window s w)) ->
  nan_before a (stochrsi_raw s w).
Proof.
  intros Ha j Hj.
  destruct (Nat.lt_ge_cases j (length s)) as [Hlt | Hge].
  2:{ apply nth_overflow. rewrite stochrsi_raw_length. exact Hge. }
  assert (Lmin : length (Pandas.min (full_window s w)) = length s)
    by (unfold Pandas.min; apply aggregate_length).
  assert (Lmax : length (Pandas.max (full_window s w)) = length s)
    by (unfold Pandas.max; apply aggregate_length).
  unfold stochrsi_raw. cbv zeta.
  rewrite !map2_nth by (rewrite ?map2_length, ?Lmin, ?Lmax; lia).
  rewrite (Ha j Hj), sub_NaN_r. reflexivity.
Qed.

Lemma comprehension_nth {A B : Type} (f : A -> outcome B) (l : list A)
  (bs : list B) (j : nat) (d : A) (e : B) :
  comprehension f l = Returns bs -> (j < length l)%nat ->
  f (nth j l d) = Returns (nth j bs e).
Proof.
  revert bs j. induction l as [| a l IH]; intros bs j H Hj; [simpl in Hj; lia |].
  simpl in H. destruct (f a) as [x | b] eqn:Ea; [discriminate |].
  cbn [bind] in H.
  destruct (comprehension f l) as [x | bs'] eqn:El; [discriminate |].
  cbn [bind] in H. injection H as <-.
  destruct j as [| j]; [exact Ea |].
  cbn [nth]. apply IH; [reflexivity | simpl in Hj; lia].
Qed.

Lemma comprehension_length {A B : Type} (f : A -> outcome B) (l : list A)
  (bs : list B) :
  comprehension f l = Returns bs -> length bs = length l.
Proof.
  revert bs. induction l as [| a l IH]; intros bs H; simpl in H.
  - injection H as <-. reflexivity.
  - destruct (f a) as [x | b]; [discriminate |]. cbn [bind] in H.
    destruct (comprehension f l) as [x | bs']; [discriminate |].
    cbn [bind] in H. injection H as <-. simpl. f_equal. apply IH. reflexivity.
Qed.

(** A position of the RSI series inside [calculate_stochrsi]: the RSI of
    the prefix that ends there, [None] read as not-a-number. *)
Lemma stochrsi_rsi_series_nth (prices : list Q) (period : nat)
  (s : Pandas.Series) (j : nat) :
  stochrsi_rsi_series prices period = Returns s ->
  (j < length prices)%nat ->
  length s = length prices
  /\ exists o, calculate_rsi (firstn (S j) prices) period = Returns o
               /\ nth j s NaN = match o with Some x => x | None => NaN end.
Proof.
  unfold stochrsi_rsi_series.
  destruct (comprehension _ _) as [e | rsis] eqn:E; [discriminate |].
  cbn [bind]. intros H Hj. injection H as <-.
  pose proof (comprehension_length _ _ _ E) as Hlen. rewrite length_seq in Hlen.
  split; [unfold Pandas.of_optional; rewrite length_map; exact Hlen |].
  pose proof (comprehension_nth _ _ _ j 0%nat None E) as Hn.
  rewrite length_seq, seq_nth in Hn by exact Hj. specialize (Hn Hj).
  cbn [Nat.add] in Hn.
  exists (nth j rsis None). split; [exact Hn |].
  unfold Pandas.of_optional.
  apply (map_nth_lt (fun o => match o with Some x => x | None => NaN end)).
  lia.
Qed.

(** The first [period - 1] positions of the RSI series are
    not-a-number. *)
Lemma stochrsi_rsi_series_nan_before (prices : list Q) (period : nat)
  (s : Pandas.Series) :
  stochrsi_rsi_series prices period = Returns s ->
  nan_before (period - 1) s.
Proof.
  intros H j Hj.
  destruct (Nat.lt_ge_cases j (length prices)) as [Hlt | Hge].
  - destruct (stochrsi_rsi_series_nth prices period s j H Hlt)
      as (_ & o & Eo & ->).
    unfold calculate_rsi in Eo.
    replace (length (firstn (S j) prices) <? period)%nat with true in Eo
      by (symmetry; apply Nat.ltb_lt; rewrite length_firstn; lia).
    injection Eo as <-. reflexivity.
  - apply nth_overflow.
    unfold stochrsi_rsi_series in H.
    destruct (comprehension _ _) as [e | rsis] eqn:E; [discriminate |].
    cbn [bind] in H. injection H as <-.
    apply comprehension_length in E. rewrite length_seq in E.
    unfold Pandas.of_optional. rewrite length_map. lia.
Qed.

Lemma nan_before_le (a b : nat) (s : Pandas.Series) :
  (b <= a)%nat -> nan_before a s -> nan_before b s.
Proof. intros Hle Ha j Hj. apply Ha. lia. Qed.

(** With too little history %K and %D are not-a-number: the rolling
    minimum needs [period] RSI values, the first of which is at position
    [period - 1], %K needs [smoothK] raw values and %D needs [smoothD]
    values of %K. *)
Lemma stochrsi_short_history (prices : list Q) (period smoothK smoothD : nat) :
  (1 <= period)%nat -> (period <= length prices)%nat ->
  (length prices + 3 < 2 * period + smoothK + smoothD)%nat ->
  exists k,
    calculate_stochrsi prices period smoothK smoothD = Returns (Some k, Some NaN)
    /\ ((length prices + 2 < 2 * period + smoothK)%nat -> k = NaN).
Proof.
  intros H1 H2 H3.
  pose proof (calculate_stochrsi_returns prices period smoothK smoothD H1) as Hr.
  replace (length prices <? period)%nat with false in Hr
    by (symmetry; apply Nat.ltb_ge; exact H2).
  destruct Hr as (k & d & E).
  destruct (calculate_stochrsi_eq _ _ _ _ _ _ E) as (s & Es & Ek & Ed).
  pose proof (stochrsi_rsi_series_nan_before prices period s Es) as N0.
  assert (Ls : length s = length prices)
    by (apply (stochrsi_rsi_series_nth prices period s 0 Es); lia).
  pose proof (aggregate_nan_before Pandas.min_of s period _ eq_refl N0) as N1.
  fold (Pandas.min (full_window s period)) in N1.
  apply stochrsi_raw_nan_before in N1.
  pose proof (aggregate_nan_before Pandas.mean_of _ smoothK _ eq_refl N1) as N2.
  fold (Pandas.mean (full_window (stochrsi_raw s period) smoothK)) in N2.
  fold (stochrsi_k_series s period smoothK) in N2.
  pose proof (aggregate_nan_before Pandas.mean_of _ smoothD _ eq_refl N2) as N3.
  fold (Pandas.mean (full_window (stochrsi_k_series s period smoothK) smoothD))
    in N3.
  fold (stochrsi_d_series s period smoothK smoothD) in N3.
  rewrite last_nth, stochrsi_k_series_length, Ls in Ek.
  rewrite last_nth, stochrsi_d_series_length, Ls in Ed.
  rewrite (N3 (length prices - 1)%nat) in Ed by lia. simpl in Ed. subst d.
  exists k. split; [exact E |].
  intros H4. rewrite (N2 (length prices - 1)%nat) in Ek by lia. exact Ek.
Qed.

(** X13: with at least [period] prices but fewer than
    [2 * period + smoothK + smoothD - 3], [calculate_stochrsi] returns
    not-a-number for %D, and with fewer than [2 * period + smoothK - 2]
    for %K as well: values that are not [None].  With the defaults that
    is up to 30 and up to 28 prices. *)
Theorem stochrsi_needs_history (prices : list Q) (period smoothK smoothD : nat) :
  (1 <= period)%nat -> (period <= length prices)%nat ->
  (length prices + 3 < 2 * period + smoothK + smoothD)%nat ->
  exists k,
    calculate_stochrsi prices period smoothK smoothD = Returns (Some k, Some NaN)
    /\ ((length prices + 2 < 2 * period + smoothK)%nat -> k = NaN).
Proof.
  intros H1 H2 H3.
  destruct (stochrsi_short_history prices period smoothK smoothD H1 H2 H3)
    as (k & E & Hk).
  exists k. split; [exact E | exact Hk].
Qed.

Lemma stochrsi_needs_history_witness :
  exists k,
    calculate_stochrsi (firstn 28 zigzag_closes) 14 3 3 = Returns (Some k, Some NaN)
    /\ ((length (firstn 28 zigzag_closes) + 2 < 2 * 14 + 3)%nat -> k = NaN).
Proof.
  apply (stochrsi_needs_history (firstn 28 zigzag_closes) 14 3 3); simpl; lia.
Defined.

(** A timeframe with at least 14 prices and at most 28 is classified,
    with not-a-number for %K. *)
Lemma stochrsi_label_of_nan (rsi d atr : float) :
  exists s, get_trade_signal rsi NaN (Some d) atr = Returns s
            /\ StochRSI_Signal s = "Sell".
Proof.
  unfold get_trade_signal, gt_optional, gtb.
  rewrite !ltb_NaN_r, !ltb_NaN_l. cbn [bind]. eexists. split; reflexivity.
Qed.

(** X14: a timeframe for which the fetcher gives between 14 and 28 bars
    is classified, and its StochRSI label is "Sell" whatever the prices
    are: %K is not-a-number there and every comparison with it fails. *)
Theorem few_bars_always_sell (klines : fetcher) (crypto tf : string)
  (prices : list bar) :
  klines crypto tf = Some prices ->
  (14 <= length prices <= 28)%nat ->
  exists s, classified klines crypto tf = Some s
            /\ StochRSI_Signal s = "Sell".
Proof.
  intros Hk [Hlo Hhi].
  pose proof (classified_cases klines crypto tf) as Hc. rewrite Hk in Hc.
  replace (length prices <? 14)%nat with false in Hc
    by (symmetry; apply Nat.ltb_ge; exact Hlo).
  destruct Hc as (r & k & d & a & s & _ & Es & _ & Eg & Ec).
  destruct (stochrsi_short_history (map close prices) 14 3 3)
    as (k' & Es' & Hk'); rewrite ?length_map; try lia.
  rewrite Es in Es'. injection Es' as <- ->.
  rewrite Hk' in Eg by (rewrite length_map; lia).
  destruct (stochrsi_label_of_nan r NaN a) as (s' & Eg' & Hs').
  rewrite Eg in Eg'. injection Eg' as <-.
  exists s. split; [exact Ec | exact Hs'].
Qed.

Lemma few_bars_always_sell_witness :
  exists s, classified (always (bars_of (firstn 20 zigzag_closes))) "BTCUSDT" "1h"
            = Some s
            /\ StochRSI_Signal s = "Sell".
Proof.
  apply (few_bars_always_sell (always (bars_of (firstn 20 zigzag_closes)))
           "BTCUSDT" "1h" (bars_of (firstn 20 zigzag_closes))).
  - reflexivity.
  - simpl. lia.
Defined.

(* ------------------------------------------------------------------ *)
(** ** A flat market *)

Lemma never_falls_firstn (l : list Q) (k : nat) :
  never_falls l -> never_falls (firstn k l).
Proof.
  intros H i Hi. rewrite length_firstn in Hi. rewrite !nth_firstn.
  replace (i <? k)%nat with true by (symmetry; apply Nat.ltb_lt; lia).
  replace (S i <? k)%nat with true by (symmetry; apply Nat.ltb_lt; lia).
  apply H. lia.
Qed.

Lemma never_rises_firstn (l : list Q) (k : nat) :
  never_rises l -> never_rises (firstn k l).
Proof.
  intros H i Hi. rewrite length_firstn in Hi. rewrite !nth_firstn.
  replace (i <? k)%nat with true by (symmetry; apply Nat.ltb_lt; lia).
  replace (S i <? k)%nat with true by (symmetry; apply Nat.ltb_lt; lia).
  apply H. lia.
Qed.

(** A rolling statistic of a Series that is not-a-number throughout is
    not-a-number throughout. *)
Lemma aggregate_all_nan (stat : list float -> float) (s : Pandas.Series) (w : nat) :
  stat [] = NaN ->
  nan_before (length s) s ->
  nan_before (length s) (Pandas.aggregate stat (full_window s w)).
Proof.
  intros Hstat Ha. destruct w as [| w'].
  - intros j Hj. rewrite aggregate_nth by exact Hj. cbv zeta.
    cbn [Pandas.obj Pandas.window Pandas.min_periods full_window].
    rewrite window_at_0 by exact Hj. simpl. exact Hstat.
  - apply (nan_before_le (length s + S w' - 1)); [lia |].
    apply aggregate_nan_before; assumption.
Qed.

(** On closes that neither rise nor fall %K and %D are not-a-number. *)
Lemma stochrsi_of_flat (prices : list Q) (period smoothK smoothD : nat) :
  (1 <= period)%nat -> (period <= length prices)%nat ->
  never_falls prices -> never_rises prices ->
  calculate_stochrsi prices period smoothK smoothD = Returns (Some NaN, Some NaN).
Proof.
  intros H1 H2 Hnf Hnr.
  pose proof (calculate_stochrsi_returns prices period smoothK smoothD H1) as Hr.
  replace (length prices <? period)%nat with false in Hr
    by (symmetry; apply Nat.ltb_ge; exact H2).
  destruct Hr as (k & d & E).
  destruct (calculate_stochrsi_eq _ _ _ _ _ _ E) as (s & Es & Ek & Ed).
  assert (Ls : length s = length prices)
    by (apply (stochrsi_rsi_series_nth prices period s 0 Es); lia).
  assert (N0 : nan_before (length s) s).
  { intros j Hj. rewrite Ls in Hj.
    destruct (stochrsi_rsi_series_nth prices period s j Es Hj)
      as (_ & o & Eo & ->).
    pose proof (calculate_rsi_returns_iff (firstn (S j) prices) period H1) as Hc.
    destruct (length (firstn (S j) prices) <? period)%nat eqn:El.
    - rewrite Eo in Hc. injection Hc as ->. reflexivity.
    - apply Nat.ltb_ge in El.
      rewrite (rsi_of_flat (firstn (S j) prices) period H1 El
                 (never_falls_firstn _ _ Hnf) (never_rises_firstn _ _ Hnr)) in Eo.
      injection Eo as <-. reflexivity. }
  pose proof (aggregate_all_nan Pandas.min_of s period eq_refl N0) as N1.
  fold (Pandas.min (full_window s period)) in N1.
  apply stochrsi_raw_nan_before in N1.
  assert (N1' : nan_before (length (stochrsi_raw s period)) (stochrsi_raw s period))
    by (rewrite stochrsi_raw_length; exact N1).
  pose proof (aggregate_all_nan Pandas.mean_of _ smoothK eq_refl N1') as N2.
  fold (Pandas.mean (full_window (stochrsi_raw s period) smoothK)) in N2.
  fold (stochrsi_k_series s period smoothK) in N2.
  assert (N2' : nan_before (length (stochrsi_k_series s period smoothK))
                  (stochrsi_k_series s period smoothK)).
  { intros j Hj. apply N2. rewrite stochrsi_raw_length.
    rewrite stochrsi_k_series_length in Hj. exact Hj. }
  pose proof (aggregate_all_nan Pandas.mean_of _ smoothD eq_refl N2') as N3.
  fold (Pandas.mean (full_window (stochrsi_k_series s period smoothK) smoothD))
    in N3.
  fold (stochrsi_d_series s period smoothK smoothD) in N3.
  rewrite last_nth in Ek, Ed.
  rewrite (N2' _) in Ek by (rewrite !stochrsi_k_series_length; lia).
  rewrite (N3 _) in Ed
    by (rewrite stochrsi_d_series_length, stochrsi_k_series_length; lia).
  simpl in Ek, Ed. subst k d. exact E.
Qed.

Lemma max_Fin_zero (a b : Q) :
  a == 0 -> b == 0 -> exists m, Float.max (Fin a) (Fin b) = Fin m /\ m == 0.
Proof.
  intros Ha Hb. unfold Float.max. destruct (ltb (Fin a) (Fin b)).
  - exists b. split; [reflexivity | exact Hb].
  - exists a. split; [reflexivity | exact Ha].
Qed.

Lemma Qabs_zero (x : Q) : x == 0 -> Qabs x == 0.
Proof.
  intros H. pose proof (Qabs_nonneg x) as H0.
  assert (H1 : Qabs x <= 0) by (apply Qabs_Qle_condition; lra).
  lra.
Qed.

Lemma tr_next_flat (c prev : Q) (b : bar) :
  prev == c -> high b == c -> low b == c -> is_zero (tr_next prev b).
Proof.
  intros Hp Hh Hl. unfold tr_next, Pandas.max_of. cbn [fold_left].
  destruct (max_Fin_zero (high b + - low b) (Qabs (high b + - prev)))
    as (m & -> & Hm); [lra | apply Qabs_zero; lra |].
  destruct (max_Fin_zero m (Qabs (low b + - prev)))
    as (m' & -> & Hm'); [exact Hm | apply Qabs_zero; lra |].
  exact Hm'.
Qed.

Lemma tr_rest_flat (c prev : Q) (bars : list bar) :
  prev == c -> flat_at c bars -> Forall is_zero (tr_rest prev bars).
Proof.
  intros Hp H. revert prev Hp.
  induction H as [| b bars (Hh & Hl & Hc) _ IH]; intros prev Hp; simpl;
    constructor; [apply (tr_next_flat c); assumption | apply IH; exact Hc].
Qed.

Lemma true_range_flat (c : Q) (bars : list bar) :
  flat_at c bars -> Forall is_zero (true_range bars).
Proof.
  intros H. destruct H as [| b bars (Hh & Hl & Hc) H]; [constructor |].
  rewrite true_range_cons. constructor.
  - unfold tr_first. simpl. lra.
  - apply (tr_rest_flat c); assumption.
Qed.

Lemma round_zero (x : float) (n : nat) : is_zero x -> is_zero (round x n).
Proof.
  destruct x as [| | | q]; simpl; try contradiction. intros Hq.
  pose proof (pow10_pos n) as Hp.
  set (p := inject_Z (10 ^ Z.of_nat n)) in *.
  assert (Hr : rint (q * p) = 0%Z).
  { assert ((0 <= rint (q * p))%Z)
      by (apply rint_ge; change (inject_Z 0) with 0; rewrite Hq; lra).
    assert ((rint (q * p) <= 0)%Z)
      by (apply rint_le; change (inject_Z 0) with 0; rewrite Hq; lra).
    lia. }
  rewrite Hr. change (inject_Z 0) with 0. field. lra.
Qed.

(** On bars that all sit at one price the ATR is zero. *)
Lemma atr_of_flat (c : Q) (bars : list bar) (period : nat) :
  (1 <= period)%nat -> (period <= length bars)%nat ->
  flat_at c bars ->
  exists v, calculate_atr bars period = Returns (Some (Fin v)) /\ v == 0.
Proof.
  intros H1 H2 Hflat.
  pose proof (calculate_atr_returns_iff bars period H1) as Hr.
  replace (length bars <? period)%nat with false in Hr
    by (symmetry; apply Nat.ltb_ge; exact H2).
  destruct Hr as (v & E).
  destruct (calculate_atr_eq bars period v E) as (Hne & Ev).
  assert (Hz : is_zero v).
  { rewrite Ev. apply round_zero. unfold atr_series, full_window.
    apply mean_last_zero.
    - apply (true_range_flat c). exact Hflat.
    - apply length_nonempty. rewrite true_range_length. lia.
    - exact H1.
    - rewrite true_range_length. lia. }
  destruct v as [| | | q]; simpl in Hz; try contradiction.
  exists q. split; [exact E | exact Hz].
Qed.

Lemma flat_closes (c : Q) (bars : list bar) :
  flat_at c bars ->
  never_falls (map close bars) /\ never_rises (map close bars).
Proof.
  intros H.
  assert (Hn : forall i, (i < length bars)%nat -> nth i (map close bars) 0 == c).
  { intros i Hi.
    rewrite (map_nth_lt close bars i (flat_bar 0) 0 Hi).
    unfold flat_at in H. rewrite Forall_forall in H.
    apply H. apply nth_In. exact Hi. }
  split; intros i Hi; rewrite length_map in Hi;
    rewrite (Hn i), (Hn (S i)) by lia; lra.
Qed.

(** X15: on bars that all sit at one price, with at least [period] of
    them, the RSI, %K and %D are not-a-number (0/0), not [None] and not
    100, and the ATR is zero. *)
Theorem flat_market_indicators (c : Q) (bars : list bar)
  (period smoothK smoothD : nat) :
  (1 <= period)%nat -> (period <= length bars)%nat ->
  flat_at c bars ->
  calculate_rsi (map close bars) period = Returns (Some NaN)
  /\ calculate_stochrsi (map close bars) period smoothK smoothD
     = Returns (Some NaN, Some NaN)
  /\ exists v, calculate_atr bars period = Returns (Some (Fin v)) /\ v == 0.
Proof.
  intros H1 H2 Hflat. destruct (flat_closes c bars Hflat) as [Hnf Hnr].
  split; [apply rsi_of_flat; rewrite ?length_map; assumption |].
  split; [apply stochrsi_of_flat; rewrite ?length_map; assumption |].
  apply (atr_of_flat c); assumption.
Qed.

Lemma flat_bars_flat (c : Q) (n : nat) : flat_at c (repeat (flat_bar c) n).
Proof.
  apply Forall_forall. intros b Hb. apply repeat_spec in Hb. subst b.
  simpl. repeat split; reflexivity.
Qed.

Lemma flat_market_indicators_witness :
  calculate_rsi (map close (repeat (flat_bar 7) 20)) 14 = Returns (Some NaN)
  /\ calculate_stochrsi (map close (repeat (flat_bar 7) 20)) 14 3 3
     = Returns (Some NaN, Some NaN)
  /\ exists v, calculate_atr (repeat (flat_bar 7) 20) 14 = Returns (Some (Fin v))
               /\ v == 0.
Proof.
  apply (flat_market_indicators 7 (repeat (flat_bar 7) 20) 14 3 3).
  - lia.
  - simpl. lia.
  - apply flat_bars_flat.
Defined.

Lemma flat_classification (a : Q) :
  a == 0 -> get_trade_signal NaN NaN (Some NaN) (Fin a) = Returns flat_signals.
Proof.
  intros Ha. unfold get_trade_signal, gt_optional.
  replace (eqb (Fin a) (Fin 0)) with true
    by (symmetry; apply Qeq_bool_iff; exact Ha).
  reflexivity.
Qed.

(** X16: a timeframe on which the market is flat, with at least 14 bars,
    is recorded as Neutral / Sell / Sideways (Low volatility) / Exit
    within hours; its score is -1 and it is never the best timeframe. *)
Theorem flat_timeframe_is_never_best (klines : fetcher) (crypto tf : string)
  (c : Q) (bars : list bar) :
  In tf timeframes ->
  klines crypto tf = Some bars ->
  (14 <= length bars)%nat ->
  flat_at c bars ->
  exists best results,
    analyze_best_timeframe klines crypto = Returns (best, results)
    /\ getitem results tf = Some flat_signals
    /\ signal_strength flat_signals = (-1)%Z
    /\ best <> Some tf.
Proof.
  intros HIn Hk Hlen Hflat.
  assert (Ec : classified klines crypto tf = Some flat_signals).
  { pose proof (classified_cases klines crypto tf) as Hc. rewrite Hk in Hc.
    replace (length bars <? 14)%nat with false in Hc
      by (symmetry; apply Nat.ltb_ge; exact Hlen).
    destruct Hc as (r & k & d & a & s & Er & Es & Ea & Eg & Ec).
    destruct (flat_closes c bars Hflat) as [Hnf Hnr].
    rewrite rsi_of_flat in Er by (rewrite ?length_map; assumption || lia).
    rewrite stochrsi_of_flat in Es by (rewrite ?length_map; assumption || lia).
    destruct (atr_of_flat c bars 14) as (v & Ev & Hv); [lia | exact Hlen | exact Hflat |].
    rewrite Ea in Ev. injection Er as <-. injection Es as <- <-.
    injection Ev as ->. rewrite (flat_classification v Hv) in Eg.
    injection Eg as <-. exact Ec. }
  unfold analyze_best_timeframe. rewrite for_each_iteration. cbn [bind].
  eexists. eexists. split; [reflexivity |].
  rewrite results_fold.
  replace (existsb (String.eqb tf) timeframes) with true
    by (symmetry; apply existsb_eqb_In; exact HIn).
  rewrite Ec. split; [reflexivity |]. split; [reflexivity |].
  intros Hb. destruct (best_was_classified klines crypto tf Hb)
    as (_ & s & Es & Hs).
  rewrite Ec in Es. injection Es as <-. vm_compute in Hs. apply Hs. reflexivity.
Qed.

Lemma flat_timeframe_is_never_best_witness :
  exists best results,
    analyze_best_timeframe (always (repeat (flat_bar 7) 20)) "BTCUSDT"
    = Returns (best, results)
    /\ getitem results "4h" = Some flat_signals
    /\ signal_strength flat_signals = (-1)%Z
    /\ best <> Some "4h".
Proof.
  apply (flat_timeframe_is_never_best (always (repeat (flat_bar 7) 20))
           "BTCUSDT" "4h" 7 (repeat (flat_bar 7) 20)).
  - simpl. auto.
  - reflexivity.
  - simpl. lia.
  - apply flat_bars_flat.
Defined.

(* ------------------------------------------------------------------ *)
(** ** Raising and returning *)

(** X17: the indicator functions raise only on a period of 0, where
    pandas refuses a window below [min_periods=1]: [calculate_rsi] raises
    ValueError and [calculate_stochrsi], which calls it, raises too.
    With a period of 1 or more the three functions return, and return
    [None] exactly when the input is shorter than the period;
    [calculate_stochrsi] returns [(None, None)] or two floats, never one
    of each. *)
Theorem indicators_raise_only_on_period_0 (prices : list Q) (bars : list bar)
  (period smoothK smoothD : nat) :
  match period with
  | O =>
      calculate_rsi prices 0 = Raises ValueError
      /\ exists e, calculate_stochrsi prices 0 smoothK smoothD = Raises e
  | S _ =>
      (if (length prices <? period)%nat
       then calculate_rsi prices period = Returns None
            /\ calculate_stochrsi prices period smoothK smoothD
               = Returns (None, None)
       else exists v k d,
              calculate_rsi prices period = Returns (Some v)
              /\ calculate_stochrsi prices period smoothK smoothD
                 = Returns (Some k, Some d))
      /\ (if (length bars <? period)%nat
          then calculate_atr bars period = Returns None
          else exists a, calculate_atr bars period = Returns (Some a))
  end.
Proof.
  destruct period as [| p].
  - split; [reflexivity |].
    destruct prices as [| x prices]; eexists; reflexivity.
  - pose proof (calculate_rsi_returns_iff prices (S p)) as Hr.
    pose proof (calculate_stochrsi_returns prices (S p) smoothK smoothD) as Hs.
    pose proof (calculate_atr_returns_iff bars (S p)) as Ha.
    split; [| apply Ha; lia].
    destruct (length prices <? S p)%nat.
    + split; [apply Hr | apply Hs]; lia.
    + destruct Hr as (v & Ev); [lia |]. destruct Hs as (k & d & Es); [lia |].
      exists v, k, d. split; assumption.
Qed.

(* ------------------------------------------------------------------ *)
(** ** The fetcher under the selector *)

Lemma fetcher_of_refused {entry : Type} (ohlc : entry -> option bar)
  (requests_get : string -> string -> nat -> nat -> reply entry)
  (symbol interval : string) :
  (forall a, (a < 3)%nat -> refused requests_get symbol interval 100 a) ->
  fetcher_of ohlc requests_get symbol interval = None.
Proof.
  intros H. unfold fetcher_of, get_historical_klines.
  destruct (attempts_refused ohlc requests_get symbol interval 100 3 3
              (seq 0 3) [] (refused_before requests_get symbol interval 100 3 H))
    as [_ Er].
  rewrite app_nil_r in Er. rewrite Er. reflexivity.
Qed.

(** X18: on a network where [requests.get] never raises, a timeframe
    whose three attempts are all answered with a status other than 200
    is skipped by [analyze_best_timeframe]: the analysis still returns,
    [results] has no entry for the timeframe and it is not the best. *)
Theorem refused_timeframe_is_skipped {entry : Type}
  (ohlc : entry -> option bar)
  (requests_get : string -> string -> nat -> nat -> reply entry)
  (symbol tf : string) :
  never_fails requests_get ->
  (forall a, (a < 3)%nat -> refused requests_get symbol tf 100 a) ->
  exists best results,
    analyze_best_timeframe (fetcher_of ohlc requests_get) symbol
    = Returns (best, results)
    /\ getitem results tf = None
    /\ best <> Some tf.
Proof.
  intros _ H.
  pose proof (fetcher_of_refused ohlc requests_get symbol tf H) as Hf.
  pose proof (classified_cases (fetcher_of ohlc requests_get) symbol tf) as Hc.
  rewrite Hf in Hc.
  unfold analyze_best_timeframe. rewrite for_each_iteration. cbn [bind].
  eexists. eexists. split; [reflexivity |]. split.
  - rewrite results_fold, Hc. destruct (existsb _ _); reflexivity.
  - intros Hb.
    destruct (best_was_classified _ symbol tf Hb) as (_ & s & Es & _).
    rewrite Hc in Es. discriminate Es.
Qed.

Lemma refused_timeframe_is_skipped_witness :
  exists best results,
    analyze_best_timeframe (fetcher_of example_ohlc down_network) "BTCUSDT"
    = Returns (best, results)
    /\ getitem results "1h" = None
    /\ best <> Some "1h".
Proof.
  apply (refused_timeframe_is_skipped example_ohlc down_network "BTCUSDT" "1h").
  - intros symbol interval limit attempt. discriminate.
  - intros a _. exists 500%Z, Undecodable. split; [reflexivity | discriminate].
Defined.

Lemma fetcher_of_success {entry : Type} (ohlc : entry -> option bar)
  (requests_get : string -> string -> nat -> nat -> reply entry)
  (symbol interval : string) (k : nat) (body : payload entry) :
  (k < 3)%nat ->
  (forall a, (a < k)%nat -> refused requests_get symbol interval 100 a) ->
  requests_get symbol interval 100%nat k = Response 200 body ->
  fetcher_of ohlc requests_get symbol interval
  = snd (decode ohlc symbol interval body).
Proof.
  intros Hk H E. unfold fetcher_of, get_historical_klines.
  rewrite (seq_split_at k 3 Hk).
  destruct (attempts_refused ohlc requests_get symbol interval 100 3 3
              (seq 0 k) (k :: seq (S k) (3 - S k))
              (refused_before requests_get symbol interval 100 k H))
    as [_ Er].
  rewrite Er. cbn [attempts]. rewrite E. cbn [Z.eqb Pos.eqb].
  destruct (decode ohlc symbol interval body) as [printed prices].
  reflexivity.
Qed.

Lemma decode_entries {entry : Type} (ohlc : entry -> option bar)
  (symbol interval : string) (data : list entry) (bars : list bar) :
  convert ohlc data = Some bars -> data <> [] ->
  snd (decode ohlc symbol interval (Entries data)) = Some bars.
Proof.
  intros Hc Hne. unfold decode. destruct data as [| e data]; [congruence |].
  rewrite Hc. reflexivity.
Qed.

(** X20: on a network where [requests.get] never raises, a timeframe
    whose first response with status 200 comes within the three attempts
    and carries at least 14 entries that all convert is recorded in
    [results], with the signals of the converted bars. *)
Theorem fetched_timeframe_is_recorded {entry : Type}
  (ohlc : entry -> option bar)
  (requests_get : string -> string -> nat -> nat -> reply entry)
  (symbol tf : string) (k : nat) (data : list entry) (bars : list bar) :
  never_fails requests_get ->
  In tf timeframes ->
  (k < 3)%nat ->
  (forall a, (a < k)%nat -> refused requests_get symbol tf 100 a) ->
  requests_get symbol tf 100%nat k = Response 200 (Entries data) ->
  convert ohlc data = Some bars ->
  (14 <= length data)%nat ->
  exists best results r kk d a s,
    analyze_best_timeframe (fetcher_of ohlc requests_get) symbol
    = Returns (best, results)
    /\ calculate_rsi (map close bars) 14 = Returns (Some r)
    /\ calculate_stochrsi (map close bars) 14 3 3 = Returns (Some kk, Some d)
    /\ calculate_atr bars 14 = Returns (Some a)
    /\ get_trade_signal r kk (Some d) a = Returns s
    /\ getitem results tf = Some s.
Proof.
  intros _ HIn Hk H E Hc Hlen.
  assert (Hf : fetcher_of ohlc requests_get symbol tf = Some bars).
  { rewrite (fetcher_of_success ohlc requests_get symbol tf k _ Hk H E).
    apply decode_entries; [exact Hc |]. destruct data; [simpl in Hlen; lia | discriminate]. }
  assert (Hb : length bars = length data).
  { symmetry. apply (Forall2_length (proj1 (convert_Forall2 ohlc data bars) Hc)). }
  pose proof (classified_cases (fetcher_of ohlc requests_get) symbol tf) as Hcl.
  rewrite Hf in Hcl.
  replace (length bars <? 14)%nat with false in Hcl
    by (symmetry; apply Nat.ltb_ge; lia).
  destruct Hcl as (r & kk & d & a & s & Er & Es & Ea & Eg & Ec).
  unfold analyze_best_timeframe. rewrite for_each_iteration. cbn [bind].
  eexists. eexists. exists r, kk, d, a, s.
  split; [reflexivity |]. repeat (split; [assumption |]).
  rewrite results_fold.
  replace (existsb (String.eqb tf) timeframes) with true
    by (symmetry; apply existsb_eqb_In; exact HIn).
  rewrite Ec. reflexivity.
Qed.

Lemma fetched_timeframe_is_recorded_witness :
  exists best results r kk d a s,
    analyze_best_timeframe (fetcher_of example_ohlc slow_network) "BTCUSDT"
    = Returns (best, results)
    /\ calculate_rsi (map close (bars_of zigzag_closes)) 14 = Returns (Some r)
    /\ calculate_stochrsi (map close (bars_of zigzag_closes)) 14 3 3
       = Returns (Some kk, Some d)
    /\ calculate_atr (bars_of zigzag_closes) 14 = Returns (Some a)
    /\ get_trade_signal r kk (Some d) a = Returns s
    /\ getitem results "1d" = Some s.
Proof.
  apply (fetched_timeframe_is_recorded example_ohlc slow_network "BTCUSDT" "1d" 1
           (map (fun c => [0; c; c; c; c]) zigzag_closes) (bars_of zigzag_closes)).
  - intros symbol interval limit [| attempt]; discriminate.
  - simpl. auto.
  - lia.
  - intros a Ha. assert (a = 0%nat) as -> by lia.
    exists 503%Z, Undecodable. split; [reflexivity | discriminate].
  - reflexivity.
  - reflexivity.
  - simpl. lia.
Defined.

(* ------------------------------------------------------------------ *)
(** ** The open price *)

Lemma true_range_ignores_open (bars bars' : list bar) :
  map high bars = map high bars' -> map low bars = map low bars' ->
  map close bars = map close bars' ->
  true_range bars = true_range bars'.
Proof. intros Hh Hl Hc. unfold true_range. rewrite Hh, Hl, Hc. reflexivity. Qed.

Lemma calculate_atr_ignores_open (bars bars' : list bar) (period : nat) :
  map high bars = map high bars' -> map low bars = map low bars' ->
  map close bars = map close bars' ->
  calculate_atr bars period = calculate_atr bars' period.
Proof.
  intros Hh Hl Hc. unfold calculate_atr.
  rewrite (true_range_ignores_open bars bars' Hh Hl Hc).
  replace (length bars) with (length bars'); [reflexivity |].
  rewrite <- (length_map close bars'), <- Hc. apply length_map.
Qed.

(** X19: the analysis never reads the open price: two fetchers whose
    bars agree on high, low and close give the same best timeframe and
    the same results. *)
Theorem open_price_is_never_used (klines klines' : fetcher) (crypto : string) :
  (forall tf,
     match klines crypto tf, klines' crypto tf with
     | Some bars, Some bars' =>
         map high bars = map high bars' /\ map low bars = map low bars'
         /\ map close bars = map close bars'
     | None, None => True
     | _, _ => False
     end) ->
  analyze_best_timeframe klines crypto = analyze_best_timeframe klines' crypto.
Proof.
  intros H. unfold analyze_best_timeframe. f_equal.
  assert (Hit : forall st tf,
            iteration klines crypto st tf = iteration klines' crypto st tf).
  { intros st tf. unfold iteration. specialize (H tf).
    destruct (klines crypto tf) as [bars |], (klines' crypto tf) as [bars' |];
      try contradiction; [| reflexivity].
    destruct H as (Hh & Hl & Hc).
    rewrite (calculate_atr_ignores_open bars bars' 14 Hh Hl Hc), Hc.
    destruct bars as [| b bars], bars' as [| b' bars']; try discriminate Hc;
      reflexivity. }
  generalize initial. induction timeframes as [| tf tfs IH]; intros st;
    [reflexivity |].
  cbn [for_each]. rewrite Hit.
  destruct (iteration klines' crypto st tf) as [e | st']; [reflexivity |].
  cbn [bind]. apply IH.
Qed.

Lemma open_price_is_never_used_witness :
  analyze_best_timeframe (always (bars_of zigzag_closes)) "BTCUSDT"
  = analyze_best_timeframe
      (always (map (fun b => {| open := 0; high := high b; low := low b;
                                close := close b |}) (bars_of zigzag_closes)))
      "BTCUSDT".
Proof.
  apply (open_price_is_never_used
           (always (bars_of zigzag_closes))
           (always (map (fun b => {| open := 0; high := high b; low := low b;
                                     close := close b |}) (bars_of zigzag_closes)))
           "BTCUSDT").
  intros tf. unfold always. repeat split; reflexivity.
Defined.

(* ------------------------------------------------------------------ *)
(** ** The program over a network *)

Section OverNetwork.

Context {entry : Type}.
Variable ohlc : entry -> option bar.
Variable requests_get : string -> string -> nat -> nat -> reply entry.
Variable crypto : string.

Local Abbreviation fetched_at := (fetched ohlc requests_get crypto).
Local Abbreviation the_fetcher := (fetcher_of ohlc requests_get).

Lemma fetcher_of_fetched (tf : string) (prices : option (list bar)) :
  fetched_at tf = Gives prices -> the_fetcher crypto tf = prices.
Proof. unfold fetched, fetcher_of. intros ->. reflexivity. Qed.

(** Either the call for some timeframe ends with the exception, or every
    call returns. *)
Lemma fetched_cases (tfs : list string) :
  (exists tf, In tf tfs /\ fetched_at tf = Propagates)
  \/ (forall tf, In tf tfs -> exists prices, fetched_at tf = Gives prices).
Proof.
  induction tfs as [| a tfs [(tf & Hin & E) | IH]].
  - right. intros tf [].
  - left. exists tf. split; [right; exact Hin | exact E].
  - destruct (fetched_at a) as [| prices] eqn:E.
    + left. exists a. split; [left; reflexivity | exact E].
    + right. intros tf [<- | Hin]; [exists prices; exact E | apply IH; exact Hin].
Qed.

(** When every call returns, the loop is the loop over the fetcher. *)
Lemma analyze_timeframes_gives (todo : list string) (st : selection) :
  (forall tf, In tf todo -> exists prices, fetched_at tf = Gives prices) ->
  analyze_timeframes ohlc requests_get crypto todo st
  = Gives (for_each (iteration the_fetcher crypto) todo st).
Proof.
  revert st. induction todo as [| tf todo IH]; intros st H; [reflexivity |].
  cbn [analyze_timeframes for_each].
  destruct (H tf (or_introl eq_refl)) as (prices & E).
  unfold fetched in E. rewrite E.
  assert (Eit : iteration (fun _ _ => prices) crypto st tf
                = iteration the_fetcher crypto st tf).
  { unfold iteration. rewrite (fetcher_of_fetched tf prices E). reflexivity. }
  rewrite Eit, iteration_eq. cbn [bind].
  apply IH. intros tf' Hin. apply H. right. exact Hin.
Qed.

(** When the call for some timeframe ends with the exception, so does
    the loop. *)
Lemma analyze_timeframes_propagates (todo : list string) (st : selection)
  (tf : string) :
  In tf todo -> fetched_at tf = Propagates ->
  analyze_timeframes ohlc requests_get crypto todo st = Propagates.
Proof.
  revert st. induction todo as [| a todo IH]; intros st Hin E; [destruct Hin |].
  cbn [analyze_timeframes].
  destruct (snd (get_historical_klines ohlc requests_get crypto a 100 3 3))
    as [| prices] eqn:Ea; [reflexivity |].
  destruct Hin as [-> | Hin]; [unfold fetched in E; congruence |].
  assert (Eit : iteration (fun _ _ => prices) crypto st a
                = iteration the_fetcher crypto st a).
  { unfold iteration. rewrite (fetcher_of_fetched a prices Ea). reflexivity. }
  rewrite Eit, iteration_eq. apply IH; assumption.
Qed.

Lemma analyze_net_gives :
  (forall tf, In tf timeframes -> exists prices, fetched_at tf = Gives prices) ->
  analyze_best_timeframe_net ohlc requests_get crypto
  = Gives (analyze_best_timeframe the_fetcher crypto).
Proof.
  intros H. unfold analyze_best_timeframe_net, analyze_best_timeframe.
  rewrite (analyze_timeframes_gives timeframes initial H).
  rewrite for_each_iteration. reflexivity.
Qed.

Lemma analyze_net_propagates (tf : string) :
  In tf timeframes -> fetched_at tf = Propagates ->
  analyze_best_timeframe_net ohlc requests_get crypto = Propagates.
Proof.
  intros Hin E. unfold analyze_best_timeframe_net.
  rewrite (analyze_timeframes_propagates timeframes initial tf Hin E).
  reflexivity.
Qed.

Lemma fetcher_of_Some (tf : string) (prices : list bar) :
  the_fetcher crypto tf = Some prices <-> fetched_at tf = Gives (Some prices).
Proof.
  unfold fetcher_of, fetched.
  destruct (snd (get_historical_klines ohlc requests_get crypto tf 100 3 3))
    as [| r]; split; intros H; try discriminate H; congruence.
Qed.

(** X8: with [get_historical_klines] in place, [analyze_best_timeframe]
    ends with the exception of [requests.get] when the call for one of
    the four timeframes ends with it, and returns otherwise.  When it
    returns, [results] has an entry for a timeframe exactly when it is
    one of the four timeframes and the call gave at least 14 bars for
    it; the entry is what [get_trade_signal] gives for the three
    indicators of these bars. *)
Theorem results_hold_the_classified :
  ((exists tf, In tf timeframes /\ fetched_at tf = Propagates)
   /\ analyze_best_timeframe_net ohlc requests_get crypto = Propagates)
  \/ ((forall tf, In tf timeframes -> exists prices, fetched_at tf = Gives prices)
      /\ exists best results,
           analyze_best_timeframe_net ohlc requests_get crypto
           = Gives (Returns (best, results))
           /\ forall tf,
                ((exists s, getitem results tf = Some s) <->
                 (In tf timeframes
                  /\ exists prices, fetched_at tf = Gives (Some prices)
                                    /\ (14 <= length prices)%nat))
                /\ (forall s, getitem results tf = Some s ->
                      exists prices r k d a,
                        fetched_at tf = Gives (Some prices)
                        /\ calculate_rsi (map close prices) 14 = Returns (Some r)
                        /\ calculate_stochrsi (map close prices) 14 3 3
                           = Returns (Some k, Some d)
                        /\ calculate_atr prices 14 = Returns (Some a)
                        /\ get_trade_signal r k (Some d) a = Returns s)).
Proof.
  destruct (fetched_cases timeframes) as [(tf & Hin & E) | Hall].
  - left. split; [exists tf; split; assumption |].
    apply (analyze_net_propagates tf Hin E).
  - right. split; [exact Hall |].
    rewrite (analyze_net_gives Hall).
    destruct (results_of_fetcher the_fetcher crypto)
      as (best & results & E & Hres).
    exists best, results. rewrite E. split; [reflexivity |].
    intros tf. destruct (Hres tf) as [Hiff Hentry]. split.
    + rewrite Hiff. split; intros (Hin & prices & Hp & Hlen);
        (split; [exact Hin |]); exists prices; (split; [| exact Hlen]);
        apply fetcher_of_Some; exact Hp.
    + intros s Hs.
      destruct (Hentry s Hs) as (prices & r & k & d & a & Hp & Hrest).
      exists prices, r, k, d, a. split; [apply fetcher_of_Some; exact Hp | exact Hrest].
Qed.

End OverNetwork.

(** X10: [check_crypto_rsi] never raises a KeyError on the lookup of the
    best timeframe.  When the call of [get_historical_klines] for one of
    the four timeframes ends with the exception of [requests.get], the
    exception leaves [check_crypto_rsi] after the heading is printed.
    Otherwise the function completes: after the heading it prints either
    "No strong signal detected.", exactly when no timeframe has a score
    of 0 or more (also when timeframes were classified), or the first
    timeframe with the highest score followed by its four signals in the
    order of the dictionary, the last of which is always "Estimated Time
    to Hold: Hold for 1-3 days". *)
Theorem report_is_complete {entry : Type} (upper : string -> string)
  (ohlc : entry -> option bar)
  (requests_get : string -> string -> nat -> nat -> reply entry)
  (crypto_pair : string) :
  let symbol := String.append (upper crypto_pair) "USDT" in
  let heading :=
    String.append "Analyzing "
      (String.append (upper crypto_pair) "USDT across multiple timeframes...") in
  let klines := fetcher_of ohlc requests_get in
  ((exists tf, In tf timeframes
               /\ fetched ohlc requests_get symbol tf = Propagates)
   /\ check_crypto_rsi upper ohlc requests_get crypto_pair = Interrupted [heading])
  \/ ((forall tf, In tf timeframes ->
                  exists prices, fetched ohlc requests_get symbol tf = Gives prices)
      /\ exists lines,
           check_crypto_rsi upper ohlc requests_get crypto_pair = Completes lines
           /\ ((lines = [heading; "No strong signal detected."]
                /\ forall tf s, In tf timeframes ->
                                score klines symbol tf = Some s -> (s <= -1)%Z)
               \/ exists tf signals,
                    first_maximum (score klines symbol) timeframes tf
                    /\ classified klines symbol tf = Some signals
                    /\ lines =
                       [heading;
                        String.append newline
                          (String.append "Best Timeframe: " tf);
                        String.append "RSI Signal: " (RSI_Signal signals);
                        String.append "StochRSI Signal: "
                          (StochRSI_Signal signals);
                        String.append "ATR Signal: " (ATR_Signal signals);
                        "Estimated Time to Hold: Hold for 1-3 days"])).
Proof.
  intros symbol heading klines. unfold check_crypto_rsi.
  fold symbol. fold heading.
  destruct (fetched_cases ohlc requests_get symbol timeframes)
    as [(tf & Hin & E) | Hall].
  { left. split; [exists tf; split; assumption |].
    rewrite (analyze_net_propagates ohlc requests_get symbol tf Hin E).
    reflexivity. }
  right. split; [exact Hall |].
  rewrite (analyze_net_gives ohlc requests_get symbol Hall). fold klines.
  unfold analyze_best_timeframe.
  rewrite for_each_iteration. cbn [bind].
  pose proof (invariant_fold (classified klines symbol) timeframes []
                initial (invariant_initial _)) as Hinv.
  cbn [app] in Hinv. unfold invariant in Hinv.
  change (strength_of (classified klines symbol)) with (score klines symbol)
    in Hinv.
  pose proof (best_was_classified klines symbol) as Hbest.
  pose proof (fun tf => results_fold (classified klines symbol) timeframes
                          initial tf) as Hres.
  set (final := fold_left _ _ _) in *. clearbody final.
  destruct (best_timeframe final) as [tf |].
  - destruct (Hbest tf eq_refl) as (HIn & s & Es & Hs).
    rewrite (timeframes_truthy tf HIn).
    rewrite Hres.
    replace (existsb (String.eqb tf) timeframes) with true
      by (symmetry; apply existsb_eqb_In; exact HIn).
    rewrite Es. eexists. split; [reflexivity |]. right.
    exists tf, s.
    destruct Hinv as (pre & post & E & Eb & Hb & Hpre & Hpost).
    split; [exists pre, post, (best_signal_strength final);
            repeat split; assumption |].
    split; [exact Es |].
    pose proof (classified_cases klines symbol tf) as Hc.
    destruct (klines symbol tf) as [prices |]; [| congruence].
    destruct (length prices <? 14)%nat; [congruence |].
    destruct Hc as (r & k & d & a & s' & _ & _ & _ & Eg & Es').
    rewrite Es in Es'. injection Es' as <-.
    pose proof (nonneg_score_holds r k d a s Eg Hs) as Hhold.
    unfold items. cbn [map fst snd]. rewrite Hhold. reflexivity.
  - cbn [truthy]. eexists. split; [reflexivity |]. left.
    split; [reflexivity |]. destruct Hinv as (_ & Hall'). exact Hall'.
Qed.

Lemma results_hold_the_classified_witness :
  analyze_best_timeframe_net example_ohlc broken_network "BTCUSDT" = Propagates
  /\ exists best results s,
       analyze_best_timeframe_net example_ohlc slow_network "BTCUSDT"
       = Gives (Returns (best, results))
       /\ getitem results "1h" = Some s.
Proof.
  split.
  - destruct (results_hold_the_classified example_ohlc broken_network "BTCUSDT")
      as [(_ & E) | (Hall & _)]; [exact E |].
    destruct (Hall "15m") as (prices & Hp); [simpl; auto | discriminate Hp].
  - destruct (results_hold_the_classified example_ohlc slow_network "BTCUSDT")
      as [((tf & Hin & E) & _) | (_ & best & results & E & Hres)].
    + simpl in Hin.
      destruct Hin as [<- | [<- | [<- | [<- | []]]]]; discriminate E.
    + destruct (proj2 (proj1 (Hres "1h"))) as (s & Hs).
      { split; [simpl; auto |]. exists (bars_of zigzag_closes).
        split; [reflexivity | simpl; lia]. }
      exists best, results, s. split; [exact E | exact Hs].
Defined.

Lemma report_is_complete_witness :
  check_crypto_rsi (fun s => s) example_ohlc broken_network "BTC"
  = Interrupted ["Analyzing BTCUSDT across multiple timeframes..."].
Proof.
  destruct (report_is_complete (fun s => s) example_ohlc broken_network "BTC")
    as [(_ & E) | (Hall & _)]; [exact E |].
  destruct (Hall "15m") as (prices & Hp); [simpl; auto | discriminate Hp].
Defined.
